(** * azure-cost-exporter: the metric exporter of [src/app/exporter.py]

    A shallow embedding of [MetricExporter] (credential lookup, query
    construction, row mapping with the merge-minor policy, the fetch cycle)
    and the properties of the specification that concern it.

    The exporter talks to collaborators that are not part of the
    repository: the clock ([datetime.today()]), the billing API
    ([azure_client.query.usage]), the SDK's client constructors and the
    Prometheus gauge.  The first two are read through an abstract world
    state; what the constructors and the gauge refuse is a parameter of the
    model ([credential_error], [gauge_error]), with the gauge of
    [prometheus_client] as the instance [prometheus_gauge].  Every effect
    that leaves the process (points written to the gauge, API requests, log
    lines, prints) is recorded, in order, in a trace of events. *)

From Stdlib Require Import ZArith Floats Lia.
From stdpp Require Import gmap strings list fin_maps.

(** ** Python values and exceptions *)

(** The values that occur in a row of the billing API's JSON answer and,
    from there, in a label set. *)
Inductive pyval : Type :=
| PyNone
| PyInt (z : Z)
| PyFloat (f : float)
| PyStr (s : string).

(** A number of the YAML configuration ([threshold]). *)
Inductive pynum : Type :=
| NumInt (z : Z)
| NumFloat (f : float).

(** The exceptions the exporter can meet.  [HttpResponseError] stands for the
    Azure SDK's class and its subclasses (what [except HttpResponseError]
    catches); [OtherError] for any other exception the SDK raises. *)
Inductive exn : Type :=
| IndexError
| KeyError (key : string)
| TypeError
| ValueError (msg : string)
| OverflowError
| HttpResponseError (reason : string)
| OtherError (name : string).

(** [float(z)] for an int: the nearest binary64 number (ties to even), or
    [OverflowError] when that is out of range. *)
Definition Z_to_float (z : Z) : exn + float :=
  match binary_normalize prec emax z 0 false with
  | S754_infinity _ => inl OverflowError
  | sf => inr (SF2Prim sf)
  end.

(** Python compares a float with an int by value, without rounding the int. *)
Definition SFcompare_Z (f : spec_float) (z : Z) : option comparison :=
  match f with
  | S754_nan => None
  | S754_infinity s => Some (if s then Lt else Gt)
  | S754_zero _ => Some (0 ?= z)%Z
  | S754_finite s m e =>
      let v := if s then Z.neg m else Z.pos m in
      Some (if (0 <=? e)%Z then (v * 2 ^ e ?= z)%Z else (v ?= z * 2 ^ (- e))%Z)
  end.

Definition float_compare_Z (x : float) (z : Z) : option comparison :=
  SFcompare_Z (Prim2SF x) z.

(** [x < y], [x >= y] and [x > 0] for a float [x]. *)
Definition float_lt (x : float) (y : pynum) : bool :=
  match y with
  | NumInt z => match float_compare_Z x z with Some Lt => true | _ => false end
  | NumFloat f => (x <? f)%float
  end.

Definition float_ge (x : float) (y : pynum) : bool :=
  match y with
  | NumInt z =>
      match float_compare_Z x z with Some Gt | Some Eq => true | _ => false end
  | NumFloat f => (f <=? x)%float
  end.

(** [v == n] for a row element [v] and an int [n]. *)
Definition py_eq_int (v : pyval) (n : Z) : bool :=
  match v with
  | PyInt z => (z =? n)%Z
  | PyFloat f => match float_compare_Z f n with Some Eq => true | _ => false end
  | PyStr _ | PyNone => false
  end.

(** [d.update(o)]: the entries of [o] win. *)
Definition dict_update {V} (d o : gmap string V) : gmap string V := o ∪ d.

(** ** Dates *)

Inductive timezone : Type := utc.

Record datetime : Type := mk_datetime {
  year : Z; month : Z; day : Z;
  hour : Z; minute : Z; second : Z; microsecond : Z;
  tzinfo : option timezone }.

Definition is_leap (y : Z) : bool :=
  ((y mod 4 =? 0) && (negb (y mod 100 =? 0) || (y mod 400 =? 0)))%Z.

Definition days_in_month (y m : Z) : Z :=
  if (m =? 2)%Z then (if is_leap y then 29 else 28)%Z
  else if ((m =? 4) || (m =? 6) || (m =? 9) || (m =? 11))%Z then 30%Z
  else 31%Z.

(** The invariant of a [datetime] object's date part (years 1 to 9999). *)
Definition valid_date (d : datetime) : Prop :=
  (1 <= year d <= 9999 /\ 1 <= month d <= 12 /\
   1 <= day d <= days_in_month (year d) (month d))%Z.

(** [d - relativedelta(days=1)]: the same time of day on the previous
    calendar day; before 0001-01-01 there is no date. *)
Definition minus_one_day (d : datetime) : exn + datetime :=
  let at_date y m dd :=
    mk_datetime y m dd (hour d) (minute d) (second d) (microsecond d) (tzinfo d) in
  if (1 <? day d)%Z then inr (at_date (year d) (month d) (day d - 1)%Z)
  else if (1 <? month d)%Z then
    inr (at_date (year d) (month d - 1)%Z (days_in_month (year d) (month d - 1)))
  else if (1 <? year d)%Z then inr (at_date (year d - 1)%Z 12%Z 31%Z)
  else inl OverflowError.

(** [int(d.strftime("%Y%m%d"))]: month and day are printed on two digits, so
    the digits read back as this number whatever the width of the year. *)
Definition int_strftime_Ymd (d : datetime) : Z :=
  (year d * 10000 + month d * 100 + day d)%Z.

(** [d.toordinal()]: the day number in the proleptic Gregorian calendar. *)
Definition days_before_year (y : Z) : Z :=
  (365 * (y - 1) + (y - 1) / 4 - (y - 1) / 100 + (y - 1) / 400)%Z.

Fixpoint days_before_month_nat (y : Z) (m : nat) : Z :=
  match m with
  | O => 0%Z
  | S k => (days_before_month_nat y k + days_in_month y (Z.of_nat (S k)))%Z
  end.

Definition days_before_month (y m : Z) : Z :=
  days_before_month_nat y (Z.to_nat (m - 1)).

Definition toordinal (d : datetime) : Z :=
  (days_before_year (year d) + days_before_month (year d) (month d) + day d)%Z.

(** ** Configuration and collaborators' data *)

(** One record of a tenant's credential set in the secrets. *)
Record credential : Type := mk_credential {
  SubscriptionId : string; client_id : string; client_secret : string }.

(** The client that [CostManagementClient(credential=ClientSecretCredential(...))]
    gives when the constructors take their arguments: what it was built
    from. *)
Record CostManagementClient : Type := mk_client {
  cl_tenant_id : string; cl_client_id : string; cl_client_secret : string }.

Record group : Type := mk_group {
  group_type : string; group_name : string; label_name : string }.

Record merge_minor_cost_policy : Type := mk_merge {
  merge_enabled : bool; threshold : pynum; tag_value : string }.

Record group_by_config : Type := mk_group_by {
  enabled : bool; groups : list group;
  merge_minor_cost : merge_minor_cost_policy }.

Record QueryGrouping : Type := mk_grouping {
  grouping_type : string; grouping_name : string }.

Record QueryAggregation : Type := mk_aggregation {
  aggregation_name : string; aggregation_function : string }.

Record QueryDataset : Type := mk_dataset {
  granularity : string;
  aggregation : list (string * QueryAggregation);
  grouping : list QueryGrouping }.

Record QueryTimePeriod : Type := mk_period {
  from_property : datetime; to_property : datetime }.

Record QueryDefinition : Type := mk_query {
  query_type : string; dataset : QueryDataset;
  timeframe : string; time_period : QueryTimePeriod }.

(** [result.as_dict()]: the key ["rows"] is there when the answer has rows. *)
Record QueryResult : Type := mk_result { rows : option (list (list pyval)) }.

(** ** Effects *)

(** What the exporter does to the outside, one constructor per statement:
    the point written to the gauge (the gauge's [labels], when it takes the
    label names, then [set]), the API request, [logging.error] and the four
    [print]s. *)
Inductive event : Type :=
| GaugeSet (labels : gmap string pyval) (v : float)
| QueryUsage (c : CostManagementClient) (scope : string) (q : QueryDefinition)
| LogError (subscription_id reason : string)
| PrintQuerying (tenant_id : string)
| PrintProcessing (subscription_id : string)
| PrintExposing (labels : gmap string pyval) (cost : float)
| PrintExposingMerged (labels : gmap string pyval) (cost : float).

Inductive outcome (A : Type) : Type :=
| Return (a : A)
| Raise (e : exn).
Arguments Return {A} a.
Arguments Raise {A} e.

(** [Gauge.labels] called with keywords, for a gauge created with the label
    names [labelnames]: the names given must be those, or the call raises
    [ValueError]. *)
Definition prometheus_gauge (labelnames names : gset string) : option exn :=
  if bool_decide (names = labelnames) then None
  else Some (ValueError "Incorrect label names").

(** The points written to the gauge, in order. *)
Definition gauge_sets (t : list event) : list (gmap string pyval * float) :=
  omap (λ ev, match ev with GaugeSet l v => Some (l, v) | _ => None end) t.

(** ** Start-up: [src/main.py] *)

(** The character of the string "=". *)
Definition equals_sign : Ascii.ascii :=
  Ascii.Ascii true false true true true true false false.

(** [s.split(sep)] for a separator of one character. *)
Fixpoint split_on (sep : Ascii.ascii) (s : string) : list string :=
  match s with
  | EmptyString => [EmptyString]
  | String c s' =>
      if decide (c = sep) then EmptyString :: split_on sep s'
      else match split_on sep s' with
           | h :: t => String c h :: t
           | [] => [String c EmptyString]
           end
  end.

(** [key_value_arg.__call__], lines 16-24, from the empty dict of line 18:
    the dict stored in the namespace when the loop ends, and whether it ended
    on the [assert] of line 21 ([true]) or normally ([false]). *)
Fixpoint key_value_loop (values : list string) (d : gmap string string)
    : gmap string string * bool :=
  match values with
  | [] => (d, false)
  | kvpair :: values' =>
      match split_on equals_sign kvpair with
      | [key; value] => key_value_loop values' (<[key := value]> d)
      | _ => (d, true)
      end
  end.

Definition key_value_arg (values : list string) : gmap string string * bool :=
  key_value_loop values ∅.

(** [generate_secret_yaml], lines 28-38: the dict that is dumped to the
    secrets file, one placeholder record per target under its tenant. *)
Fixpoint needed_secrets_loop
    (ts : list (gmap string string)) (needed_secrets : gmap string (list credential))
    : exn + gmap string (list credential) :=
  match ts with
  | [] => inr needed_secrets
  | target :: ts' =>
      match target !! "TenantId" with
      | None => inl (KeyError "TenantId")
      | Some tenant_id =>
          let needed_secrets :=
            match needed_secrets !! tenant_id with
            | None => <[tenant_id := []]> needed_secrets
            | Some _ => needed_secrets
            end in
          match target !! "Subscription" with
          | None => inl (KeyError "Subscription")
          | Some subscription =>
              needed_secrets_loop ts'
                (<[tenant_id :=
                     default [] (needed_secrets !! tenant_id) ++
                     [mk_credential subscription
                        "PUT_CLIENT_ID_HERE" "PUT_CLIENT_SECRET_HERE"]]>
                   needed_secrets)
          end
      end
  end.

Definition generate_secret_yaml (ts : list (gmap string string))
    : exn + gmap string (list credential) :=
  needed_secrets_loop ts ∅.

(** What [get_configs] finds on disk: whether the two paths exist and are
    files. *)
Record startup_files : Type := mk_files {
  config_exists : bool; config_isfile : bool;
  secret_exists : bool; secret_isfile : bool }.

(** A tenant's entry of the secrets file as loaded: a list of records, or
    anything else. *)
Inductive secret_entry : Type :=
| SecretList (subs : list (gmap string string))
| SecretOther.

(** The ways [get_configs] ends: one constructor per [logging.error] followed
    by [sys.exit(1)] (the missing secrets file with the template written for
    it), an exception, or the config and the secrets it returns. *)
Inductive startup : Type :=
| ExitConfigFile
| ExitNoTarget
| ExitMandatoryKeys
| ExitKeySets
| ExitSecretGenerated (written : gmap string (list credential))
| ExitSecretNotAFile
| ExitTenantSecret (tenant_id : string)
| ExitCredentials (tenant_id : string)
| Raised (e : exn)
| Configs (ts : list (gmap string string)) (secret : gmap string secret_entry).

(** Line 94: a record of the secrets lacks one of its three keys. *)
Definition incomplete_credentials (sub : gmap string string) : bool :=
  bool_decide ("SubscriptionId" ∉ dom sub) || bool_decide ("client_id" ∉ dom sub)
  || bool_decide ("client_secret" ∉ dom sub).

(** Lines 87-96: the loop over the targets that checks the secrets. *)
Fixpoint validate_secret
    (ts : list (gmap string string)) (secret : gmap string secret_entry)
    : option startup :=
  match ts with
  | [] => None
  | tenant :: ts' =>
      match tenant !! "TenantId" with
      | None => Some (Raised (KeyError "TenantId"))
      | Some tenant_id =>
          match secret !! tenant_id with
          | Some (SecretList subs) =>
              if existsb incomplete_credentials subs
              then Some (ExitCredentials tenant_id)
              else validate_secret ts' secret
          | _ => Some (ExitTenantSecret tenant_id)
          end
      end
  end.

(** [get_configs], lines 53-98.  [config] is what [EnvYAML(args.config)] and
    the reads of [target_azure_accounts] in it give, [secret] what
    [EnvYAML(args.secret)] gives: the exception raised (a file that does not
    parse, a variable that is not defined, a key that is missing), or the
    targets and the secrets loaded.  Each is loaded only where the code loads
    it, line 57 and line 84. *)
Definition get_configs
    (files : startup_files) (config : exn + list (gmap string string))
    (secret : exn + gmap string secret_entry) : startup :=
  if negb (config_exists files) || negb (config_isfile files) then ExitConfigFile
  else
    match config with
    | inl e => Raised e
    | inr [] => ExitNoTarget
    | inr ((first :: others) as ts) =>
        let labels := dom first in
        if bool_decide ("TenantId" ∉ labels) || bool_decide ("Subscription" ∉ labels)
        then ExitMandatoryKeys
        else if existsb (λ t, bool_decide (labels ≠ dom t)) others then ExitKeySets
        else if negb (secret_exists files) then
          match generate_secret_yaml ts with
          | inl e => Raised e
          | inr written => ExitSecretGenerated written
          end
        else if negb (secret_isfile files) then ExitSecretNotAFile
        else
          match secret with
          | inl e => Raised e
          | inr secret =>
              match validate_secret ts secret with
              | Some stop => stop
              | None => Configs ts secret
              end
          end
    end.


(** The number of occurrences of a character in a string. *)
Fixpoint string_count (c : Ascii.ascii) (s : string) : nat :=
  match s with
  | EmptyString => 0
  | String c' s' => (if decide (c' = c) then 1 else 0) + string_count c s'
  end.

(** The command-line form [key=value] of a pair. *)
Definition kvpair_of (kv : string * string) : string :=
  kv.1 +:+ String equals_sign kv.2.

(** The subscriptions that the targets declare under a tenant, in order. *)
Definition subscriptions_of (tenant_id : string) (ts : list (gmap string string))
    : list string :=
  omap (λ t : gmap string string,
          if decide (t !! "TenantId" = Some tenant_id) then t !! "Subscription"
          else None) ts.

Definition placeholder_credential (subscription : string) : credential :=
  mk_credential subscription "PUT_CLIENT_ID_HERE" "PUT_CLIENT_SECRET_HERE".

(** The secrets as the exporter reads them: the records of a tenant by their
    three keys. *)
Definition credential_of (sub : gmap string string) : credential :=
  mk_credential (default "" (sub !! "SubscriptionId"))
    (default "" (sub !! "client_id")) (default "" (sub !! "client_secret")).

Definition loaded_credentials (secret : gmap string secret_entry)
    : gmap string (list credential) :=
  omap (λ entry, match entry with
                 | SecretList subs => Some (credential_of <$> subs)
                 | SecretOther => None
                 end) secret.

(** The secrets with every [SubscriptionId] replaced through [f]. *)
Definition rename_subscriptions (f : string → string) (entry : secret_entry)
    : secret_entry :=
  match entry with
  | SecretList subs => SecretList (alter f "SubscriptionId" <$> subs)
  | SecretOther => SecretOther
  end.

(** What the load of the secrets file gives, renamed in the same way. *)
Definition rename_loaded (f : string → string)
    (secret : exn + gmap string secret_entry) : exn + gmap string secret_entry :=
  match secret with
  | inl e => inl e
  | inr secret => inr (rename_subscriptions f <$> secret)
  end.

(** What [get_configs] requires of the files, of the targets and the secrets
    once loaded. *)
Definition valid_startup
    (files : startup_files) (ts : list (gmap string string))
    (secret : gmap string secret_entry) : Prop :=
  config_exists files = true ∧ config_isfile files = true ∧
  secret_exists files = true ∧ secret_isfile files = true ∧
  (∃ first others,
     ts = first :: others ∧ "TenantId" ∈ dom first ∧ "Subscription" ∈ dom first ∧
     Forall (λ t : gmap string string, dom t = dom first) ts) ∧
  Forall (λ t : gmap string string,
            ∃ tenant_id subs,
              t !! "TenantId" = Some tenant_id ∧
              secret !! tenant_id = Some (SecretList subs) ∧
              Forall (λ sub : gmap string string,
                        "SubscriptionId" ∈ dom sub ∧ "client_id" ∈ dom sub ∧
                        "client_secret" ∈ dom sub) subs) ts.


(** ** Example inputs *)

(** A clock that stands at 2024-01-02 10:30, a parser that knows no string,
    one tenant with two subscriptions. *)
Definition ex_today : unit → datetime * unit :=
  λ w, (mk_datetime 2024 1 2 10 30 0 0 None, w).

Definition ex_str_to_float : string → option float := λ _, None.

Definition ex_account : gmap string string :=
  {["TenantId" := "T1"; "Subscription" := "S1"; "EnvironmentName" := "prod"]}.

Definition ex_account_S3 : gmap string string :=
  {["TenantId" := "T1"; "Subscription" := "S3"; "EnvironmentName" := "dev"]}.

Definition ex_secrets : gmap string (list credential) :=
  {["T1" := [mk_credential "S1" "id1" "secret1"; mk_credential "S2" "id2" "secret2"]]}.

Definition ex_secrets_S1 : gmap string (list credential) :=
  {["T1" := [mk_credential "S1" "id1" "secret1"]]}.

Definition ex_secrets_three : gmap string (list credential) :=
  {["T1" := [mk_credential "S1" "id1" "secret1"; mk_credential "S2" "id2" "secret2";
             mk_credential "S3" "id3" "secret3"]]}.

Definition ex_ungrouped : group_by_config :=
  mk_group_by false [] (mk_merge false (NumInt 0) "other").

Definition ex_grouped : group_by_config :=
  mk_group_by true [mk_group "Dimension" "ServiceName" "Team"]
    (mk_merge true (NumInt 5) "other").

(** An API that answers every request with the same rows. *)
Definition ex_usage (cost_rows : list (list pyval))
    : CostManagementClient → string → QueryDefinition → unit →
      (exn + QueryResult) * unit :=
  λ _ _ _ w, (inr (mk_result (Some cost_rows)), w).

(** An API that fails with an HTTP error on one scope. *)
Definition ex_usage_failing (scope : string) (cost_rows : list (list pyval))
    : CostManagementClient → string → QueryDefinition → unit →
      (exn + QueryResult) * unit :=
  λ _ s _ w,
    if bool_decide (s = scope) then (inl (HttpResponseError "Forbidden"), w)
    else (inr (mk_result (Some cost_rows)), w).

Definition ex_minor_rows : list (list pyval) :=
  [[PyFloat 2; PyInt 20240101; PyStr "A"]; [PyFloat 3; PyInt 20240101; PyStr "B"]].

Definition ex_dated_rows : list (list pyval) :=
  [[PyFloat 12.5; PyInt 20240101]; [PyFloat 7; PyInt 20240102]].

(** Further inputs: two targets of one tenant that differ in a descriptive
    label, a target without [EnvironmentName], secrets as loaded from the
    file, a world that a pause switches from up ([false]) to down ([true]). *)
Definition ex_owned_account : gmap string string :=
  {["TenantId" := "T1"; "Subscription" := "S1"; "EnvironmentName" := "prod";
    "Owner" := "alice"]}.

Definition ex_owned_account_S3 : gmap string string :=
  {["TenantId" := "T1"; "Subscription" := "S3"; "EnvironmentName" := "dev";
    "Owner" := "bob"]}.

Definition ex_bare_account : gmap string string :=
  {["TenantId" := "T1"; "Subscription" := "S1"]}.

Definition ex_grouped_unmerged : group_by_config :=
  mk_group_by true [mk_group "Dimension" "ServiceName" "Team"]
    (mk_merge false (NumInt 5) "other").

Definition ex_files : startup_files := mk_files true true true true.

Definition ex_files_without_secret : startup_files := mk_files true true false false.

Definition ex_loaded_secret : gmap string secret_entry :=
  {["T1" := SecretList
              [{["SubscriptionId" := "S1"; "client_id" := "id1";
                 "client_secret" := "secret1"]}]]}.

Definition ex_sleep : unit → (exn + unit) * unit := λ w, (inr tt, w).

Definition ex_today_switch : bool → datetime * bool :=
  λ w, (mk_datetime 2024 1 2 10 30 0 0 None, w).

Definition ex_usage_switch
    : CostManagementClient → string → QueryDefinition → bool →
      (exn + QueryResult) * bool :=
  λ _ _ _ w,
    if w then (inl (OtherError "ServiceRequestError"), w)
    else (inr (mk_result (Some [[PyFloat 12.5; PyInt 20240101]])), w).

Definition ex_sleep_switch : bool → (exn + unit) * bool := λ _, (inr tt, true).


(** Constructors that take every record; and constructors that, as those of
    [azure.identity] do, refuse an empty client id, an empty secret and a
    tenant id that is empty or holds a character other than a letter, a
    digit, "-" or ".". *)
Definition ex_accepting : string → string → string → option exn := λ _ _ _, None.

Definition tenant_id_character (c : Ascii.ascii) : bool :=
  let n := Ascii.nat_of_ascii c in
  ((48 <=? n) && (n <=? 57) || (65 <=? n) && (n <=? 90)
   || (97 <=? n) && (n <=? 122) || (n =? 45) || (n =? 46))%nat.

Definition ex_checking : string → string → string → option exn :=
  λ tenant_id client_id client_secret,
    if decide (client_id = EmptyString)
    then Some (ValueError "client_id should be the id of a Microsoft Entra application")
    else if decide (client_secret = EmptyString)
    then Some (ValueError "secret should be a Microsoft Entra application's client secret")
    else if decide (tenant_id = EmptyString)
    then Some (ValueError "tenant_id should be a Microsoft Entra tenant's id")
    else if forallb tenant_id_character (String.list_ascii_of_string tenant_id) then None
    else Some (ValueError "Invalid tenant ID provided").

(** The gauges that [__init__] creates for the example targets: without and
    with the group label, and for a target without [EnvironmentName]. *)
Definition ex_gauge : gset string → option exn :=
  prometheus_gauge ({["ChargeType"]} ∪ dom ex_account).

Definition ex_gauge_grouped : gset string → option exn :=
  prometheus_gauge ({["Team"]} ∪ ({["ChargeType"]} ∪ dom ex_account)).

Definition ex_gauge_bare : gset string → option exn :=
  prometheus_gauge ({["ChargeType"]} ∪ dom ex_bare_account).

(** A target with a key named [ChargeType], a record with an empty client
    id, and secrets as loaded with such a record. *)
Definition ex_charged_account : gmap string string :=
  {["TenantId" := "T1"; "Subscription" := "S1"; "EnvironmentName" := "prod";
    "ChargeType" := "Forecast"]}.

Definition ex_secrets_blank : gmap string (list credential) :=
  {["T1" := [mk_credential "S1" EmptyString "secret1"]]}.

Definition ex_loaded_secret_blank : gmap string secret_entry :=
  {["T1" := SecretList
              [{["SubscriptionId" := "S1"; "client_id" := EmptyString;
                 "client_secret" := "secret1"]}]]}.


(** ** The exporter *)

Section Exporter.

Context {World : Type}.
(** [datetime.today()]: the clock, read at a state of the world. *)
Variable today : World → datetime * World.
(** [azure_client.query.usage(scope, query)] then [as_dict()]: the billing
    API's answer, or the exception the SDK raises. *)
Variable usage :
  CostManagementClient → string → QueryDefinition → World →
  (exn + QueryResult) * World.
(** [float(s)] for a string [s]: Python's parser of float literals. *)
Variable str_to_float : string → option float.
(** [self.group_by], [self.targets], [self.secrets]. *)
Variable group_by : group_by_config.
Variable targets : list (gmap string string).
Variable secrets : gmap string (list credential).
(** [CostManagementClient(credential=ClientSecretCredential(tenant_id=...,
    client_id=..., client_secret=...))]: the SDK's constructors check their
    arguments; the exception they raise on these three strings, if any. *)
Variable credential_error : string → string → string → option exn.
(** [self.azure_daily_cost_usd.labels] called with a label set: the exception
    the gauge raises on the set's label names, if any. *)
Variable gauge_error : gset string → option exn.

(** A statement: from a world, the events it causes, how it ends, and the
    world it leaves. *)
Definition M (A : Type) : Type := World → list event * outcome A * World.

Definition ret {A} (a : A) : M A := λ w, ([], Return a, w).

Definition raise {A} (e : exn) : M A := λ w, ([], Raise e, w).

Definition bind {A B} (m : M A) (k : A → M B) : M B := λ w,
  match m w with
  | (t1, Return a, w1) => let '(t2, r, w2) := k a w1 in (t1 ++ t2, r, w2)
  | (t1, Raise e, w1) => (t1, Raise e, w1)
  end.

#[local] Instance M_ret : MRet M := @ret.
#[local] Instance M_bind : MBind M := λ A B k m, bind m k.

Definition emit (ev : event) : M unit := λ w, ([ev], Return tt, w).

Definition lift {A} (r : exn + A) : M A :=
  match r with inl e => raise e | inr a => ret a end.

(** [for x in l: body(x)] *)
Fixpoint for_each {A} (body : A → M unit) (l : list A) : M unit :=
  match l with
  | [] => ret tt
  | x :: l' => body x;; for_each body l'
  end.

(** [try: body / except HttpResponseError as e: handler(e.reason)] *)
Definition try_except_HttpResponseError
    (body : M unit) (handler : string → M unit) : M unit := λ w,
  match body w with
  | (t, Raise (HttpResponseError reason), w1) =>
      let '(t2, r, w2) := handler reason w1 in (t ++ t2, r, w2)
  | r => r
  end.

Definition datetime_today : M datetime := λ w,
  let '(d, w1) := today w in ([], Return d, w1).

Definition query_usage
    (c : CostManagementClient) (scope : string) (q : QueryDefinition)
    : M QueryResult := λ w,
  let '(r, w1) := usage c scope q w in
  ([QueryUsage c scope q],
   match r with inl e => Raise e | inr res => Return res end, w1).

(** [l[i]] *)
Definition getitem {A} (l : list A) (i : nat) : M A :=
  match l !! i with Some x => ret x | None => raise IndexError end.

(** [float(v)] *)
Definition py_float (v : pyval) : exn + float :=
  match v with
  | PyFloat f => inr f
  | PyInt z => Z_to_float z
  | PyStr s =>
      match str_to_float s with
      | Some f => inr f
      | None => inl (ValueError "could not convert string to float")
      end
  | PyNone => inl TypeError
  end.

(** [init_azure_client], lines 37-48. *)
Definition init_azure_client
    (tenant_id subscription_id : string) : M CostManagementClient :=
  match secrets !! tenant_id with
  | None => raise (KeyError tenant_id)
  | Some subs =>
      match List.find (λ sub, bool_decide (SubscriptionId sub = subscription_id)) subs with
      | None =>
          raise (ValueError
                   ("Credentials for subscription " +:+ subscription_id +:+ " not found"))
      | Some credentials =>
          match credential_error tenant_id (client_id credentials)
                  (client_secret credentials) with
          | Some e => raise e
          | None =>
              ret (mk_client tenant_id (client_id credentials)
                     (client_secret credentials))
          end
      end
  end.

(** [datetime(d.year, d.month, d.day, tzinfo=timezone.utc)] *)
Definition midnight_utc (d : datetime) : datetime :=
  mk_datetime (year d) (month d) (day d) 0 0 0 0 (Some utc).

(** The [QueryDefinition] that [query_azure_cost_explorer] builds,
    lines 53-81. *)
Definition cost_query
    (group_by : group_by_config) (start_date end_date : datetime)
    : QueryDefinition :=
  let groups :=
    if enabled group_by
    then map (λ g, mk_grouping (group_type g) (group_name g)) (groups group_by)
    else [] in
  mk_query "ActualCost"
    (mk_dataset "Daily" [("totalCostUSD", mk_aggregation "CostUSD" "Sum")] groups)
    "Custom"
    (mk_period (midnight_utc start_date) (midnight_utc end_date)).

(** [query_azure_cost_explorer], lines 50-83. *)
Definition query_azure_cost_explorer
    (azure_client : CostManagementClient) (subscription : string)
    (group_by : group_by_config) (start_date end_date : datetime)
    : M QueryResult :=
  let scope := "/subscriptions/" +:+ subscription in
  query_usage azure_client scope (cost_query group_by start_date end_date).

(** Lines 97-99: group [i]'s value is read at [result[i + 2]] and stored
    under its [label_name]. *)
Fixpoint read_group_values
    (gs : list group) (i : nat) (result : list pyval)
    (group_key_values : gmap string pyval) : M (gmap string pyval) :=
  match gs with
  | [] => ret group_key_values
  | g :: gs' =>
      value ← getitem result (i + 2);
      read_group_values gs' (S i) result
        (dict_update group_key_values {[label_name g := value]})
  end.

(** Lines 110-112: every group label set to [tag_value]. *)
Definition tag_group_values : gmap string pyval :=
  foldl (λ group_key_values g,
           dict_update group_key_values
             {[label_name g := PyStr (tag_value (merge_minor_cost group_by))]})
        ∅ (groups group_by).

(** Lines 87-90: the labels before any group label, [ChargeType] first and
    then the account's own entries. *)
Definition account_labels (azure_account : gmap string string) : gmap string pyval :=
  let labels : gmap string pyval := {["ChargeType" := PyStr "ActualCost"]} in
  dict_update labels (PyStr <$> azure_account).

(** [self.azure_daily_cost_usd.labels(...).set(cost)], lines 105, 114 and
    118: the gauge takes the label names and the point is written, or it
    raises. *)
Definition gauge_labels_set (labels : gmap string pyval) (cost : float) : M unit :=
  match gauge_error (dom labels) with
  | Some e => raise e
  | None => emit (GaugeSet labels cost)
  end.

(** [expose_metrics], lines 85-119.  [merged_minor_cost] starts as the int
    [0], which adds and compares as the float [0]. *)
Definition expose_metrics
    (azure_account : gmap string string) (result : list pyval) : M unit :=
  r0 ← getitem result 0;
  cost ← lift (py_float r0);
  let labels := account_labels azure_account in
  if enabled group_by then
    let merged_minor_cost := 0%float in
    group_key_values ← read_group_values (groups group_by) 0 result ∅;
    st ←
      (if merge_enabled (merge_minor_cost group_by)
          && float_lt cost (threshold (merge_minor_cost group_by))
       then ret (labels, (merged_minor_cost + cost)%float)
       else
         let labels := dict_update labels group_key_values in
         gauge_labels_set labels cost;;
         emit (PrintExposing labels cost);;
         ret (labels, merged_minor_cost));
    let '(labels, merged_minor_cost) := st in
    if (0 <? merged_minor_cost)%float then
      let labels := dict_update labels tag_group_values in
      gauge_labels_set labels merged_minor_cost;;
      emit (PrintExposingMerged labels merged_minor_cost)
    else ret tt
  else
    gauge_labels_set labels cost;;
    emit (PrintExposing labels cost).

(** Lines 141-144: the first target whose [Subscription] is this
    subscription gives the [EnvironmentName]; the loop then stops. *)
Fixpoint match_environment_name
    (ts : list (gmap string string)) (subscription_id : string)
    (current_azure_account : gmap string string) : gmap string string :=
  match ts with
  | [] => current_azure_account
  | target_account :: ts' =>
      if bool_decide (default "" (target_account !! "Subscription") = subscription_id)
      then <["EnvironmentName" :=
               default "DefaultEnv" (target_account !! "EnvironmentName")]>
             current_azure_account
      else match_environment_name ts' subscription_id current_azure_account
  end.

(** Lines 155-158: one row of the answer. *)
Definition process_row
    (start_date : datetime) (current_azure_account : gmap string string)
    (result : list pyval) : M unit :=
  d ← getitem result 1;
  if negb (py_eq_int d (int_strftime_Ymd start_date)) then ret tt
  else expose_metrics current_azure_account result.

(** Lines 149-158: the body of the [try]. *)
Definition query_and_expose
    (azure_client : CostManagementClient) (subscription_id : string)
    (current_azure_account : gmap string string) : M unit :=
  end_date ← datetime_today;
  start_date ← lift (minus_one_day end_date);
  cost_response ←
    query_azure_cost_explorer azure_client subscription_id group_by start_date end_date;
  cost_rows ←
    match rows cost_response with
    | Some l => ret l
    | None => raise (KeyError "rows")
    end;
  for_each (process_row start_date current_azure_account) cost_rows.

(** Lines 133-162: one subscription of a tenant. *)
Definition fetch_subscription
    (azure_account : gmap string string) (tenant_id : string)
    (sub : credential) : M unit :=
  let subscription_id := SubscriptionId sub in
  emit (PrintProcessing subscription_id);;
  let current_azure_account := <["Subscription" := subscription_id]> azure_account in
  let current_azure_account :=
    match_environment_name targets subscription_id current_azure_account in
  azure_client ← init_azure_client tenant_id subscription_id;
  try_except_HttpResponseError
    (query_and_expose azure_client subscription_id current_azure_account)
    (λ reason, emit (LogError subscription_id reason)).

(** Lines 129-162: the pass over a tenant's subscriptions. *)
Definition tenant_pass
    (azure_account : gmap string string) (tenant_id : string) : M unit :=
  emit (PrintQuerying tenant_id);;
  subs ← match secrets !! tenant_id with
         | Some l => ret l
         | None => raise (KeyError tenant_id)
         end;
  for_each (fetch_subscription azure_account tenant_id) subs.

(** Lines 124-165: the loop over the targets, with [processed_tenants]. *)
Fixpoint fetch_loop
    (ts : list (gmap string string)) (processed_tenants : gset string) : M unit :=
  match ts with
  | [] => ret tt
  | azure_account :: ts' =>
      tenant_id ← match azure_account !! "TenantId" with
                  | Some t => ret t
                  | None => raise (KeyError "TenantId")
                  end;
      if bool_decide (tenant_id ∈ processed_tenants)
      then fetch_loop ts' processed_tenants
      else
        tenant_pass azure_account tenant_id;;
        fetch_loop ts' ({[tenant_id]} ∪ processed_tenants)
  end.

(** [fetch], lines 121-165. *)
Definition fetch : M unit := fetch_loop targets ∅.

(** The test of line 156 on a row, as a predicate: the row's second element
    equals the start date's number. *)
Definition date_qualifies (start_date : datetime) (result : list pyval) : bool :=
  match result !! 1 with
  | Some d => py_eq_int d (int_strftime_Ymd start_date)
  | None => false
  end.

(** The tenants whose pass a trace starts, and the scopes it queries. *)
Definition pass_of (ev : event) : option string :=
  match ev with PrintQuerying tenant_id => Some tenant_id | _ => None end.

Definition scope_of (ev : event) : option string :=
  match ev with QueryUsage _ scope _ => Some scope | _ => None end.

Definition tenant_passes (t : list event) : list string := omap pass_of t.

Definition fetched_scopes (t : list event) : list string := omap scope_of t.

(** The accounts of a list that are the first with their [TenantId]:
    [before] holds the accounts that precede [l]. *)
Fixpoint first_of_tenant (before l : list (gmap string string))
    : list (gmap string string) :=
  match l with
  | [] => []
  | a :: l' =>
      if decide (Exists (λ b, b !! "TenantId" = a !! "TenantId") before)
      then first_of_tenant (before ++ [a]) l'
      else a :: first_of_tenant (before ++ [a]) l'
  end.

Definition first_accounts (l : list (gmap string string)) : list (gmap string string) :=
  first_of_tenant [] l.

(** A statement that causes no event seen by the projection [f]. *)
Definition silent {A X} (f : event → option X) (m : M A) : Prop :=
  ∀ w, omap f (m w).1.1 = [].

(** The time windows of the queries a trace sends. *)
Definition queried_periods (t : list event) : list QueryTimePeriod :=
  omap (λ ev, match ev with QueryUsage _ _ q => Some (time_period q) | _ => None end) t.

(** The cost of a row, [float(result[0])], where it is defined. *)
Definition row_cost (result : list pyval) : float :=
  match result !! 0 with
  | Some r0 => match py_float r0 with inr cost => cost | inl _ => 0%float end
  | None => 0%float
  end.

(** A row that the merge-minor policy merges: it has all its columns, and its
    cost is positive and strictly below the threshold. *)
Definition minor_row (result : list pyval) : Prop :=
  ∃ r0 cost,
    result !! 0 = Some r0 ∧ py_float r0 = inr cost ∧
    float_lt cost (threshold (merge_minor_cost group_by)) = true ∧
    (0 <? cost)%float = true ∧
    length (groups group_by) + 2 ≤ length result.


(** [__init__], lines 23-28: the label names the gauge is created with. *)
Definition exporter_labels : exn + gset string :=
  match targets with
  | [] => inl IndexError
  | first :: _ =>
      let labels : gset string := dom first in
      let labels := {["ChargeType"]} ∪ labels in
      inr (if enabled group_by
           then foldl (λ labels g, {[label_name g]} ∪ labels) labels (groups group_by)
           else labels)
  end.

Section PollingLoop.

(** [time.sleep(self.polling_interval_seconds)]: the pause between two
    cycles, which only the world sees. *)
Variable sleep : World → (exn + unit) * World.

Definition time_sleep : M unit := λ w,
  let '(r, w1) := sleep w in
  ([], match r with inl e => Raise e | inr _ => Return tt end, w1).

(** [run_metrics_loop], lines 32-35: the first [n] turns of the endless loop. *)
Fixpoint run_metrics_loop (n : nat) : M unit :=
  match n with
  | O => ret tt
  | S n' => fetch;; time_sleep;; run_metrics_loop n'
  end.

End PollingLoop.


(** The label names of the configured groups. *)
Definition group_label_names : gset string :=
  list_to_set (label_name <$> groups group_by).

(** The label names of the points that [expose_metrics] hands to the gauge
    for an account: [ChargeType], the account's keys and, when grouping is
    enabled, the label name of every group. *)
Definition point_names (azure_account : gmap string string) : gset string :=
  {["ChargeType"]} ∪ dom azure_account ∪
  (if enabled group_by then group_label_names else ∅).

(** A statement all of whose events satisfy [P]. *)
Definition every {A} (P : event → Prop) (m : M A) : Prop :=
  ∀ w, Forall P (m w).1.1.

(** An event that, if it is a gauge write, writes under the label names [L]. *)
Definition writes_under (L : gset string) (ev : event) : Prop :=
  ∀ labels v, ev = GaugeSet labels v → dom labels = L.

(** The two ways a cycle with trace [t] is cut short by [e]: the constructor
    of the client of a record of the secrets raised it, right after the
    subscription was announced; or the body of a subscription's [try] raised
    it, and it is not an HTTP error. *)
Definition raised_by_constructor (t : list event) (e : exn) : Prop :=
  ∃ tenant_id subs credentials t_before,
    secrets !! tenant_id = Some subs ∧ credentials ∈ subs ∧
    credential_error tenant_id (client_id credentials) (client_secret credentials)
      = Some e ∧
    t = t_before ++ [PrintProcessing (SubscriptionId credentials)].

Definition raised_in_try (t : list event) (e : exn) (w' : World) : Prop :=
  ∃ azure_client subscription_id current w0 t_before t0,
    query_and_expose azure_client subscription_id current w0 = (t0, Raise e, w') ∧
    t = t_before ++ t0 ∧ (∀ reason, e ≠ HttpResponseError reason).


(** ** Properties *)

(** Proofs about the data alone forget the collaborators they do not
    mention. *)
Ltac data_only :=
  try clear today; try clear usage; try clear credential_error;
  try clear gauge_error; try clear str_to_float; try clear secrets;
  try clear targets; try clear group_by.

(** *** Running statements *)

Lemma bind_run {A B} (m : M A) (k : A → M B) w :
  (m ≫= k) w =
  match m w with
  | (t1, Return a, w1) => let '(t2, r, w2) := k a w1 in (t1 ++ t2, r, w2)
  | (t1, Raise e, w1) => (t1, Raise e, w1)
  end.
Proof. reflexivity. Qed.

Lemma bind_return {A B} (m : M A) (k : A → M B) w t a w1 :
  m w = (t, Return a, w1) →
  (m ≫= k) w = let '(t2, r, w2) := k a w1 in (t ++ t2, r, w2).
Proof. intros H. rewrite bind_run, H. reflexivity. Qed.

Lemma bind_raise {A B} (m : M A) (k : A → M B) w t e w1 :
  m w = (t, Raise e, w1) → (m ≫= k) w = (t, Raise e, w1).
Proof. intros H. rewrite bind_run, H. reflexivity. Qed.

Lemma bind_ret_run {A B} (a : A) (k : A → M B) w : (ret a ≫= k) w = k a w.
Proof. rewrite bind_run. simpl. destruct (k a w) as [[t r] w2]. reflexivity. Qed.

Lemma bind_emit_run {B} ev (k : unit → M B) w :
  (emit ev ≫= k) w = let '(t, r, w2) := k tt w in (ev :: t, r, w2).
Proof. rewrite bind_run. reflexivity. Qed.

Lemma for_each_cons {A} (body : A → M unit) x l w :
  for_each body (x :: l) w =
  match body x w with
  | (t1, Return _, w1) => let '(t2, r, w2) := for_each body l w1 in (t1 ++ t2, r, w2)
  | (t1, Raise e, w1) => (t1, Raise e, w1)
  end.
Proof. reflexivity. Qed.

Lemma for_each_app {A} (body : A → M unit) l1 l2 w :
  for_each body (l1 ++ l2) w =
  match for_each body l1 w with
  | (t1, Return _, w1) => let '(t2, r, w2) := for_each body l2 w1 in (t1 ++ t2, r, w2)
  | (t1, Raise e, w1) => (t1, Raise e, w1)
  end.
Proof.
  revert w. induction l1 as [|x l1 IH]; intros w.
  - simpl. destruct (for_each body l2 w) as [[t r] w2]. reflexivity.
  - simpl app. rewrite !for_each_cons.
    destruct (body x w) as [[t1 [[]|e]] w1]; [|reflexivity].
    rewrite IH.
    destruct (for_each body l1 w1) as [[t2 [[]|e]] w2].
    + destruct (for_each body l2 w2) as [[t3 r] w3]. by rewrite app_assoc.
    + reflexivity.
Qed.

(** Statements that run alike from every world run alike in sequence. *)
Lemma bind_ext {A B} (m m' : M A) (k k' : A → M B) w :
  m w = m' w → (∀ a w', k a w' = k' a w') → (m ≫= k) w = (m' ≫= k') w.
Proof.
  intros Hm Hk. rewrite !bind_run, <- Hm.
  destruct (m w) as [[t [a|e]] w1]; [|done]. by rewrite Hk.
Qed.

Lemma for_each_ext {A} (body body' : A → M unit) l w :
  (∀ x w', x ∈ l → body x w' = body' x w') →
  for_each body l w = for_each body' l w.
Proof.
  revert w. induction l as [|x l IH]; intros w Hb; [done|].
  rewrite !for_each_cons, <- (Hb x w) by left.
  destruct (body x w) as [[t [[]|e]] w1]; [|done].
  rewrite IH; [done|]. intros y w' Hy. apply Hb. by right.
Qed.

Lemma try_except_ext (body body' : M unit) handler w :
  body w = body' w →
  try_except_HttpResponseError body handler w =
  try_except_HttpResponseError body' handler w.
Proof. intros H. unfold try_except_HttpResponseError. by rewrite H. Qed.

(** *** Floats *)

Lemma SFcompare_antisym x y c :
  SFcompare x y = Some c → SFcompare y x = Some (CompOpp c).
Proof.
  destruct x as [sx|sx| |sx mx ex], y as [sy|sy| |sy my ey]; simpl;
    try discriminate; intros [= <-];
    try (destruct sx; reflexivity); try (destruct sy; reflexivity);
    try (destruct sx, sy; reflexivity).
  f_equal. destruct sx, sy; try reflexivity.
  - rewrite (Z.compare_antisym ey ex).
    destruct (ey ?= ex)%Z; simpl; try reflexivity.
    rewrite (Pos.compare_cont_antisym mx my Eq). simpl.
    destruct (Pos.compare_cont Eq mx my); reflexivity.
  - rewrite (Z.compare_antisym ey ex).
    destruct (ey ?= ex)%Z; simpl; try reflexivity.
    rewrite (Pos.compare_cont_antisym mx my Eq). reflexivity.
Qed.

Lemma float_ge_not_lt x y : float_ge x y = true → float_lt x y = false.
Proof.
  destruct y as [z|f]; simpl.
  - destruct (float_compare_Z x z) as [[]|]; done.
  - rewrite leb_spec, ltb_spec. unfold SFleb, SFltb.
    destruct (SFcompare (Prim2SF f) (Prim2SF x)) as [c|] eqn:Hc; [|done].
    rewrite (SFcompare_antisym _ _ _ Hc). by destruct c.
Qed.

Lemma float_lt_not_ge x y : float_lt x y = true → float_ge x y = false.
Proof.
  intros H. destruct (float_ge x y) eqn:Hge; [|done].
  apply float_ge_not_lt in Hge. congruence.
Qed.

(** Adding a positive cost to the initial [0] gives that cost. *)
Lemma zero_add_pos (y : float) : (0 <? y)%float = true → (0 + y)%float = y.
Proof.
  intros H. rewrite ltb_spec in H.
  rewrite <- (SF2Prim_Prim2SF (0 + y)%float), add_spec.
  rewrite <- (SF2Prim_Prim2SF y) at 2.
  f_equal. unfold SF64add.
  change (Prim2SF 0) with (S754_zero false) in *.
  destruct (Prim2SF y) as [s|s| |s m e]; simpl in *; try discriminate; reflexivity.
Qed.

(** [float(z)] is exact for an int below [2 ^ 53] in absolute value. *)
Lemma digits2_pos_lower p : (2 ^ (Z.pos (digits2_pos p) - 1) <= Z.pos p)%Z.
Proof.
  induction p as [p IH|p IH|]; simpl digits2_pos; [| |simpl; lia];
    rewrite Pos2Z.inj_succ;
    replace (Z.succ (Z.pos (digits2_pos p)) - 1)%Z
      with (Z.succ (Z.pos (digits2_pos p) - 1))%Z by lia;
    rewrite Z.pow_succ_r by lia; lia.
Qed.

Lemma iter_xO_digits k p :
  Z.pos (digits2_pos (Pos.iter xO p k)) = (Z.pos (digits2_pos p) + Z.pos k)%Z.
Proof.
  induction k as [|k IH] using Pos.peano_ind.
  - simpl. lia.
  - rewrite Pos.iter_succ. simpl digits2_pos. lia.
Qed.

Lemma iter_xO_value k p : Z.pos (Pos.iter xO p k) = (Z.pos p * 2 ^ Z.pos k)%Z.
Proof.
  induction k as [|k IH] using Pos.peano_ind.
  - simpl. lia.
  - rewrite Pos.iter_succ, Pos2Z.inj_xO, IH, Pos2Z.inj_succ, Z.pow_succ_r by lia. lia.
Qed.

Lemma fexp_small x : (-1021 <= x)%Z → fexp prec emax x = (x - 53)%Z.
Proof.
  intros Hx. unfold fexp.
  replace (SpecFloat.emin prec emax) with (-1074)%Z by reflexivity.
  change prec with 53%Z. lia.
Qed.

Lemma binary_round_aux_canonical s m e :
  canonical_mantissa prec emax m e = true → (e <=? emax - prec)%Z = true →
  binary_round_aux prec emax s (Z.pos m) e loc_Exact = S754_finite s m e.
Proof.
  intros Hc He. unfold canonical_mantissa in Hc. apply Z.eqb_eq in Hc.
  unfold binary_round_aux, shr_fexp. cbn [Zdigits2 shr_record_of_loc].
  rewrite Hc, Z.sub_diag.
  cbn [shr shr_m loc_of_shr_record round_nearest_even Zdigits2 shr_record_of_loc].
  rewrite Hc, Z.sub_diag. cbn [shr shr_m]. by rewrite He.
Qed.

(** A positive int below [2 ^ 53] rounds to itself. *)
Lemma binary_round_exact s p :
  (Z.pos p < 2 ^ 53)%Z →
  ∃ m e, binary_round prec emax s p 0 = S754_finite s m e ∧
         valid_binary (S754_finite s m e) = true ∧
         (e <= 0)%Z ∧ Z.pos m = (Z.pos p * 2 ^ (- e))%Z.
Proof.
  intros Hp. pose proof (digits2_pos_lower p) as Hd.
  assert (Z.pos (digits2_pos p) <= 53)%Z as Hd53.
  { destruct (Z_le_gt_dec (Z.pos (digits2_pos p)) 53) as [|Hgt]; [done|].
    assert (2 ^ 53 <= 2 ^ (Z.pos (digits2_pos p) - 1))%Z; [|lia].
    apply Z.pow_le_mono_r; lia. }
  assert (∀ m e, Z.pos (digits2_pos m) = 53%Z → (-52 <= e <= 0)%Z →
                 canonical_mantissa prec emax m e = true ∧
                 (e <=? emax - prec)%Z = true) as Hcan.
  { intros m e Hm He. unfold canonical_mantissa. rewrite fexp_small by lia.
    split; [apply Z.eqb_eq; lia|]. apply Z.leb_le.
    change (emax - prec)%Z with 971%Z. lia. }
  unfold binary_round, shl_align. rewrite Z.add_0_r, fexp_small, Z.sub_0_r by lia.
  destruct (Z.pos (digits2_pos p) - 53)%Z as [|k|k] eqn:Hk; [|lia|].
  - destruct (Hcan p 0%Z) as [Hc He]; [lia|lia|].
    exists p, 0%Z. split; [by apply binary_round_aux_canonical|].
    split; [|split; [lia|simpl; lia]].
    unfold valid_binary, bounded. by rewrite Hc, He.
  - destruct (Hcan (Pos.iter xO p k) (Z.neg k)) as [Hc He];
      [rewrite iter_xO_digits; lia|lia|].
    exists (Pos.iter xO p k), (Z.neg k).
    split; [by apply binary_round_aux_canonical|].
    split; [|split; [lia|by rewrite iter_xO_value]].
    unfold valid_binary, bounded. by rewrite Hc, He.
Qed.

Lemma SFcompare_Z_exact s m e p :
  (e <= 0)%Z → Z.pos m = (Z.pos p * 2 ^ (- e))%Z →
  SFcompare_Z (S754_finite s m e) (if s then Z.neg p else Z.pos p) = Some Eq.
Proof.
  intros He Hm. unfold SFcompare_Z. f_equal.
  destruct (0 <=? e)%Z eqn:E; apply Z.compare_eq_iff.
  - apply Z.leb_le in E. assert (e = 0%Z) as -> by lia.
    change (2 ^ (- 0))%Z with 1%Z in Hm. change (2 ^ 0)%Z with 1%Z.
    destruct s; lia.
  - destruct s; [|done]. rewrite <- !Pos2Z.opp_pos, Hm. lia.
Qed.

Lemma Z_to_float_exact z :
  (Z.abs z < 2 ^ 53)%Z →
  ∃ f, Z_to_float z = inr f ∧ float_compare_Z f z = Some Eq.
Proof.
  intros Hz. unfold Z_to_float, float_compare_Z.
  destruct z as [|p|p]; cbn [binary_normalize].
  - eexists. split; reflexivity.
  - destruct (binary_round_exact false p) as (m & e & -> & Hv & He & Hm); [lia|].
    eexists. split; [reflexivity|]. rewrite Prim2SF_SF2Prim by done.
    by apply (SFcompare_Z_exact false).
  - destruct (binary_round_exact true p) as (m & e & -> & Hv & He & Hm); [simpl in Hz; lia|].
    eexists. split; [reflexivity|]. rewrite Prim2SF_SF2Prim by done.
    by apply (SFcompare_Z_exact true).
Qed.

(** *** Reading a row *)

Lemma getitem_Some {A} (l : list A) i x w :
  l !! i = Some x → getitem l i w = ([], Return x, w).
Proof. intros H. unfold getitem. by rewrite H. Qed.

Lemma getitem_None {A} (l : list A) i w :
  l !! i = None → getitem l i w = ([], Raise IndexError, w).
Proof. intros H. unfold getitem. by rewrite H. Qed.

Lemma read_group_values_run gs i result acc w :
  i + length gs + 2 ≤ length result →
  ∃ gkv,
    read_group_values gs i result acc w = ([], Return gkv, w) ∧
    (∀ k, (∀ g, g ∈ gs → label_name g ≠ k) → gkv !! k = acc !! k) ∧
    (∀ j g, gs !! j = Some g →
       (∀ j' g', j < j' → gs !! j' = Some g' → label_name g' ≠ label_name g) →
       gkv !! label_name g = result !! (i + j + 2)).
Proof.
  revert i acc. induction gs as [|g gs IH]; intros i acc Hlen.
  - exists acc. split; [done|]. split; [done|]. intros j g Hj. by destruct j.
  - simpl in Hlen.
    destruct (lookup_lt_is_Some_2 result (i + 2)) as [v Hv]; [lia|].
    destruct (IH (S i) (dict_update acc {[label_name g := v]})) as (gkv & Hrun & Hout & Hin);
      [lia|].
    exists gkv. split; [|split].
    + simpl. rewrite (bind_return _ _ _ _ _ _ (getitem_Some _ _ _ w Hv)).
      by rewrite Hrun.
    + intros k Hk. rewrite Hout.
      * unfold dict_update. rewrite lookup_union_r; [done|].
        apply lookup_singleton_ne. apply Hk. left.
      * intros g' Hg'. apply Hk. by right.
    + intros [|j] g0 Hj Hlater.
      * simpl in Hj. injection Hj as <-.
        rewrite Hout.
        -- unfold dict_update. rewrite (lookup_union_Some_l _ _ _ v).
           ++ by rewrite Nat.add_0_r.
           ++ apply lookup_singleton_eq.
        -- intros g' Hg'. apply list_elem_of_lookup in Hg' as [j' Hj'].
           apply (Hlater (S j')); [lia|done].
      * simpl in Hj. rewrite (Hin j g0 Hj).
        -- f_equal. lia.
        -- intros j' g' Hlt Hj'. apply (Hlater (S j')); [lia|done].
Qed.

Lemma read_group_values_short gs i result acc w :
  i + 2 ≤ length result → length result < i + length gs + 2 →
  read_group_values gs i result acc w = ([], Raise IndexError, w).
Proof.
  revert i acc. induction gs as [|g gs IH]; intros i acc Hlo Hhi.
  - simpl in Hhi. lia.
  - simpl in Hhi. simpl.
    destruct (result !! (i + 2)) as [v|] eqn:Hv.
    + rewrite (bind_return _ _ _ _ _ _ (getitem_Some _ _ _ w Hv)).
      apply lookup_lt_Some in Hv. rewrite IH; [done|lia|lia].
    + by rewrite (bind_raise _ _ _ _ _ _ (getitem_None _ _ w Hv)).
Qed.

Lemma tag_group_values_lookup g :
  g ∈ groups group_by →
  tag_group_values !! label_name g =
  Some (PyStr (tag_value (merge_minor_cost group_by))).
Proof.
  unfold tag_group_values.
  generalize (∅ : gmap string pyval).
  induction (groups group_by) as [|g0 gs IH] using rev_ind; intros acc Hg.
  - by apply elem_of_nil in Hg.
  - rewrite foldl_app. simpl. unfold dict_update at 1.
    destruct (decide (label_name g0 = label_name g)) as [Heq|Hne].
    + rewrite Heq. apply lookup_union_Some_l, lookup_singleton_eq.
    + rewrite lookup_union_r; [|by apply lookup_singleton_ne].
      apply IH. apply elem_of_app in Hg as [Hg|Hg]; [done|].
      apply list_elem_of_singleton in Hg. congruence.
Qed.

Lemma bind_return_nil {A B} (m : M A) (k : A → M B) w a w1 :
  m w = ([], Return a, w1) → (m ≫= k) w = k a w1.
Proof.
  intros H. rewrite bind_run, H. destruct (k a w1) as [[t r] w2]. reflexivity.
Qed.

Lemma read_group_values_pure gs i result acc w :
  ∃ r, read_group_values gs i result acc w = ([], r, w).
Proof.
  revert i acc. induction gs as [|g gs IH]; intros i acc.
  - by exists (Return acc).
  - simpl. destruct (result !! (i + 2)) as [v|] eqn:Hv.
    + rewrite (bind_return _ _ _ _ _ _ (getitem_Some _ _ _ w Hv)).
      destruct (IH (S i) (dict_update acc {[label_name g := v]})) as [r ->].
      by exists r.
    + rewrite (bind_raise _ _ _ _ _ _ (getitem_None _ _ w Hv)). by eexists.
Qed.

(** *** The label names of a point *)

Lemma foldl_label_names (gs : list group) (base : gset string) :
  foldl (λ labels g, {[label_name g]} ∪ labels) base gs
  = base ∪ list_to_set (label_name <$> gs).
Proof. data_only.
  revert base. induction gs as [|g gs IH]; intros base; simpl.
  - set_solver.
  - rewrite IH. set_solver.
Qed.

Lemma read_group_values_dom gs i result acc w t gkv w' :
  read_group_values gs i result acc w = (t, Return gkv, w') →
  dom gkv = dom acc ∪ list_to_set (label_name <$> gs).
Proof. data_only.
  revert i acc t w'. induction gs as [|g gs IH]; intros i acc t w'; simpl.
  - intros [= _ <- _]. set_solver.
  - rewrite bind_run. unfold getitem. destruct (result !! (i + 2)) as [v|]; [|done].
    simpl. destruct (read_group_values gs (S i) result _ w) as [[t2 r2] w2] eqn:Hrest.
    intros [= _ -> _]. apply IH in Hrest. rewrite Hrest. unfold dict_update.
    rewrite dom_union_L, dom_singleton_L. set_solver.
Qed.

Lemma tag_group_values_dom : dom tag_group_values = group_label_names.
Proof. data_only.
  unfold tag_group_values, group_label_names.
  assert (∀ acc : gmap string pyval,
    dom (foldl (λ gkv g, dict_update gkv
           {[label_name g := PyStr (tag_value (merge_minor_cost group_by))]})
           acc (groups group_by))
    = dom acc ∪ list_to_set (label_name <$> groups group_by)) as H.
  { induction (groups group_by) as [|g gs IH]; intros acc; simpl; [set_solver|].
    rewrite IH. unfold dict_update. rewrite dom_union_L, dom_singleton_L. set_solver. }
  rewrite H. set_solver.
Qed.

Lemma account_labels_dom azure_account :
  dom (account_labels azure_account) = {["ChargeType"]} ∪ dom azure_account.
Proof. data_only.
  unfold account_labels, dict_update.
  rewrite dom_union_L, dom_fmap_L, dom_singleton_L. set_solver.
Qed.

(** *** The row mapper *)

Lemma gauge_labels_set_accepted labels cost w :
  gauge_error (dom labels) = None →
  gauge_labels_set labels cost w = ([GaugeSet labels cost], Return tt, w).
Proof. intros H. unfold gauge_labels_set. by rewrite H. Qed.

Lemma gauge_labels_set_refused labels cost e w :
  gauge_error (dom labels) = Some e →
  gauge_labels_set labels cost w = ([], Raise e, w).
Proof. intros H. unfold gauge_labels_set. by rewrite H. Qed.

(** A point and the line printed after it: both when the gauge takes the
    label names, neither when it refuses them. *)
Lemma gauge_write_accepted labels cost line w :
  gauge_error (dom labels) = None →
  (gauge_labels_set labels cost;; emit line) w =
  ([GaugeSet labels cost; line], Return tt, w).
Proof.
  intros H. by rewrite (bind_return _ _ _ _ _ _ (gauge_labels_set_accepted _ _ w H)).
Qed.

Lemma gauge_write_refused labels cost line e w :
  gauge_error (dom labels) = Some e →
  (gauge_labels_set labels cost;; emit line) w = ([], Raise e, w).
Proof.
  intros H. by rewrite (bind_raise _ _ _ _ _ _ (gauge_labels_set_refused _ _ _ w H)).
Qed.

Lemma expose_metrics_cost azure_account result r0 cost w :
  result !! 0 = Some r0 → py_float r0 = inr cost →
  expose_metrics azure_account result w =
  (let labels := account_labels azure_account in
   if enabled group_by then
     group_key_values ← read_group_values (groups group_by) 0 result ∅;
     st ←
       (if merge_enabled (merge_minor_cost group_by)
           && float_lt cost (threshold (merge_minor_cost group_by))
        then ret (labels, (0 + cost)%float)
        else
          let labels := dict_update labels group_key_values in
          gauge_labels_set labels cost;;
          emit (PrintExposing labels cost);;
          ret (labels, 0%float));
     let '(labels, merged_minor_cost) := st in
     if (0 <? merged_minor_cost)%float then
       let labels := dict_update labels tag_group_values in
       gauge_labels_set labels merged_minor_cost;;
       emit (PrintExposingMerged labels merged_minor_cost)
     else ret tt
   else
     gauge_labels_set labels cost;;
     emit (PrintExposing labels cost)) w.
Proof.
  intros H0 Hc. unfold expose_metrics.
  rewrite (bind_return_nil _ _ _ _ _ (getitem_Some _ _ _ w H0)).
  rewrite Hc. simpl lift. by rewrite bind_ret_run.
Qed.

(** A row that is written on its own: the point and its line, or the
    gauge's exception. *)
Lemma expose_metrics_individual azure_account result r0 cost gkv w :
  enabled group_by = true →
  merge_enabled (merge_minor_cost group_by)
    && float_lt cost (threshold (merge_minor_cost group_by)) = false →
  result !! 0 = Some r0 → py_float r0 = inr cost →
  read_group_values (groups group_by) 0 result ∅ w = ([], Return gkv, w) →
  expose_metrics azure_account result w =
  (let labels := dict_update (account_labels azure_account) gkv in
   match gauge_error (dom labels) with
   | None => ([GaugeSet labels cost; PrintExposing labels cost], Return tt, w)
   | Some e => ([], Raise e, w)
   end).
Proof.
  intros Hen Hm H0 Hc Hrun.
  rewrite (expose_metrics_cost _ _ _ _ _ H0 Hc). cbv zeta. rewrite Hen, Hm.
  rewrite (bind_return_nil _ _ _ _ _ Hrun).
  destruct (gauge_error (dom (dict_update (account_labels azure_account) gkv)))
    as [e|] eqn:Hg.
  - rewrite bind_run, bind_run.
    by rewrite (gauge_labels_set_refused _ _ _ w Hg).
  - rewrite bind_run, bind_run.
    rewrite (gauge_labels_set_accepted _ _ w Hg). reflexivity.
Qed.

(** A row that is merged: written, if at all, as a merged point of its own,
    labels tagged, value [0 + cost]. *)
Lemma expose_metrics_merged azure_account result r0 cost gkv w :
  enabled group_by = true →
  merge_enabled (merge_minor_cost group_by)
    && float_lt cost (threshold (merge_minor_cost group_by)) = true →
  result !! 0 = Some r0 → py_float r0 = inr cost →
  read_group_values (groups group_by) 0 result ∅ w = ([], Return gkv, w) →
  expose_metrics azure_account result w =
  (let labels := dict_update (account_labels azure_account) tag_group_values in
   if (0 <? 0 + cost)%float
   then match gauge_error (dom labels) with
        | None =>
            ([GaugeSet labels (0 + cost)%float;
              PrintExposingMerged labels (0 + cost)%float], Return tt, w)
        | Some e => ([], Raise e, w)
        end
   else ([], Return tt, w)).
Proof.
  intros Hen Hm H0 Hc Hrun.
  rewrite (expose_metrics_cost _ _ _ _ _ H0 Hc). cbv zeta. rewrite Hen, Hm.
  rewrite (bind_return_nil _ _ _ _ _ Hrun). rewrite bind_ret_run.
  destruct (0 <? 0 + cost)%float; [|reflexivity].
  destruct (gauge_error
              (dom (dict_update (account_labels azure_account) tag_group_values)))
    as [e|] eqn:Hg.
  - by apply gauge_write_refused.
  - by apply gauge_write_accepted.
Qed.

(** With merging on, a row below the threshold is written, if at all, as a
    merged point of its own: labels tagged, value [0 + cost]. *)
Lemma expose_metrics_minor azure_account result r0 cost w :
  enabled group_by = true →
  merge_enabled (merge_minor_cost group_by) = true →
  result !! 0 = Some r0 → py_float r0 = inr cost →
  float_lt cost (threshold (merge_minor_cost group_by)) = true →
  length (groups group_by) + 2 ≤ length result →
  expose_metrics azure_account result w =
  (let labels := dict_update (account_labels azure_account) tag_group_values in
   if (0 <? 0 + cost)%float
   then match gauge_error (dom labels) with
        | None =>
            ([GaugeSet labels (0 + cost)%float;
              PrintExposingMerged labels (0 + cost)%float], Return tt, w)
        | Some e => ([], Raise e, w)
        end
   else ([], Return tt, w)).
Proof.
  intros Hen Hm H0 Hc Hlt Hlen.
  destruct (read_group_values_run (groups group_by) 0 result ∅ w) as (gkv & Hrun & _);
    [simpl; lia|].
  apply (expose_metrics_merged _ _ r0 _ gkv); try done. by rewrite Hm, Hlt.
Qed.

(** With grouping disabled: the point and its line, or the gauge's
    exception. *)
Lemma expose_metrics_ungrouped azure_account result r0 cost w :
  enabled group_by = false →
  result !! 0 = Some r0 → py_float r0 = inr cost →
  expose_metrics azure_account result w =
  (let labels := account_labels azure_account in
   match gauge_error (dom labels) with
   | None => ([GaugeSet labels cost; PrintExposing labels cost], Return tt, w)
   | Some e => ([], Raise e, w)
   end).
Proof.
  intros Hen H0 Hc.
  rewrite (expose_metrics_cost _ _ _ _ _ H0 Hc). cbv zeta. rewrite Hen.
  destruct (gauge_error (dom (account_labels azure_account))) as [e|] eqn:Hg.
  - by apply gauge_write_refused.
  - by apply gauge_write_accepted.
Qed.

(** A row that does not reach the gauge: no first element, one that is not a
    number, or a group column that is missing. *)
Lemma expose_metrics_no_cost azure_account result w :
  (result !! 0 = None →
   expose_metrics azure_account result w = ([], Raise IndexError, w))
  ∧ (∀ r0 e, result !! 0 = Some r0 → py_float r0 = inl e →
       expose_metrics azure_account result w = ([], Raise e, w))
  ∧ (∀ r0 cost e, result !! 0 = Some r0 → py_float r0 = inr cost →
       enabled group_by = true →
       read_group_values (groups group_by) 0 result ∅ w = ([], Raise e, w) →
       expose_metrics azure_account result w = ([], Raise e, w)).
Proof.
  split; [|split].
  - intros H0. unfold expose_metrics.
    by rewrite (bind_raise _ _ _ _ _ _ (getitem_None _ _ w H0)).
  - intros r0 e H0 Hc. unfold expose_metrics.
    rewrite (bind_return_nil _ _ _ _ _ (getitem_Some _ _ _ w H0)). by rewrite Hc.
  - intros r0 cost e H0 Hc Hen Hrun.
    rewrite (expose_metrics_cost _ _ _ _ _ H0 Hc). cbv zeta. rewrite Hen.
    by rewrite (bind_raise _ _ _ _ _ _ Hrun).
Qed.

(** The label names of a row that is written on its own. *)
Lemma individual_point_names azure_account result gkv w :
  enabled group_by = true →
  read_group_values (groups group_by) 0 result ∅ w = ([], Return gkv, w) →
  dom (dict_update (account_labels azure_account) gkv) = point_names azure_account.
Proof. data_only.
  intros Hen Hrun. unfold point_names, dict_update. rewrite Hen.
  rewrite dom_union_L, account_labels_dom, (read_group_values_dom _ _ _ _ _ _ _ _ Hrun).
  unfold group_label_names. set_solver.
Qed.


(** The labels of a point when grouping is disabled: [ChargeType] set to
    [ActualCost] first, then the account's entries over it. *)
Lemma account_labels_lookup azure_account :
  account_labels azure_account
    = (PyStr <$> azure_account) ∪ {["ChargeType" := PyStr "ActualCost"]}
  ∧ (∀ k v, azure_account !! k = Some v →
       account_labels azure_account !! k = Some (PyStr v))
  ∧ (azure_account !! "ChargeType" = None →
     account_labels azure_account !! "ChargeType" = Some (PyStr "ActualCost"))
  ∧ (∀ k, k ≠ "ChargeType" → azure_account !! k = None →
       account_labels azure_account !! k = None).
Proof.
  unfold account_labels, dict_update. split; [done|]. split; [|split].
  - intros k v Hk. apply lookup_union_Some_l. by rewrite lookup_fmap, Hk.
  - intros Hk. rewrite lookup_union_r; [apply lookup_singleton_eq|].
    by rewrite lookup_fmap, Hk.
  - intros k Hne Hk. rewrite lookup_union_r; [by apply lookup_singleton_ne|].
    by rewrite lookup_fmap, Hk.
Qed.

(** C8.  With grouping disabled, a row that passes the date test is handed
    to the gauge once.  Its labels are [ChargeType = ActualCost] overridden
    by the account's own entries, so an account that has a [ChargeType] key
    keeps its value; its value is [float(result[0])], which for a float is
    the float itself and for an int below [2 ^ 53] the float equal to it.
    The point is written, and its line printed, when the first element
    converts and the gauge takes the label names; otherwise the exception of
    the conversion or of the gauge ends the row with nothing written. *)
Theorem ungrouped_row_writes_one_point start_date azure_account result d r0 w :
  enabled group_by = false →
  result !! 1 = Some d →
  py_eq_int d (int_strftime_Ymd start_date) = true →
  result !! 0 = Some r0 →
  let labels : gmap string pyval :=
    (PyStr <$> azure_account) ∪ {["ChargeType" := PyStr "ActualCost"]} in
  process_row start_date azure_account result w =
    match py_float r0 with
    | inl e => ([], Raise e, w)
    | inr cost =>
        match gauge_error (dom labels) with
        | Some e => ([], Raise e, w)
        | None => ([GaugeSet labels cost; PrintExposing labels cost], Return tt, w)
        end
    end
  ∧ gauge_sets (process_row start_date azure_account result w).1.1 =
    match py_float r0, gauge_error (dom labels) with
    | inr cost, None => [(labels, cost)]
    | _, _ => []
    end
  ∧ dom labels = {["ChargeType"]} ∪ dom azure_account
  ∧ (∀ k v, azure_account !! k = Some v → labels !! k = Some (PyStr v))
  ∧ (azure_account !! "ChargeType" = None →
     labels !! "ChargeType" = Some (PyStr "ActualCost"))
  ∧ (∀ k, k ≠ "ChargeType" → azure_account !! k = None → labels !! k = None)
  ∧ (∀ f, r0 = PyFloat f → py_float r0 = inr f)
  ∧ (∀ z, r0 = PyInt z → (Z.abs z < 2 ^ 53)%Z →
       ∃ cost, py_float r0 = inr cost ∧ float_compare_Z cost z = Some Eq)
  ∧ (∀ s, r0 = PyStr s →
       py_float r0 = match str_to_float s with
                     | Some f => inr f
                     | None => inl (ValueError "could not convert string to float")
                     end)
  ∧ (r0 = PyNone → py_float r0 = inl TypeError).
Proof. data_only.
  intros Hen H1 Hd H0 labels.
  destruct (account_labels_lookup azure_account) as (Hlabels & Hown & Hcharge & Hnone).
  fold labels in Hlabels.
  assert (process_row start_date azure_account result w =
          match py_float r0 with
          | inl e => ([], Raise e, w)
          | inr cost =>
              match gauge_error (dom labels) with
              | Some e => ([], Raise e, w)
              | None =>
                  ([GaugeSet labels cost; PrintExposing labels cost], Return tt, w)
              end
          end) as Hrun.
  { unfold process_row.
    rewrite (bind_return_nil _ _ _ _ _ (getitem_Some _ _ _ w H1)).
    rewrite Hd. cbn [negb].
    destruct (py_float r0) as [e|cost] eqn:Hc.
    - unfold expose_metrics.
      rewrite (bind_return_nil _ _ _ _ _ (getitem_Some _ _ _ w H0)).
      rewrite Hc. reflexivity.
    - rewrite (expose_metrics_cost _ _ _ _ _ H0 Hc). cbv zeta.
      rewrite Hen, Hlabels.
      destruct (gauge_error (dom labels)) as [e|] eqn:Hg.
      + by apply gauge_write_refused.
      + by apply gauge_write_accepted. }
  split; [exact Hrun|]. split.
  { rewrite Hrun. destruct (py_float r0); [done|].
    by destruct (gauge_error (dom labels)). }
  split.
  { rewrite <- Hlabels. unfold account_labels, dict_update.
    rewrite dom_union_L, dom_fmap_L, dom_singleton_L. set_solver. }
  rewrite <- Hlabels.
  split; [exact Hown|]. split; [exact Hcharge|]. split; [exact Hnone|].
  split; [by intros f ->|]. split.
  { intros z -> Hz. by apply Z_to_float_exact. }
  split; [by intros s ->|by intros ->].
Qed.

(** *** The date filter *)

Lemma process_row_qualifies start_date azure_account result w :
  is_Some (result !! 1) →
  process_row start_date azure_account result w =
  if date_qualifies start_date result
  then expose_metrics azure_account result w
  else ([], Return tt, w).
Proof.
  intros [d Hd]. unfold process_row, date_qualifies.
  rewrite (bind_return_nil _ _ _ _ _ (getitem_Some _ _ _ w Hd)), Hd.
  by destruct (py_eq_int d (int_strftime_Ymd start_date)).
Qed.

Lemma for_each_process_row start_date azure_account cost_rows w :
  Forall (λ result, is_Some (result !! 1)) cost_rows →
  for_each (process_row start_date azure_account) cost_rows w =
  for_each (expose_metrics azure_account)
           (List.filter (date_qualifies start_date) cost_rows) w.
Proof.
  intros Hall. revert w. induction Hall as [|result cost_rows H1 _ IH]; intros w.
  - reflexivity.
  - rewrite for_each_cons, (process_row_qualifies _ _ _ _ H1). simpl List.filter.
    destruct (date_qualifies start_date result).
    + rewrite for_each_cons.
      destruct (expose_metrics azure_account result w) as [[t [[]|e]] w1]; [|done].
      by rewrite IH.
    + rewrite IH. by destruct (for_each _ _ w) as [[t r] w1].
Qed.

Lemma query_and_expose_run azure_client subscription_id current w
    end_date w1 start_date cost_rows w2 :
  today w = (end_date, w1) →
  minus_one_day end_date = inr start_date →
  usage azure_client ("/subscriptions/" +:+ subscription_id)
        (cost_query group_by start_date end_date) w1
    = (inr (mk_result (Some cost_rows)), w2) →
  query_and_expose azure_client subscription_id current w =
    let '(t, r, w3) := for_each (process_row start_date current) cost_rows w2 in
    (QueryUsage azure_client ("/subscriptions/" +:+ subscription_id)
       (cost_query group_by start_date end_date) :: t, r, w3).
Proof.
  intros Hnow Hstart Husage. unfold query_and_expose.
  rewrite (bind_return_nil _ _ w end_date w1); [|unfold datetime_today; by rewrite Hnow].
  rewrite Hstart. simpl lift. rewrite bind_ret_run.
  rewrite (bind_return _ _ w1
             [QueryUsage azure_client ("/subscriptions/" +:+ subscription_id)
                (cost_query group_by start_date end_date)]
             (mk_result (Some cost_rows)) w2).
  2: { unfold query_azure_cost_explorer, query_usage. by rewrite Husage. }
  cbv beta. simpl rows. cbv iota. rewrite bind_ret_run. reflexivity.
Qed.

(** C2 (as amended).  Of the rows of an answer, those whose date element
    equals the number of the query's start date (the day before its end date)
    are mapped, in order; every row with another date is dropped. *)
Theorem only_start_date_rows_are_mapped azure_client subscription_id current w
    end_date w1 start_date cost_rows w2 :
  today w = (end_date, w1) →
  minus_one_day end_date = inr start_date →
  usage azure_client ("/subscriptions/" +:+ subscription_id)
        (cost_query group_by start_date end_date) w1
    = (inr (mk_result (Some cost_rows)), w2) →
  Forall (λ result, is_Some (result !! 1)) cost_rows →
  let q := cost_query group_by start_date end_date in
  from_property (time_period q) = midnight_utc start_date ∧
  to_property (time_period q) = midnight_utc end_date ∧
  query_and_expose azure_client subscription_id current w =
    let '(t, r, w3) :=
      for_each (expose_metrics current)
               (List.filter (date_qualifies start_date) cost_rows) w2 in
    (QueryUsage azure_client ("/subscriptions/" +:+ subscription_id) q :: t, r, w3).
Proof.
  intros Hnow Hstart Husage Hall q. split; [done|]. split; [done|].
  rewrite (query_and_expose_run _ _ _ _ _ _ _ _ _ Hnow Hstart Husage).
  by rewrite (for_each_process_row _ _ _ _ Hall).
Qed.

(** *** The calendar *)

Lemma days_before_month_succ y m :
  (2 <= m)%Z →
  days_before_month y m = (days_before_month y (m - 1) + days_in_month y (m - 1))%Z.
Proof.
  intros Hm. unfold days_before_month.
  replace (Z.to_nat (m - 1)) with (S (Z.to_nat (m - 1 - 1))) by lia.
  simpl days_before_month_nat. do 2 f_equal. lia.
Qed.

Lemma days_before_year_succ y :
  days_before_year (y + 1) =
  (days_before_year y + 365 + (if is_leap y then 1 else 0))%Z.
Proof.
  unfold days_before_year, is_leap.
  replace (y + 1 - 1)%Z with y by lia.
  destruct (Z.eqb_spec (y mod 4) 0), (Z.eqb_spec (y mod 100) 0),
    (Z.eqb_spec (y mod 400) 0); simpl;
    Z.to_euclidean_division_equations; lia.
Qed.

Lemma days_before_december y :
  days_before_month y 12 = (334 + (if is_leap y then 1 else 0))%Z.
Proof.
  unfold days_before_month. simpl Z.to_nat. simpl days_before_month_nat.
  unfold days_in_month. simpl. destruct (is_leap y); reflexivity.
Qed.

Lemma days_in_month_bounds y m : (28 <= days_in_month y m <= 31)%Z.
Proof.
  unfold days_in_month.
  destruct (m =? 2)%Z; [destruct (is_leap y); lia|].
  destruct ((m =? 4) || (m =? 6) || (m =? 9) || (m =? 11))%Z; lia.
Qed.

(** The day before a valid date is a valid date, one day earlier. *)
Lemma minus_one_day_ordinal d d' :
  valid_date d → minus_one_day d = inr d' →
  valid_date d' ∧ toordinal d' = (toordinal d - 1)%Z.
Proof.
  intros (Hy & Hm & Hd). unfold minus_one_day.
  destruct (Z.ltb_spec 1 (day d)) as [Hday|Hday].
  { intros [= <-]. unfold valid_date, toordinal. simpl. lia. }
  destruct (Z.ltb_spec 1 (month d)) as [Hmon|Hmon].
  { intros [= <-]. unfold valid_date, toordinal. simpl.
    pose proof (days_in_month_bounds (year d) (month d - 1)).
    rewrite (days_before_month_succ (year d) (month d)) by lia. lia. }
  destruct (Z.ltb_spec 1 (year d)) as [Hyear|Hyear]; [|discriminate].
  intros [= <-]. unfold valid_date, toordinal. simpl.
  replace (month d) with 1%Z by lia.
  rewrite days_before_december.
  pose proof (days_before_year_succ (year d - 1)) as Hs.
  replace (year d - 1 + 1)%Z with (year d) in Hs by lia.
  change (days_before_month (year d) 1) with 0%Z.
  change (days_in_month (year d - 1) 12) with 31%Z.
  lia.
Qed.

Lemma query_and_expose_queries azure_client subscription_id current w
    end_date w1 start_date :
  today w = (end_date, w1) →
  minus_one_day end_date = inr start_date →
  ∃ t r w2,
    query_and_expose azure_client subscription_id current w =
    (QueryUsage azure_client ("/subscriptions/" +:+ subscription_id)
       (cost_query group_by start_date end_date) :: t, r, w2).
Proof.
  intros Hnow Hstart. unfold query_and_expose.
  rewrite (bind_return_nil _ _ w end_date w1); [|unfold datetime_today; by rewrite Hnow].
  rewrite Hstart. simpl lift. rewrite bind_ret_run, bind_run.
  unfold query_azure_cost_explorer, query_usage.
  destruct (usage _ _ _ w1) as [[e|res] w2].
  - by eexists _, _, _.
  - match goal with |- context [(?m ≫= ?k) w2] =>
      destruct ((m ≫= k) w2) as [[t r] w3] end.
    by eexists _, _, _.
Qed.

(** C9.  The query sent for a subscription asks for daily granularity, the
    single aggregation "sum of CostUSD" and, when grouping is enabled, one
    grouping dimension per configured group in the configured order (none
    otherwise); the mapper reads group [i]'s value at offset [2 + i] of a row.
    Its window runs from midnight UTC of the day before today's date to
    midnight UTC of today's date, one day apart. *)
Theorem cost_query_shape azure_client subscription_id current w
    end_date w1 start_date :
  today w = (end_date, w1) →
  valid_date end_date →
  minus_one_day end_date = inr start_date →
  let q := cost_query group_by start_date end_date in
  (∃ t r w2,
     query_and_expose azure_client subscription_id current w =
     (QueryUsage azure_client ("/subscriptions/" +:+ subscription_id) q :: t, r, w2)) ∧
  query_type q = "ActualCost" ∧ timeframe q = "Custom" ∧
  granularity (dataset q) = "Daily" ∧
  aggregation (dataset q) = [("totalCostUSD", mk_aggregation "CostUSD" "Sum")] ∧
  grouping (dataset q) =
    (if enabled group_by
     then map (λ g, mk_grouping (group_type g) (group_name g)) (groups group_by)
     else []) ∧
  (enabled group_by = true →
   ∀ i g, groups group_by !! i = Some g →
     grouping (dataset q) !! i = Some (mk_grouping (group_type g) (group_name g))) ∧
  (∀ result w', length (groups group_by) + 2 ≤ length result →
     ∃ gkv, read_group_values (groups group_by) 0 result ∅ w' = ([], Return gkv, w') ∧
       ∀ i g, groups group_by !! i = Some g →
         (∀ j g', i < j → groups group_by !! j = Some g' →
                  label_name g' ≠ label_name g) →
         gkv !! label_name g = result !! (2 + i)) ∧
  to_property (time_period q) =
    mk_datetime (year end_date) (month end_date) (day end_date) 0 0 0 0 (Some utc) ∧
  from_property (time_period q) =
    mk_datetime (year start_date) (month start_date) (day start_date) 0 0 0 0 (Some utc) ∧
  valid_date (from_property (time_period q)) ∧
  toordinal (to_property (time_period q)) =
    (toordinal (from_property (time_period q)) + 1)%Z.
Proof.
  intros Hnow Hvalid Hstart q.
  destruct (minus_one_day_ordinal _ _ Hvalid Hstart) as [Hv Hord].
  split; [by apply (query_and_expose_queries _ _ _ _ _ _ _ Hnow Hstart)|].
  do 5 (split; [done|]).
  split.
  { intros Hen i g Hi. subst q. simpl. rewrite Hen, list_lookup_fmap, Hi. done. }
  split.
  { intros result w' Hlen.
    destruct (read_group_values_run (groups group_by) 0 result ∅ w')
      as (gkv & Hrun & _ & Hin); [simpl; lia|].
    exists gkv. split; [done|]. intros i g Hi Hlater.
    rewrite (Hin i g Hi Hlater). f_equal. lia. }
  do 2 (split; [done|]).
  split; [exact Hv|].
  unfold toordinal in *. simpl. lia.
Qed.

(** *** Environment name and credentials *)

Lemma match_environment_name_first ts subscription_id current pre target_account post :
  ts = pre ++ target_account :: post →
  Forall (λ t, default "" (t !! "Subscription") ≠ subscription_id) pre →
  default "" (target_account !! "Subscription") = subscription_id →
  match_environment_name ts subscription_id current =
  <["EnvironmentName" := default "DefaultEnv" (target_account !! "EnvironmentName")]>
    current.
Proof.
  intros -> Hpre Ht. induction Hpre as [|t pre Hne _ IH]; simpl.
  - by rewrite bool_decide_eq_true_2.
  - by rewrite bool_decide_eq_false_2.
Qed.

Lemma match_environment_name_none ts subscription_id current :
  Forall (λ t, default "" (t !! "Subscription") ≠ subscription_id) ts →
  match_environment_name ts subscription_id current = current.
Proof.
  induction 1 as [|t ts Hne _ IH]; simpl; [done|].
  by rewrite bool_decide_eq_false_2.
Qed.

(** C4 (as amended).  The working copy of the account takes its
    [EnvironmentName] from the first target, in list order, whose
    [Subscription] is the subscription at hand ("DefaultEnv" when that target
    has no such key); when no target declares the subscription it keeps the
    [EnvironmentName] of the account the tenant's pass started from. *)
Theorem environment_name_resolution azure_account subscription_id :
  let current :=
    match_environment_name targets subscription_id
      (<["Subscription" := subscription_id]> azure_account) in
  (∀ pre target_account post,
     targets = pre ++ target_account :: post →
     Forall (λ t, default "" (t !! "Subscription") ≠ subscription_id) pre →
     default "" (target_account !! "Subscription") = subscription_id →
     current !! "EnvironmentName" =
       Some (default "DefaultEnv" (target_account !! "EnvironmentName")) ∧
     current =
       <["EnvironmentName" := default "DefaultEnv" (target_account !! "EnvironmentName")]>
         (<["Subscription" := subscription_id]> azure_account))
  ∧
  (Forall (λ t, default "" (t !! "Subscription") ≠ subscription_id) targets →
   current !! "EnvironmentName" = azure_account !! "EnvironmentName" ∧
   current = <["Subscription" := subscription_id]> azure_account).
Proof.
  intros current. split.
  - intros pre t post Hts Hpre Ht. subst current.
    rewrite (match_environment_name_first _ _ _ _ _ _ Hts Hpre Ht).
    split; [apply lookup_insert_eq|done].
  - intros Hnone. subst current.
    rewrite (match_environment_name_none _ _ _ Hnone).
    split; [by rewrite lookup_insert_ne|done].
Qed.

Lemma find_first_match {A} (f : A → bool) pre x post :
  Forall (λ y, f y = false) pre → f x = true →
  List.find f (pre ++ x :: post) = Some x.
Proof.
  intros Hpre Hx. induction Hpre as [|y pre Hy _ IH]; simpl.
  - by rewrite Hx.
  - by rewrite Hy.
Qed.

Lemma find_none_Forall {A} (f : A → bool) l :
  List.find f l = None ↔ Forall (λ y, f y = false) l.
Proof.
  induction l as [|y l IH]; simpl.
  - split; [constructor|done].
  - destruct (f y) eqn:Hy.
    + split; [done|]. intros H. apply Forall_cons in H as [H _]. congruence.
    + rewrite IH. split; [by constructor|]. by intros [_ ?]%Forall_cons.
Qed.

Lemma init_azure_client_found tenant_id subscription_id subs credentials w :
  secrets !! tenant_id = Some subs →
  List.find (λ sub, bool_decide (SubscriptionId sub = subscription_id)) subs
    = Some credentials →
  init_azure_client tenant_id subscription_id w =
  match credential_error tenant_id (client_id credentials) (client_secret credentials) with
  | None =>
      ([], Return (mk_client tenant_id (client_id credentials) (client_secret credentials)),
       w)
  | Some e => ([], Raise e, w)
  end.
Proof.
  intros Hs Hf. unfold init_azure_client. rewrite Hs, Hf.
  by destruct (credential_error _ _ _).
Qed.

(** [init_azure_client] causes no event and leaves the world as it is: it
    raises, or returns the client of the first matching record. *)
Lemma init_azure_client_cases tenant_id subscription_id w :
  (∃ e, init_azure_client tenant_id subscription_id w = ([], Raise e, w)) ∨
  (∃ subs credentials,
     secrets !! tenant_id = Some subs ∧
     List.find (λ sub, bool_decide (SubscriptionId sub = subscription_id)) subs
       = Some credentials ∧
     credential_error tenant_id (client_id credentials) (client_secret credentials)
       = None ∧
     init_azure_client tenant_id subscription_id w =
     ([], Return (mk_client tenant_id (client_id credentials) (client_secret credentials)),
      w)).
Proof.
  unfold init_azure_client.
  destruct (secrets !! tenant_id) as [subs|]; [|left; by eexists].
  destruct (List.find _ subs) as [credentials|] eqn:Hf; [|left; by eexists].
  destruct (credential_error _ _ _) eqn:Hc; [left; by eexists|].
  right. by exists subs, credentials.
Qed.

(** A matching record is a record of the tenant with that subscription. *)
Lemma find_credentials_elem subscription_id subs credentials :
  List.find (λ sub, bool_decide (SubscriptionId sub = subscription_id)) subs
    = Some credentials →
  credentials ∈ subs ∧ SubscriptionId credentials = subscription_id.
Proof.
  intros Hf. apply find_some in Hf as [Hin Hc].
  split; [by apply list_elem_of_In|by apply bool_decide_eq_true in Hc].
Qed.

Lemma fetch_subscription_no_client azure_account tenant_id sub e w :
  init_azure_client tenant_id (SubscriptionId sub) w = ([], Raise e, w) →
  fetch_subscription azure_account tenant_id sub w =
  ([PrintProcessing (SubscriptionId sub)], Raise e, w).
Proof.
  intros Hinit. unfold fetch_subscription. rewrite bind_emit_run.
  by rewrite (bind_raise _ _ _ _ _ _ Hinit).
Qed.

(** *** The fetch cycle *)

Lemma fetch_subscription_refused azure_account tenant_id sub subs credentials e w :
  secrets !! tenant_id = Some subs →
  List.find (λ c, bool_decide (SubscriptionId c = SubscriptionId sub)) subs
    = Some credentials →
  credential_error tenant_id (client_id credentials) (client_secret credentials)
    = Some e →
  fetch_subscription azure_account tenant_id sub w =
  ([PrintProcessing (SubscriptionId sub)], Raise e, w).
Proof.
  intros Hs Hf He. apply fetch_subscription_no_client.
  by rewrite (init_azure_client_found _ _ _ _ w Hs Hf), He.
Qed.

Lemma fetch_subscription_run azure_account tenant_id sub subs credentials w :
  secrets !! tenant_id = Some subs →
  List.find (λ c, bool_decide (SubscriptionId c = SubscriptionId sub)) subs
    = Some credentials →
  credential_error tenant_id (client_id credentials) (client_secret credentials)
    = None →
  fetch_subscription azure_account tenant_id sub w =
  let subscription_id := SubscriptionId sub in
  let azure_client :=
    mk_client tenant_id (client_id credentials) (client_secret credentials) in
  let current :=
    match_environment_name targets subscription_id
      (<["Subscription" := subscription_id]> azure_account) in
  match query_and_expose azure_client subscription_id current w with
  | (t, Raise (HttpResponseError reason), w1) =>
      (PrintProcessing subscription_id :: t ++ [LogError subscription_id reason],
       Return tt, w1)
  | (t, r, w1) => (PrintProcessing subscription_id :: t, r, w1)
  end.
Proof.
  intros Hs Hf Hc. unfold fetch_subscription. rewrite bind_emit_run.
  pose proof (init_azure_client_found _ _ _ _ w Hs Hf) as Hinit. rewrite Hc in Hinit.
  rewrite (bind_return_nil _ _ _ _ _ Hinit).
  unfold try_except_HttpResponseError. cbv zeta.
  destruct (query_and_expose _ _ _ w) as [[t [[]|e]] w1]; [done|].
  by destruct e.
Qed.

Lemma fetch_loop_fresh azure_account ts processed_tenants tenant_id subs w :
  azure_account !! "TenantId" = Some tenant_id →
  tenant_id ∉ processed_tenants →
  secrets !! tenant_id = Some subs →
  fetch_loop (azure_account :: ts) processed_tenants w =
  match for_each (fetch_subscription azure_account tenant_id) subs w with
  | (t1, Return _, w1) =>
      let '(t2, r, w2) := fetch_loop ts ({[tenant_id]} ∪ processed_tenants) w1 in
      (PrintQuerying tenant_id :: t1 ++ t2, r, w2)
  | (t1, Raise e, w1) => (PrintQuerying tenant_id :: t1, Raise e, w1)
  end.
Proof.
  intros Ht Hnew Hs. simpl.
  rewrite Ht, bind_ret_run, bool_decide_eq_false_2 by done.
  rewrite bind_run. unfold tenant_pass. rewrite bind_emit_run, Hs, bind_ret_run.
  destruct (for_each _ subs w) as [[t1 [[]|e]] w1]; [|done].
  by destruct (fetch_loop ts _ w1) as [[t2 r] w2].
Qed.

(** C5.  When the billing API answers a subscription's request with an HTTP
    error, the error is logged with the subscription's identifier and the
    reason, and the subscription ends normally: what earlier subscriptions
    wrote stays in the trace, and the cycle goes on with the tenant's next
    subscriptions and then with the remaining targets.  (The request is made
    with the client of the subscription's record; were the constructor to
    refuse the record, no request would be made and the constructor's
    exception would end the cycle there.) *)
Theorem http_error_skips_only_that_subscription
    azure_account ts processed_tenants tenant_id pre sub post credentials
    w0 t_pre w end_date w1 start_date reason w2 :
  azure_account !! "TenantId" = Some tenant_id →
  tenant_id ∉ processed_tenants →
  secrets !! tenant_id = Some (pre ++ sub :: post) →
  List.find (λ c, bool_decide (SubscriptionId c = SubscriptionId sub))
            (pre ++ sub :: post) = Some credentials →
  for_each (fetch_subscription azure_account tenant_id) pre w0 = (t_pre, Return tt, w) →
  today w = (end_date, w1) →
  minus_one_day end_date = inr start_date →
  let subscription_id := SubscriptionId sub in
  let azure_client :=
    mk_client tenant_id (client_id credentials) (client_secret credentials) in
  let scope := "/subscriptions/" +:+ subscription_id in
  let q := cost_query group_by start_date end_date in
  usage azure_client scope q w1 = (inl (HttpResponseError reason), w2) →
  let logged :=
    [PrintProcessing subscription_id; QueryUsage azure_client scope q;
     LogError subscription_id reason] in
  (credential_error tenant_id (client_id credentials) (client_secret credentials)
     = None →
   fetch_subscription azure_account tenant_id sub w = (logged, Return tt, w2) ∧
   fetch_loop (azure_account :: ts) processed_tenants w0 =
     match for_each (fetch_subscription azure_account tenant_id) post w2 with
     | (t_post, Return _, w3) =>
         let '(t_rest, r, w4) :=
           fetch_loop ts ({[tenant_id]} ∪ processed_tenants) w3 in
         (PrintQuerying tenant_id :: t_pre ++ logged ++ t_post ++ t_rest, r, w4)
     | (t_post, Raise e, w3) =>
         (PrintQuerying tenant_id :: t_pre ++ logged ++ t_post, Raise e, w3)
     end)
  ∧ (∀ e,
       credential_error tenant_id (client_id credentials) (client_secret credentials)
         = Some e →
       fetch_loop (azure_account :: ts) processed_tenants w0 =
       (PrintQuerying tenant_id :: t_pre ++ [PrintProcessing subscription_id],
        Raise e, w)).
Proof.
  intros Ht Hnew Hs Hf Hpre Hnow Hstart subscription_id azure_client scope q Husage logged.
  split.
  - intros Hc.
    assert (fetch_subscription azure_account tenant_id sub w = (logged, Return tt, w2))
      as Hsub.
    { rewrite (fetch_subscription_run _ _ _ _ _ _ Hs Hf Hc). cbv zeta.
      unfold query_and_expose.
      rewrite (bind_return_nil _ _ w end_date w1); [|unfold datetime_today; by rewrite Hnow].
      rewrite Hstart. simpl lift. rewrite bind_ret_run, bind_run.
      unfold query_azure_cost_explorer, query_usage.
      fold subscription_id azure_client scope q. by rewrite Husage. }
    split; [done|].
    rewrite (fetch_loop_fresh _ _ _ _ _ _ Ht Hnew Hs).
    rewrite for_each_app, Hpre, for_each_cons, Hsub.
    destruct (for_each _ post w2) as [[t_post [[]|e]] w3].
    + destruct (fetch_loop ts _ w3) as [[t_rest r] w4].
      by rewrite <- !app_assoc.
    + reflexivity.
  - intros e Hc.
    rewrite (fetch_loop_fresh _ _ _ _ _ _ Ht Hnew Hs).
    rewrite for_each_app, Hpre, for_each_cons.
    by rewrite (fetch_subscription_refused _ _ _ _ _ _ w Hs Hf Hc).
Qed.

Lemma py_float_not_http v e :
  py_float v = inl e → ∀ reason, e ≠ HttpResponseError reason.
Proof.
  destruct v as [|z|f|s]; simpl.
  - by intros [= <-].
  - unfold Z_to_float. destruct (binary_normalize _ _ _ _ _); try done.
    by intros [= <-].
  - done.
  - destruct (str_to_float s); [done|]. by intros [= <-].
Qed.

Lemma process_row_index_error start_date azure_account result r0 cost w :
  date_qualifies start_date result = true →
  enabled group_by = true →
  result !! 0 = Some r0 → py_float r0 = inr cost →
  length result < 2 + length (groups group_by) →
  process_row start_date azure_account result w = ([], Raise IndexError, w).
Proof.
  intros Hq Hen H0 Hc Hlen.
  assert (is_Some (result !! 1)) as H1.
  { unfold date_qualifies in Hq. by destruct (result !! 1). }
  rewrite (process_row_qualifies _ _ _ _ H1), Hq.
  rewrite (expose_metrics_cost _ _ _ _ _ H0 Hc). cbv zeta. rewrite Hen.
  apply lookup_lt_is_Some_1 in H1.
  rewrite (bind_raise _ _ w [] IndexError w); [done|].
  apply read_group_values_short; simpl; lia.
Qed.

Lemma process_row_conversion_error start_date azure_account result r0 e w :
  date_qualifies start_date result = true →
  result !! 0 = Some r0 → py_float r0 = inl e →
  process_row start_date azure_account result w = ([], Raise e, w).
Proof.
  intros Hq H0 Hc.
  assert (is_Some (result !! 1)) as H1.
  { unfold date_qualifies in Hq. by destruct (result !! 1). }
  rewrite (process_row_qualifies _ _ _ _ H1), Hq.
  unfold expose_metrics.
  rewrite (bind_return_nil _ _ _ _ _ (getitem_Some _ _ _ w H0)).
  by rewrite Hc.
Qed.

Lemma query_and_expose_row_error azure_client subscription_id current w
    end_date w1 start_date rows_pre result rows_post w2 t_rows w3 e :
  today w = (end_date, w1) →
  minus_one_day end_date = inr start_date →
  usage azure_client ("/subscriptions/" +:+ subscription_id)
        (cost_query group_by start_date end_date) w1
    = (inr (mk_result (Some (rows_pre ++ result :: rows_post))), w2) →
  for_each (process_row start_date current) rows_pre w2 = (t_rows, Return tt, w3) →
  process_row start_date current result w3 = ([], Raise e, w3) →
  query_and_expose azure_client subscription_id current w =
  (QueryUsage azure_client ("/subscriptions/" +:+ subscription_id)
     (cost_query group_by start_date end_date) :: t_rows, Raise e, w3).
Proof.
  intros Hnow Hstart Husage Hpre Hrow.
  rewrite (query_and_expose_run _ _ _ _ _ _ _ _ _ Hnow Hstart Husage).
  rewrite for_each_app, Hpre, for_each_cons, Hrow. by rewrite app_nil_r.
Qed.

(** C10.  The [try] of a subscription catches HTTP errors only.  Any other
    exception raised while the answer is processed leaves the subscription,
    the tenant's pass and the cycle: the trace stops there, no later
    subscription or target is visited.  So do the [IndexError] of a
    date-qualifying row with fewer than 2 + (number of groups) elements when
    grouping is enabled (the group values are read before the merge test) and
    the error of [float] on a first element that is not a number.  The
    client is built outside the [try]: an exception of its constructor ends
    the cycle too, whatever its class. *)
Theorem other_exceptions_abort_cycle
    azure_account ts processed_tenants tenant_id pre sub post credentials w0 t_pre w :
  azure_account !! "TenantId" = Some tenant_id →
  tenant_id ∉ processed_tenants →
  secrets !! tenant_id = Some (pre ++ sub :: post) →
  List.find (λ c, bool_decide (SubscriptionId c = SubscriptionId sub))
            (pre ++ sub :: post) = Some credentials →
  for_each (fetch_subscription azure_account tenant_id) pre w0 = (t_pre, Return tt, w) →
  let subscription_id := SubscriptionId sub in
  let azure_client :=
    mk_client tenant_id (client_id credentials) (client_secret credentials) in
  let scope := "/subscriptions/" +:+ subscription_id in
  let current :=
    match_environment_name targets subscription_id
      (<["Subscription" := subscription_id]> azure_account) in
  (credential_error tenant_id (client_id credentials) (client_secret credentials)
     = None →
   (∀ t e w',
      query_and_expose azure_client subscription_id current w = (t, Raise e, w') →
      (∀ reason, e ≠ HttpResponseError reason) →
      fetch_loop (azure_account :: ts) processed_tenants w0 =
      (PrintQuerying tenant_id :: t_pre ++ PrintProcessing subscription_id :: t,
       Raise e, w'))
   ∧
   (∀ end_date w1 start_date rows_pre result rows_post w2 t_rows w3 r0,
      today w = (end_date, w1) →
      minus_one_day end_date = inr start_date →
      usage azure_client scope (cost_query group_by start_date end_date) w1
        = (inr (mk_result (Some (rows_pre ++ result :: rows_post))), w2) →
      for_each (process_row start_date current) rows_pre w2 = (t_rows, Return tt, w3) →
      date_qualifies start_date result = true →
      result !! 0 = Some r0 →
      let aborted e :=
        fetch_loop (azure_account :: ts) processed_tenants w0 =
        (PrintQuerying tenant_id :: t_pre ++ PrintProcessing subscription_id ::
           QueryUsage azure_client scope (cost_query group_by start_date end_date) ::
           t_rows,
         Raise e, w3) in
      (∀ cost, enabled group_by = true → py_float r0 = inr cost →
         length result < 2 + length (groups group_by) → aborted IndexError)
      ∧ (∀ e, py_float r0 = inl e → aborted e)))
  ∧ (∀ e,
       credential_error tenant_id (client_id credentials) (client_secret credentials)
         = Some e →
       fetch_loop (azure_account :: ts) processed_tenants w0 =
       (PrintQuerying tenant_id :: t_pre ++ [PrintProcessing subscription_id],
        Raise e, w)).
Proof.
  intros Ht Hnew Hs Hf Hpre subscription_id azure_client scope current.
  split; [intros Hcred|].
  2: { intros e Hcred.
       rewrite (fetch_loop_fresh _ _ _ _ _ _ Ht Hnew Hs).
       rewrite for_each_app, Hpre, for_each_cons.
       by rewrite (fetch_subscription_refused _ _ _ _ _ _ w Hs Hf Hcred). }
  assert (∀ t e w',
     query_and_expose azure_client subscription_id current w = (t, Raise e, w') →
     (∀ reason, e ≠ HttpResponseError reason) →
     fetch_loop (azure_account :: ts) processed_tenants w0 =
     (PrintQuerying tenant_id :: t_pre ++ PrintProcessing subscription_id :: t,
      Raise e, w')) as Habort.
  { intros t e w' Hq He.
    rewrite (fetch_loop_fresh _ _ _ _ _ _ Ht Hnew Hs).
    rewrite for_each_app, Hpre, for_each_cons.
    rewrite (fetch_subscription_run _ _ _ _ _ _ Hs Hf Hcred). cbv zeta.
    fold subscription_id azure_client current. rewrite Hq.
    destruct e; try done. by destruct (He reason). }
  split; [exact Habort|].
  intros end_date w1 start_date rows_pre result rows_post w2 t_rows w3 r0
    Hnow Hstart Husage Hrows Hq H0 aborted.
  split.
  - intros cost Hen Hc Hlen. apply Habort; [|done].
    apply (query_and_expose_row_error _ _ _ _ _ _ _ _ _ _ _ _ _ _ Hnow Hstart Husage Hrows).
    by apply (process_row_index_error _ _ _ r0 cost).
  - intros e Hc. apply Habort; [|by apply (py_float_not_http r0)].
    apply (query_and_expose_row_error _ _ _ _ _ _ _ _ _ _ _ _ _ _ Hnow Hstart Husage Hrows).
    by apply (process_row_conversion_error _ _ _ r0).
Qed.

(** *** Events a statement cannot cause *)

Lemma silent_ret {A X} (f : event → option X) (a : A) : silent f (ret a).
Proof. by intros w. Qed.

Lemma silent_raise {A X} (f : event → option X) e : silent f (raise e : M A).
Proof. by intros w. Qed.

Lemma silent_lift {A X} (f : event → option X) (r : exn + A) : silent f (lift r).
Proof. destruct r; [apply silent_raise|apply silent_ret]. Qed.

Lemma silent_emit {X} (f : event → option X) ev : f ev = None → silent f (emit ev).
Proof. intros H w. simpl. by rewrite H. Qed.

Lemma silent_bind {A B X} (f : event → option X) (m : M A) (k : A → M B) :
  silent f m → (∀ a, silent f (k a)) → silent f (m ≫= k).
Proof.
  intros Hm Hk w. rewrite bind_run. specialize (Hm w).
  destruct (m w) as [[t1 [a|e]] w1]; simpl in *; [|done].
  specialize (Hk a w1). destruct (k a w1) as [[t2 r] w2]. simpl in *.
  by rewrite omap_app, Hm, Hk.
Qed.

Lemma silent_for_each {A X} (f : event → option X) (body : A → M unit) l :
  (∀ x, silent f (body x)) → silent f (for_each body l).
Proof.
  intros Hb. induction l as [|x l IH]; simpl.
  - apply silent_ret.
  - apply silent_bind; [apply Hb|]. by intros _.
Qed.

Lemma silent_getitem {A X} (f : event → option X) (l : list A) i :
  silent f (getitem l i).
Proof. unfold getitem. destruct (l !! i); [apply silent_ret|apply silent_raise]. Qed.

Lemma silent_read_group_values {X} (f : event → option X) gs i result acc :
  silent f (read_group_values gs i result acc).
Proof.
  intros w. by destruct (read_group_values_pure gs i result acc w) as [r ->].
Qed.

Lemma silent_gauge_labels_set {X} (f : event → option X) labels cost :
  (∀ l v, f (GaugeSet l v) = None) → silent f (gauge_labels_set labels cost).
Proof.
  intros Hg. unfold gauge_labels_set.
  destruct (gauge_error (dom labels)); [apply silent_raise|by apply silent_emit].
Qed.

Lemma silent_expose_metrics {X} (f : event → option X) azure_account result :
  (∀ l v, f (GaugeSet l v) = None) →
  (∀ l v, f (PrintExposing l v) = None) →
  (∀ l v, f (PrintExposingMerged l v) = None) →
  silent f (expose_metrics azure_account result).
Proof.
  intros Hg Hp Hm. unfold expose_metrics.
  apply silent_bind; [apply silent_getitem|]. intros r0.
  apply silent_bind; [apply silent_lift|]. intros cost. cbv zeta.
  destruct (enabled group_by).
  - apply silent_bind; [apply silent_read_group_values|]. intros gkv.
    apply silent_bind.
    + destruct (_ && _); [apply silent_ret|].
      apply silent_bind; [by apply silent_gauge_labels_set|]. intros _.
      apply silent_bind; [by apply silent_emit|]. intros _. apply silent_ret.
    + intros [labels merged]. destruct (0 <? merged)%float; [|apply silent_ret].
      apply silent_bind; [by apply silent_gauge_labels_set|]. intros _.
      by apply silent_emit.
  - apply silent_bind; [by apply silent_gauge_labels_set|]. intros _.
    by apply silent_emit.
Qed.

Lemma silent_process_row {X} (f : event → option X) start_date azure_account result :
  (∀ l v, f (GaugeSet l v) = None) →
  (∀ l v, f (PrintExposing l v) = None) →
  (∀ l v, f (PrintExposingMerged l v) = None) →
  silent f (process_row start_date azure_account result).
Proof.
  intros Hg Hp Hm. unfold process_row.
  apply silent_bind; [apply silent_getitem|]. intros d.
  destruct (negb _); [apply silent_ret|by apply silent_expose_metrics].
Qed.

Lemma omap_cons_Some {A B} (f : A → option B) x y l :
  f x = Some y → omap f (x :: l) = y :: omap f l.
Proof. intros H. simpl. by rewrite H. Qed.

Lemma omap_cons_None {A B} (f : A → option B) x l :
  f x = None → omap f (x :: l) = omap f l.
Proof. intros H. simpl. by rewrite H. Qed.

Lemma silent_query_and_expose_pass azure_client subscription_id current :
  silent pass_of (query_and_expose azure_client subscription_id current).
Proof.
  unfold query_and_expose.
  apply silent_bind.
  { intros w. unfold datetime_today. by destruct (today w). }
  intros end_date. apply silent_bind; [apply silent_lift|]. intros start_date.
  apply silent_bind.
  { intros w. unfold query_azure_cost_explorer, query_usage.
    by destruct (usage _ _ _ w). }
  intros cost_response. apply silent_bind.
  { destruct (rows cost_response); [apply silent_ret|apply silent_raise]. }
  intros cost_rows. apply silent_for_each. intros result.
  by apply silent_process_row.
Qed.

Lemma silent_init_azure_client {X} (f : event → option X) tenant_id subscription_id :
  silent f (init_azure_client tenant_id subscription_id).
Proof.
  intros w.
  destruct (init_azure_client_cases tenant_id subscription_id w)
    as [[e ->]|(? & ? & _ & _ & _ & ->)]; done.
Qed.

Lemma silent_fetch_subscription_pass azure_account tenant_id sub :
  silent pass_of (fetch_subscription azure_account tenant_id sub).
Proof.
  unfold fetch_subscription.
  apply silent_bind; [by apply silent_emit|]. intros _.
  apply silent_bind; [apply silent_init_azure_client|].
  intros azure_client w. unfold try_except_HttpResponseError.
  pose proof (silent_query_and_expose_pass azure_client (SubscriptionId sub)
    (match_environment_name targets (SubscriptionId sub)
       (<["Subscription" := SubscriptionId sub]> azure_account)) w) as Hq.
  destruct (query_and_expose _ _ _ w) as [[t [[]|e]] w1]; [done|].
  destruct e; try done. simpl in *. unfold emit. simpl.
  by rewrite omap_app, Hq.
Qed.

Lemma tenant_pass_passes azure_account tenant_id w :
  tenant_passes (tenant_pass azure_account tenant_id w).1.1 = [tenant_id].
Proof.
  unfold tenant_pass. rewrite bind_emit_run.
  match goal with |- context [(?m ≫= ?k) w] =>
    assert (silent pass_of (m ≫= k)) as Hs; [|specialize (Hs w);
      destruct ((m ≫= k) w) as [[t r] w1]] end.
  { apply silent_bind.
    - destruct (secrets !! tenant_id); [apply silent_ret|apply silent_raise].
    - intros subs. apply silent_for_each. intros sub.
      apply silent_fetch_subscription_pass. }
  simpl in *. unfold tenant_passes. simpl. by rewrite Hs.
Qed.

Lemma minus_one_day_error d e : minus_one_day d = inl e → e = OverflowError.
Proof.
  unfold minus_one_day.
  destruct (1 <? day d)%Z; [done|]. destruct (1 <? month d)%Z; [done|].
  destruct (1 <? year d)%Z; [done|]. by intros [= <-].
Qed.

Lemma query_and_expose_scopes azure_client subscription_id current w t r w' :
  query_and_expose azure_client subscription_id current w = (t, r, w') →
  fetched_scopes t = ["/subscriptions/" +:+ subscription_id] ∨
  (t = [] ∧ r = Raise OverflowError).
Proof.
  unfold query_and_expose. rewrite bind_run. unfold datetime_today.
  destruct (today w) as [end_date w1].
  destruct (minus_one_day end_date) as [e|start_date] eqn:Hstart.
  { apply minus_one_day_error in Hstart as ->. simpl. intros [= <- <- <-]. by right. }
  simpl lift. rewrite bind_ret_run, bind_run.
  unfold query_azure_cost_explorer, query_usage.
  destruct (usage _ _ _ w1) as [[e|res] w2].
  { intros [= <- <- <-]. by left. }
  destruct (rows res) as [cost_rows|].
  - rewrite bind_ret_run.
    pose proof (silent_for_each scope_of (process_row start_date current) cost_rows) as Hs.
    specialize (Hs (λ result, silent_process_row scope_of _ _ _
                     (λ _ _, eq_refl) (λ _ _, eq_refl) (λ _ _, eq_refl)) w2).
    destruct (for_each _ cost_rows w2) as [[t2 r2] w3]. simpl in Hs.
    intros [= <- <- <-]. left. unfold fetched_scopes.
    erewrite omap_cons_Some by reflexivity. by rewrite Hs.
  - simpl. intros [= <- <- <-]. by left.
Qed.

Lemma fetch_subscription_scopes azure_account tenant_id sub w t w' :
  fetch_subscription azure_account tenant_id sub w = (t, Return tt, w') →
  fetched_scopes t = ["/subscriptions/" +:+ SubscriptionId sub].
Proof.
  unfold fetch_subscription. rewrite bind_emit_run, bind_run.
  destruct (init_azure_client_cases tenant_id (SubscriptionId sub) w)
    as [[e ->]|(subs & credentials & _ & _ & _ & ->)]; [done|].
  simpl. unfold try_except_HttpResponseError.
  destruct (query_and_expose _ _ _ w) as [[tq rq] wq] eqn:Hq.
  apply query_and_expose_scopes in Hq as [Hq|[-> ->]]; [|done].
  destruct rq as [[]|e].
  - intros [= <- <-]. unfold fetched_scopes in *.
    by rewrite omap_cons_None.
  - destruct e; try done. unfold emit. intros [= <- <-].
    unfold fetched_scopes in *.
    rewrite omap_cons_None by reflexivity. by rewrite omap_app, Hq.
Qed.

Lemma for_each_fetch_subscription_scopes azure_account tenant_id subs w t w' :
  for_each (fetch_subscription azure_account tenant_id) subs w = (t, Return tt, w') →
  fetched_scopes t = map (λ sub, "/subscriptions/" +:+ SubscriptionId sub) subs.
Proof.
  revert w t. induction subs as [|sub subs IH]; intros w t.
  - by intros [= <- <-].
  - rewrite for_each_cons.
    destruct (fetch_subscription _ _ sub w) as [[t1 [[]|e]] w1] eqn:Hsub; [|done].
    apply fetch_subscription_scopes in Hsub.
    destruct (for_each _ subs w1) as [[t2 r2] w2] eqn:Hrest.
    intros [= <- -> <-]. apply IH in Hrest.
    unfold fetched_scopes in *. by rewrite omap_app, Hsub, Hrest.
Qed.

Lemma tenant_pass_scopes azure_account tenant_id subs w t w' :
  secrets !! tenant_id = Some subs →
  tenant_pass azure_account tenant_id w = (t, Return tt, w') →
  fetched_scopes t = map (λ sub, "/subscriptions/" +:+ SubscriptionId sub) subs.
Proof.
  intros Hs. unfold tenant_pass. rewrite bind_emit_run, Hs, bind_ret_run.
  destruct (for_each _ subs w) as [[t1 r1] w1] eqn:Hsubs.
  intros [= <- -> <-]. by apply for_each_fetch_subscription_scopes in Hsubs.
Qed.

(** *** One pass per tenant *)

Lemma first_of_tenant_sublist before l : first_of_tenant before l `sublist_of` l.
Proof.
  revert before. induction l as [|a l IH]; intros before; simpl; [done|].
  destruct (decide _); [apply sublist_cons|apply sublist_skip]; apply IH.
Qed.

Lemma first_of_tenant_NoDup before l :
  NoDup (omap (λ a, a !! "TenantId") (first_of_tenant before l)) ∧
  ∀ t, t ∈ omap (λ a, a !! "TenantId") (first_of_tenant before l) →
       ¬ Exists (λ b : gmap string string, b !! "TenantId" = Some t) before.
Proof.
  revert before. induction l as [|a l IH]; intros before; simpl.
  { split; [constructor|]. by intros t ?%elem_of_nil. }
  destruct (IH (before ++ [a])) as [Hnd Hnew].
  assert (∀ t, t ∈ omap (λ a, a !! "TenantId") (first_of_tenant (before ++ [a]) l) →
               ¬ Exists (λ b : gmap string string, b !! "TenantId" = Some t) before)
    as Hnew'.
  { intros t Ht Hex. apply (Hnew t Ht). apply Exists_app. by left. }
  destruct (decide _) as [Hex|Hex]; [done|].
  destruct (a !! "TenantId") as [t0|] eqn:Ha.
  - erewrite omap_cons_Some by exact Ha. split.
    + constructor; [|done]. intros Hin. apply (Hnew t0 Hin).
      apply Exists_app. right. by constructor.
    + intros t [->|Ht]%elem_of_cons; [done|by apply Hnew'].
  - by rewrite omap_cons_None.
Qed.

Lemma first_of_tenant_keeps_first before pre a post :
  Forall (λ b : gmap string string, b !! "TenantId" ≠ a !! "TenantId") (before ++ pre) →
  a ∈ first_of_tenant before (pre ++ a :: post).
Proof.
  revert before. induction pre as [|b pre IH]; intros before Hall; simpl.
  - rewrite app_nil_r in Hall. rewrite decide_False; [left|].
    intros Hex. apply Exists_exists in Hex as (b & Hb & Heq).
    by apply (proj1 (Forall_forall _ _) Hall b Hb).
  - assert (a ∈ first_of_tenant (before ++ [b]) (pre ++ a :: post)) as Hin.
    { apply IH. by rewrite <- app_assoc. }
    destruct (decide _); [done|by right].
Qed.

Lemma fetch_loop_first_of_tenant before l processed_tenants w :
  Forall (λ b : gmap string string, is_Some (b !! "TenantId")) before →
  (∀ t, t ∈ processed_tenants ↔
        Exists (λ b : gmap string string, b !! "TenantId" = Some t) before) →
  fetch_loop l processed_tenants w =
  for_each (λ a, match a !! "TenantId" with
                 | Some t => tenant_pass a t
                 | None => raise (KeyError "TenantId")
                 end)
           (first_of_tenant before l) w.
Proof.
  revert before processed_tenants w.
  induction l as [|a l IH]; intros before processed w Hsome Hproc; [done|].
  simpl fetch_loop. simpl first_of_tenant.
  destruct (a !! "TenantId") as [t|] eqn:Ha.
  - rewrite bind_ret_run.
    destruct (decide (t ∈ processed)) as [Hin|Hnew].
    + rewrite bool_decide_eq_true_2 by done.
      rewrite decide_True by by apply Hproc.
      apply IH.
      * apply Forall_app. split; [done|]. constructor; [by rewrite Ha|constructor].
      * intros t'. rewrite Exists_app, <- Hproc. split; [by left|].
        intros [?|Hex]; [done|].
        apply Exists_cons in Hex as [Hex|Hex]; [|by apply Exists_nil in Hex].
        by replace t' with t by congruence.
    + rewrite bool_decide_eq_false_2 by done.
      rewrite decide_False by (by rewrite <- Hproc).
      rewrite for_each_cons, Ha, bind_run.
      destruct (tenant_pass a t w) as [[t1 [[]|e]] w1]; [|done].
      rewrite (IH (before ++ [a]) ({[t]} ∪ processed) w1); [done| |].
      * apply Forall_app. split; [done|]. constructor; [by rewrite Ha|constructor].
      * intros t'. rewrite Exists_app, elem_of_union, elem_of_singleton, <- Hproc.
        split.
        -- intros [->|?]; [right; by constructor|by left].
        -- intros [?|Hex]; [by right|left].
           apply Exists_cons in Hex as [Hex|Hex]; [|by apply Exists_nil in Hex].
           congruence.
  - rewrite decide_False.
    + by rewrite for_each_cons, Ha.
    + intros Hex. apply Exists_exists in Hex as (b & Hb & Heq).
      destruct (proj1 (Forall_forall _ _) Hsome b Hb) as [t Ht]. congruence.
Qed.

Lemma for_each_pass_passes l w :
  let pass := λ a : gmap string string,
    match a !! "TenantId" with
    | Some t => tenant_pass a t
    | None => raise (KeyError "TenantId")
    end in
  tenant_passes (for_each pass l w).1.1 `prefix_of` omap (λ a, a !! "TenantId") l ∧
  ((for_each pass l w).1.2 = Return tt →
   tenant_passes (for_each pass l w).1.1 = omap (λ a, a !! "TenantId") l).
Proof.
  intros pass. revert w. induction l as [|a l IH]; intros w.
  { split; [done|done]. }
  rewrite for_each_cons. unfold pass at 1 3 5.
  destruct (a !! "TenantId") as [t|] eqn:Ha.
  - erewrite omap_cons_Some by exact Ha.
    pose proof (tenant_pass_passes a t w) as Hp.
    destruct (tenant_pass a t w) as [[t1 [[]|e]] w1]; simpl in Hp.
    + destruct (IH w1) as [Hpre Hall].
      destruct (for_each pass l w1) as [[t2 r2] w2]. simpl in *.
      unfold tenant_passes in *. rewrite omap_app, Hp. simpl. split.
      * by apply prefix_cons.
      * intros Hr. by rewrite Hall.
    + simpl. rewrite Hp. split; [|done]. apply prefix_cons, prefix_nil.
  - simpl. split; [apply prefix_nil|done].
Qed.

(** C7.  A fetch cycle is one pass per tenant, made from the first target
    with that [TenantId] in declaration order: later targets of the tenant
    are skipped, no tenant's pass starts twice, and a cycle that completes
    has made the pass of every tenant once.  A pass that completes has
    queried every subscription of the tenant's credential set, in order. *)
Theorem one_pass_per_tenant w :
  let pass := λ a : gmap string string,
    match a !! "TenantId" with
    | Some t => tenant_pass a t
    | None => raise (KeyError "TenantId")
    end in
  fetch w = for_each pass (first_accounts targets) w
  ∧ first_accounts targets `sublist_of` targets
  ∧ NoDup (omap (λ a, a !! "TenantId") (first_accounts targets))
  ∧ (∀ pre a post,
       targets = pre ++ a :: post →
       Forall (λ b : gmap string string, b !! "TenantId" ≠ a !! "TenantId") pre →
       a ∈ first_accounts targets)
  ∧ NoDup (tenant_passes (fetch w).1.1)
  ∧ ((fetch w).1.2 = Return tt →
     tenant_passes (fetch w).1.1 = omap (λ a, a !! "TenantId") (first_accounts targets))
  ∧ (∀ a tenant_id subs w0 t w',
       secrets !! tenant_id = Some subs →
       tenant_pass a tenant_id w0 = (t, Return tt, w') →
       tenant_passes t = [tenant_id] ∧
       fetched_scopes t = map (λ sub, "/subscriptions/" +:+ SubscriptionId sub) subs).
Proof.
  intros pass.
  assert (fetch w = for_each pass (first_accounts targets) w) as Hfetch.
  { unfold fetch, first_accounts. apply fetch_loop_first_of_tenant; [constructor|].
    intros t. split; [by intros ?%elem_of_empty|by intros ?%Exists_nil]. }
  destruct (first_of_tenant_NoDup [] targets) as [Hnd _].
  destruct (for_each_pass_passes (first_accounts targets) w) as [Hpre Hall].
  fold pass in Hpre, Hall. rewrite <- Hfetch in Hpre, Hall.
  split; [exact Hfetch|]. split; [apply first_of_tenant_sublist|].
  split; [exact Hnd|]. split.
  { intros pre a post -> Hfirst. by apply first_of_tenant_keeps_first. }
  split.
  { destruct Hpre as [k Hk]. unfold first_accounts in Hk. rewrite Hk in Hnd.
    by apply NoDup_app in Hnd as [? _]. }
  split; [exact Hall|].
  intros a tenant_id subs w0 t w' Hs Hrun. split.
  - pose proof (tenant_pass_passes a tenant_id w0) as Hp. by rewrite Hrun in Hp.
  - by apply (tenant_pass_scopes _ _ _ _ _ _ Hs Hrun).
Qed.

(** Inside a pass the subscription comes from the tenant's own credential
    list, so the lookup of its credentials finds a record. *)
Lemma init_azure_client_in_pass tenant_id subs sub w :
  secrets !! tenant_id = Some subs → sub ∈ subs →
  ∃ credentials,
    credentials ∈ subs ∧
    SubscriptionId credentials = SubscriptionId sub ∧
    List.find (λ c, bool_decide (SubscriptionId c = SubscriptionId sub)) subs
      = Some credentials ∧
    init_azure_client tenant_id (SubscriptionId sub) w =
    match credential_error tenant_id (client_id credentials)
            (client_secret credentials) with
    | None =>
        ([], Return (mk_client tenant_id (client_id credentials)
                       (client_secret credentials)), w)
    | Some e => ([], Raise e, w)
    end.
Proof.
  intros Hs Hin.
  destruct (List.find (λ c, bool_decide (SubscriptionId c = SubscriptionId sub)) subs)
    as [c|] eqn:Hf.
  - exists c. destruct (find_credentials_elem _ _ _ Hf) as [Hc Hsub].
    split; [done|]. split; [done|]. split; [done|].
    by apply (init_azure_client_found _ _ subs).
  - apply find_none_Forall in Hf.
    pose proof (proj1 (Forall_forall _ _) Hf sub Hin) as Hsub. simpl in Hsub.
    by rewrite bool_decide_eq_true_2 in Hsub.
Qed.

(** C1.  What the code does with rows that are all below the threshold: with
    grouping and merge-minor enabled, every such row (of positive cost) is
    written on its own under the tagged label set, with its own cost as the
    value.  N rows give N writes of the same label set, not one write of
    their sum: [merged_minor_cost] starts at [0] in every call of
    [expose_metrics], so nothing is carried from one row to the next.  (All
    these points have the same label names: the gauge takes them all, or it
    refuses the first and its exception ends the rows.) *)
Theorem minor_costs_are_written_per_row azure_account cost_rows w :
  enabled group_by = true →
  merge_enabled (merge_minor_cost group_by) = true →
  Forall minor_row cost_rows →
  let labels := dict_update (account_labels azure_account) tag_group_values in
  (gauge_error (dom labels) = None →
   for_each (expose_metrics azure_account) cost_rows w =
     (flat_map (λ result, [GaugeSet labels (row_cost result);
                           PrintExposingMerged labels (row_cost result)]) cost_rows,
      Return tt, w)
   ∧ gauge_sets (for_each (expose_metrics azure_account) cost_rows w).1.1 =
     map (λ result, (labels, row_cost result)) cost_rows)
  ∧ (∀ e, gauge_error (dom labels) = Some e → cost_rows ≠ [] →
       for_each (expose_metrics azure_account) cost_rows w = ([], Raise e, w))
  ∧ (∀ g, g ∈ groups group_by →
       labels !! label_name g = Some (PyStr (tag_value (merge_minor_cost group_by)))).
Proof.
  intros Hen Hm Hall labels. split; [|split].
  - intros Hg.
    assert (for_each (expose_metrics azure_account) cost_rows w =
      (flat_map (λ result, [GaugeSet labels (row_cost result);
                            PrintExposingMerged labels (row_cost result)]) cost_rows,
       Return tt, w)) as Hrun.
    { induction Hall as [|result cost_rows Hrow _ IH]; [done|].
      destruct Hrow as (r0 & cost & H0 & Hc & Hlt & Hpos & Hlen).
      assert (row_cost result = cost) as Hcost.
      { unfold row_cost. by rewrite H0, Hc. }
      rewrite for_each_cons.
      rewrite (expose_metrics_minor _ _ _ _ _ Hen Hm H0 Hc Hlt Hlen). cbv zeta.
      fold labels. rewrite Hg.
      rewrite (zero_add_pos _ Hpos), Hpos, IH. simpl flat_map. by rewrite Hcost. }
    split; [exact Hrun|].
    rewrite Hrun. cbn [fst]. clear.
    induction cost_rows as [|result cost_rows IH]; [done|].
    cbn [flat_map map app]. unfold gauge_sets in *.
    erewrite omap_cons_Some by reflexivity.
    rewrite omap_cons_None by reflexivity. by rewrite IH.
  - intros e Hg Hne. destruct Hall as [|result cost_rows Hrow _]; [done|].
    destruct Hrow as (r0 & cost & H0 & Hc & Hlt & Hpos & Hlen).
    rewrite for_each_cons.
    rewrite (expose_metrics_minor _ _ _ _ _ Hen Hm H0 Hc Hlt Hlen). cbv zeta.
    fold labels. by rewrite Hg, (zero_add_pos _ Hpos), Hpos.
  - intros g Hg. unfold labels, dict_update.
    apply lookup_union_Some_l. by apply tag_group_values_lookup.
Qed.

(** ** More properties of the exporter *)

Lemma match_environment_name_other ts subscription_id current k :
  k ≠ "EnvironmentName" →
  match_environment_name ts subscription_id current !! k = current !! k.
Proof.
  intros Hk. induction ts as [|t ts IH]; simpl; [done|].
  destruct (bool_decide _); [|done]. by rewrite lookup_insert_ne.
Qed.

(** The working copy of the account always carries the subscription at hand
    under [Subscription]; whatever target declares that subscription, every
    label besides [Subscription] and [EnvironmentName] stays the one of the
    account the tenant's pass started from. *)
Theorem working_copy_keeps_other_labels azure_account subscription_id :
  let current :=
    match_environment_name targets subscription_id
      (<["Subscription" := subscription_id]> azure_account) in
  current !! "Subscription" = Some subscription_id ∧
  (∀ k, k ≠ "Subscription" → k ≠ "EnvironmentName" →
        current !! k = azure_account !! k ∧
        account_labels current !! k = account_labels azure_account !! k).
Proof.
  intros current. subst current. split.
  - rewrite match_environment_name_other by done. apply lookup_insert_eq.
  - intros k Hs He.
    assert (match_environment_name targets subscription_id
              (<["Subscription" := subscription_id]> azure_account) !! k
            = azure_account !! k) as Hk.
    { rewrite match_environment_name_other by done. by rewrite lookup_insert_ne. }
    split; [done|]. unfold account_labels, dict_update.
    rewrite !lookup_union, !lookup_fmap, Hk. done.
Qed.

(** An answer whose rows are all of other dates than the start date (or that
    has no row at all) writes nothing: the subscription's query is the only
    event, no aggregate is written, and the subscription ends normally. *)
Theorem no_qualifying_row_writes_nothing azure_client subscription_id current w
    end_date w1 start_date cost_rows w2 :
  today w = (end_date, w1) →
  minus_one_day end_date = inr start_date →
  usage azure_client ("/subscriptions/" +:+ subscription_id)
        (cost_query group_by start_date end_date) w1
    = (inr (mk_result (Some cost_rows)), w2) →
  Forall (λ result, is_Some (result !! 1) ∧ date_qualifies start_date result = false)
         cost_rows →
  query_and_expose azure_client subscription_id current w =
  ([QueryUsage azure_client ("/subscriptions/" +:+ subscription_id)
      (cost_query group_by start_date end_date)], Return tt, w2).
Proof.
  intros Hnow Hstart Husage Hall.
  rewrite (query_and_expose_run _ _ _ _ _ _ _ _ _ Hnow Hstart Husage).
  rewrite for_each_process_row by (eapply Forall_impl; [exact Hall|]; by intros r [? _]).
  replace (List.filter (date_qualifies start_date) cost_rows) with (@nil (list pyval));
    [done|].
  clear -Hall. induction Hall as [|r rs [_ Hr] _ IH]; [done|].
  simpl. by rewrite Hr.
Qed.

Lemma zero_add_not_pos (y : float) :
  (0 <? y)%float = false → (0 <? 0 + y)%float = false.
Proof.
  rewrite !ltb_spec, add_spec. unfold SF64add.
  change (Prim2SF 0) with (S754_zero false).
  destruct (Prim2SF y) as [s|s| |s m e]; simpl; try done.
  by destruct s.
Qed.

(** With grouping and merge-minor enabled, a row below the threshold whose
    cost is not positive (zero, a credit, or not a number below it) writes
    nothing at all: neither its own point nor a merged one. *)
Theorem nonpositive_minor_row_writes_nothing azure_account result r0 cost w :
  enabled group_by = true →
  merge_enabled (merge_minor_cost group_by) = true →
  result !! 0 = Some r0 → py_float r0 = inr cost →
  float_lt cost (threshold (merge_minor_cost group_by)) = true →
  (0 <? cost)%float = false →
  length (groups group_by) + 2 ≤ length result →
  expose_metrics azure_account result w = ([], Return tt, w).
Proof.
  intros Hen Hm H0 Hc Hlt Hpos Hlen.
  rewrite (expose_metrics_minor _ _ _ _ _ Hen Hm H0 Hc Hlt Hlen). cbv zeta.
  by rewrite (zero_add_not_pos _ Hpos).
Qed.

Lemma raised_by_constructor_prefix t0 t e :
  raised_by_constructor t e → raised_by_constructor (t0 ++ t) e.
Proof.
  intros (tenant_id & subs & c & tb & Hs & Hin & Hc & ->).
  exists tenant_id, subs, c, (t0 ++ tb). by rewrite app_assoc.
Qed.

Lemma raised_in_try_prefix t0 t e w' :
  raised_in_try t e w' → raised_in_try (t0 ++ t) e w'.
Proof.
  intros (cl & id & cur & w0 & tb & tq & Hrun & -> & Hne).
  exists cl, id, cur, w0, (t0 ++ tb), tq. by rewrite app_assoc.
Qed.

Lemma for_each_fetch_subscription_abort azure_account tenant_id subs l w t e w' :
  secrets !! tenant_id = Some subs →
  (∀ sub, sub ∈ l → sub ∈ subs) →
  for_each (fetch_subscription azure_account tenant_id) l w = (t, Raise e, w') →
  raised_by_constructor t e ∨ raised_in_try t e w'.
Proof.
  intros Hs. revert w t. induction l as [|sub l IH]; intros w t Hl; [done|].
  rewrite for_each_cons.
  destruct (init_azure_client_in_pass tenant_id subs sub w Hs)
    as (c & Hcin & Hcsub & Hfind & Hinit).
  { apply Hl. left. }
  destruct (credential_error tenant_id (client_id c) (client_secret c)) as [e0|] eqn:Hce.
  { rewrite (fetch_subscription_no_client _ _ _ _ _ Hinit).
    intros [= <- <- <-]. left. exists tenant_id, subs, c, []. by rewrite Hcsub. }
  rewrite (fetch_subscription_run _ _ _ _ _ w Hs Hfind Hce). cbv zeta.
  destruct (query_and_expose _ _ _ w) as [[tq [[]|eq]] wq] eqn:Hq.
  - destruct (for_each _ l wq) as [[t2 r2] w2] eqn:Hrest.
    intros [= <- -> <-].
    destruct (IH wq t2) as [Hc|Hq']; [intros s ?; apply Hl; by right|done| |].
    + left. by apply (raised_by_constructor_prefix (_ :: _)).
    + right. by apply (raised_in_try_prefix (_ :: _)).
  - destruct eq;
      try (intros [= <- <- <-]; right;
           eexists _, _, _, w, [PrintProcessing _], tq;
           split; [exact Hq|split; [done|done]]).
    destruct (for_each _ l wq) as [[t2 r2] w2] eqn:Hrest.
    intros [= <- -> <-].
    destruct (IH wq t2) as [Hc|Hq']; [intros s ?; apply Hl; by right|done| |].
    + left. by apply (raised_by_constructor_prefix (_ :: _)).
    + right. by apply (raised_in_try_prefix (_ :: _)).
Qed.

Lemma fetch_loop_abort ts processed_tenants w t e w' :
  Forall (λ a : gmap string string,
            ∃ tenant_id, a !! "TenantId" = Some tenant_id ∧ is_Some (secrets !! tenant_id))
         ts →
  fetch_loop ts processed_tenants w = (t, Raise e, w') →
  raised_by_constructor t e ∨ raised_in_try t e w'.
Proof.
  intros Hall. revert processed_tenants w t.
  induction Hall as [|a ts (tenant_id & Ha & [subs Hs]) _ IH]; intros processed w t; [done|].
  destruct (decide (tenant_id ∈ processed)) as [Hin|Hnew].
  - simpl. rewrite Ha, bind_ret_run, bool_decide_eq_true_2 by done. apply IH.
  - rewrite (fetch_loop_fresh _ _ _ _ _ _ Ha Hnew Hs).
    destruct (for_each _ subs w) as [[t1 [[]|e1]] w1] eqn:Hsubs.
    + destruct (fetch_loop ts _ w1) as [[t2 r2] w2] eqn:Hrest.
      intros [= <- -> <-].
      destruct (IH _ _ _ Hrest) as [Hc|Hq].
      * left. by apply (raised_by_constructor_prefix (_ :: _)).
      * right. by apply (raised_in_try_prefix (_ :: _)).
    + intros [= <- <- <-].
      destruct (for_each_fetch_subscription_abort _ _ _ _ _ _ _ _ Hs (λ _ H, H) Hsubs)
        as [Hc|Hq].
      * left. by apply (raised_by_constructor_prefix [_]).
      * right. by apply (raised_in_try_prefix [_]).
Qed.

(** The two places where a cycle can be cut short, when the lookups of the
    tenants cannot raise. *)
Lemma fetch_abort_cases w t e w' :
  Forall (λ a : gmap string string,
            ∃ tenant_id, a !! "TenantId" = Some tenant_id ∧ is_Some (secrets !! tenant_id))
         targets →
  fetch w = (t, Raise e, w') →
  (∃ tenant_id subs credentials t_before,
     secrets !! tenant_id = Some subs ∧ credentials ∈ subs ∧
     credential_error tenant_id (client_id credentials) (client_secret credentials)
       = Some e ∧
     t = t_before ++ [PrintProcessing (SubscriptionId credentials)])
  ∨
  (∃ azure_client subscription_id current w0 t_before t0,
     query_and_expose azure_client subscription_id current w0 = (t0, Raise e, w') ∧
     t = t_before ++ t0 ∧ (∀ reason, e ≠ HttpResponseError reason)).
Proof.
  intros Hall Hrun.
  destruct (fetch_loop_abort _ _ _ _ _ _ Hall Hrun)
    as [(tenant_id & subs & c & tb & Hs & Hin & Hc & ->)|Hq]; [left|by right].
  by exists tenant_id, subs, c, tb.
Qed.

(** When every target has a [TenantId] that is a key of the secrets, a cycle
    can only be cut short in two places.  One is the constructor of the
    client of a record of the secrets: [fetch] builds the client outside the
    [try], so whatever the constructor raises ends the cycle, right after
    the subscription was announced.  The other is the body of a
    subscription's [try]: the exception is one that [query_and_expose]
    raised, it is not an HTTP error, and the trace ends with that
    subscription's trace.  The lookups of the tenant and of the
    subscription's record never raise. *)
Theorem fetch_abort_origin w t e w' :
  Forall (λ a : gmap string string,
            ∃ tenant_id, a !! "TenantId" = Some tenant_id ∧ is_Some (secrets !! tenant_id))
         targets →
  fetch w = (t, Raise e, w') →
  (∃ tenant_id subs credentials t_before,
     secrets !! tenant_id = Some subs ∧ credentials ∈ subs ∧
     credential_error tenant_id (client_id credentials) (client_secret credentials)
       = Some e ∧
     t = t_before ++ [PrintProcessing (SubscriptionId credentials)])
  ∨
  (∃ azure_client subscription_id current w0 t_before t0,
     query_and_expose azure_client subscription_id current w0 = (t0, Raise e, w') ∧
     t = t_before ++ t0 ∧ (∀ reason, e ≠ HttpResponseError reason)).
Proof. apply fetch_abort_cases. Qed.

(** *** The label names of the written points *)

Lemma every_ret {A} P (a : A) : every P (ret a).
Proof. intros w. constructor. Qed.

Lemma every_raise {A} P e : every P (raise e : M A).
Proof. intros w. constructor. Qed.

Lemma every_lift {A} P (r : exn + A) : every P (lift r).
Proof. destruct r; [apply every_raise|apply every_ret]. Qed.

Lemma every_emit P ev : P ev → every P (emit ev).
Proof. intros H w. by repeat constructor. Qed.

Lemma every_bind_post {A B} P (Q : A → Prop) (m : M A) (k : A → M B) :
  every P m →
  (∀ w t a w', m w = (t, Return a, w') → Q a) →
  (∀ a, Q a → every P (k a)) →
  every P (m ≫= k).
Proof.
  intros Hm HQ Hk w. rewrite bind_run. specialize (Hm w).
  destruct (m w) as [[t1 [a|e]] w1] eqn:Hrun; simpl in *; [|done].
  specialize (Hk a (HQ _ _ _ _ Hrun) w1). destruct (k a w1) as [[t2 r] w2].
  simpl in *. by apply Forall_app.
Qed.

Lemma every_bind {A B} P (m : M A) (k : A → M B) :
  every P m → (∀ a, every P (k a)) → every P (m ≫= k).
Proof.
  intros Hm Hk. apply (every_bind_post P (λ _, True)); [done|done|]. intros a _. apply Hk.
Qed.

Lemma every_for_each {A} P (body : A → M unit) l :
  (∀ x, x ∈ l → every P (body x)) → every P (for_each body l).
Proof.
  induction l as [|x l IH]; intros Hb; simpl.
  - apply every_ret.
  - apply every_bind; [apply Hb; left|]. intros _. apply IH.
    intros y Hy. apply Hb. by right.
Qed.

Lemma every_getitem {A} P (l : list A) i : every P (getitem l i).
Proof. unfold getitem. destruct (l !! i); [apply every_ret|apply every_raise]. Qed.

Lemma every_gauge_labels_set P labels cost :
  (gauge_error (dom labels) = None → P (GaugeSet labels cost)) →
  every P (gauge_labels_set labels cost).
Proof.
  intros H. unfold gauge_labels_set.
  destruct (gauge_error (dom labels)); [apply every_raise|]. by apply every_emit, H.
Qed.

(** Every point [expose_metrics] hands to the gauge has the label names
    [point_names] of the account, and is written only if the gauge takes
    them. *)
Lemma every_expose_metrics P azure_account result :
  (∀ labels v, dom labels = point_names azure_account →
     gauge_error (point_names azure_account) = None → P (GaugeSet labels v)) →
  (∀ l v, P (PrintExposing l v)) →
  (∀ l v, P (PrintExposingMerged l v)) →
  every P (expose_metrics azure_account result).
Proof. data_only.
  intros Hg Hp Hm.
  assert (∀ labels v, dom labels = point_names azure_account →
            every P (gauge_labels_set labels v)) as Hset.
  { intros labels v Hd. apply every_gauge_labels_set. rewrite Hd. by apply Hg. }
  clear Hg. unfold point_names in Hset. unfold expose_metrics.
  apply every_bind; [apply every_getitem|]. intros r0.
  apply every_bind; [apply every_lift|]. intros cost. cbv zeta.
  destruct (enabled group_by).
  - apply (every_bind_post _ (λ gkv, dom gkv = group_label_names)).
    + intros w. by destruct (read_group_values_pure (groups group_by) 0 result ∅ w)
        as [r ->].
    + intros w t gkv w' Hrun. apply read_group_values_dom in Hrun.
      rewrite Hrun. unfold group_label_names. set_solver.
    + intros gkv Hgkv.
      apply (every_bind_post _ (λ st, dom st.1 ∪ group_label_names =
               {["ChargeType"]} ∪ dom azure_account ∪ group_label_names)).
      * destruct (_ && _); [apply every_ret|].
        apply every_bind.
        { apply Hset. unfold dict_update.
          rewrite dom_union_L, account_labels_dom, Hgkv. set_solver. }
        intros _. apply every_bind; [by apply every_emit|]. intros _. apply every_ret.
      * intros w t [labels merged] w'. destruct (_ && _).
        { intros [= _ <- _]. simpl. by rewrite account_labels_dom. }
        rewrite bind_run. unfold gauge_labels_set.
        destruct (gauge_error _); [done|]. simpl. intros [= _ <- _]. simpl.
        unfold dict_update. rewrite dom_union_L, account_labels_dom, Hgkv. set_solver.
      * intros [labels merged] Hst. simpl in Hst.
        destruct (0 <? merged)%float; [|apply every_ret].
        apply every_bind; [|intros _; by apply every_emit].
        apply Hset. unfold dict_update.
        rewrite dom_union_L, tag_group_values_dom. set_solver.
  - apply every_bind; [|intros _; by apply every_emit].
    apply Hset. rewrite account_labels_dom. set_solver.
Qed.

Lemma every_weaken {A} (P Q : event → Prop) (m : M A) :
  (∀ ev, P ev → Q ev) → every P m → every Q m.
Proof. intros HPQ Hm w. eapply Forall_impl; [apply Hm|exact HPQ]. Qed.

Lemma match_environment_name_dom ts subscription_id current :
  "EnvironmentName" ∈ dom current →
  dom (match_environment_name ts subscription_id current) = dom current.
Proof. data_only.
  intros He. induction ts as [|t ts IH]; simpl; [done|].
  destruct (bool_decide _); [|done]. rewrite dom_insert_L. set_solver.
Qed.

Lemma match_environment_name_dom_matched ts subscription_id current :
  Exists (λ t : gmap string string,
            default "" (t !! "Subscription") = subscription_id) ts →
  dom (match_environment_name ts subscription_id current)
  = {["EnvironmentName"]} ∪ dom current.
Proof. data_only.
  induction ts as [|t ts IH]; intros Hex; [by apply Exists_nil in Hex|].
  simpl. destruct (decide (default "" (t !! "Subscription") = subscription_id)) as [Ht|Ht].
  - rewrite bool_decide_eq_true_2 by done. apply dom_insert_L.
  - rewrite bool_decide_eq_false_2 by done. apply IH.
    by apply Exists_cons in Hex as [?|?].
Qed.

Lemma every_query_and_expose P azure_client subscription_id current :
  (∀ q, P (QueryUsage azure_client ("/subscriptions/" +:+ subscription_id) q)) →
  (∀ labels v, dom labels = point_names current →
     gauge_error (point_names current) = None → P (GaugeSet labels v)) →
  (∀ l v, P (PrintExposing l v)) →
  (∀ l v, P (PrintExposingMerged l v)) →
  every P (query_and_expose azure_client subscription_id current).
Proof. data_only.
  intros Hq Hg Hp Hm. unfold query_and_expose. apply every_bind.
  { intros w. unfold datetime_today. destruct (today w). constructor. }
  intros end_date. apply every_bind; [apply every_lift|]. intros start_date.
  apply every_bind.
  { intros w. unfold query_azure_cost_explorer, query_usage.
    destruct (usage _ _ _ w). by repeat constructor. }
  intros cost_response. apply every_bind.
  { destruct (rows cost_response); [apply every_ret|apply every_raise]. }
  intros cost_rows. apply every_for_each. intros result _.
  unfold process_row. apply every_bind; [apply every_getitem|]. intros d.
  destruct (negb _); [apply every_ret|by apply every_expose_metrics].
Qed.

(** The events of one subscription: its announcement, the request made with
    the client of a record of the tenant that bears the subscription, the
    points of its working copy that the gauge takes, and their lines. *)
Lemma every_fetch_subscription P azure_account tenant_id sub :
  let current :=
    match_environment_name targets (SubscriptionId sub)
      (<["Subscription" := SubscriptionId sub]> azure_account) in
  P (PrintProcessing (SubscriptionId sub)) →
  (∀ subs credentials q,
     secrets !! tenant_id = Some subs → credentials ∈ subs →
     SubscriptionId credentials = SubscriptionId sub →
     P (QueryUsage
          (mk_client tenant_id (client_id credentials) (client_secret credentials))
          ("/subscriptions/" +:+ SubscriptionId sub) q)) →
  (∀ reason, P (LogError (SubscriptionId sub) reason)) →
  (∀ labels v, dom labels = point_names current →
     gauge_error (point_names current) = None → P (GaugeSet labels v)) →
  (∀ l v, P (PrintExposing l v)) →
  (∀ l v, P (PrintExposingMerged l v)) →
  every P (fetch_subscription azure_account tenant_id sub).
Proof.
  intros current Hpp Hq Hl Hg Hp Hm. unfold fetch_subscription. fold current.
  apply every_bind; [by apply every_emit|]. intros _. intros w. rewrite bind_run.
  destruct (init_azure_client_cases tenant_id (SubscriptionId sub) w)
    as [[e ->]|(subs & c & Hs & Hf & _ & ->)]; [constructor|].
  destruct (find_credentials_elem _ _ _ Hf) as [Hin Hsub].
  pose proof (every_query_and_expose P
                (mk_client tenant_id (client_id c) (client_secret c))
                (SubscriptionId sub) current
                (λ q, Hq subs c q Hs Hin Hsub) Hg Hp Hm w) as Hrun.
  unfold try_except_HttpResponseError.
  destruct (query_and_expose _ _ _ w) as [[t [[]|e]] w1]; [done|].
  destruct e; try done. simpl in *. apply Forall_app. split; [done|].
  by repeat constructor.
Qed.

Lemma every_fetch_loop P ts processed_tenants :
  (∀ a tenant_id sub, a ∈ ts → every P (fetch_subscription a tenant_id sub)) →
  (∀ t, P (PrintQuerying t)) →
  every P (fetch_loop ts processed_tenants).
Proof.
  intros Hsub Hq. revert processed_tenants.
  induction ts as [|a ts IH]; intros processed; simpl; [apply every_ret|].
  apply every_bind.
  { destruct (a !! "TenantId"); [apply every_ret|apply every_raise]. }
  intros tenant_id.
  assert (every P (fetch_loop ts processed) ∧
          every P (fetch_loop ts ({[tenant_id]} ∪ processed))) as [H1 H2].
  { split; apply IH; intros; apply Hsub; by right. }
  destruct (bool_decide _); [done|].
  apply every_bind; [|done]. unfold tenant_pass.
  apply every_bind; [by apply every_emit|]. intros _.
  apply every_bind.
  { destruct (secrets !! tenant_id); [apply every_ret|apply every_raise]. }
  intros subs. apply every_for_each. intros sub _. apply Hsub. left.
Qed.

(** When every target has the same keys, [Subscription] and
    [EnvironmentName] among them, the points of every working copy have the
    label names that [__init__] computes. *)
Lemma working_copy_names L K azure_account subscription_id :
  exporter_labels = inr L →
  Forall (λ t : gmap string string, dom t = K) targets →
  "Subscription" ∈ K → "EnvironmentName" ∈ K →
  azure_account ∈ targets →
  point_names (match_environment_name targets subscription_id
                 (<["Subscription" := subscription_id]> azure_account)) = L.
Proof. data_only.
  intros HL HK Hs He Ha. unfold exporter_labels in HL.
  destruct targets as [|first others] eqn:Hts; [done|]. injection HL as <-.
  rewrite <- Hts in *.
  assert (dom first = K) as Hfirst.
  { rewrite Hts in HK. by apply Forall_cons in HK as [? _]. }
  assert (dom azure_account = K) as HaK by exact (proj1 (Forall_forall _ _) HK _ Ha).
  unfold point_names.
  rewrite match_environment_name_dom by (rewrite dom_insert_L; set_solver).
  rewrite dom_insert_L, HaK, Hfirst.
  destruct (enabled group_by).
  - rewrite foldl_label_names. unfold group_label_names. set_solver.
  - set_solver.
Qed.

Lemma fetch_writes_under L K w :
  exporter_labels = inr L →
  Forall (λ t : gmap string string, dom t = K) targets →
  "Subscription" ∈ K → "EnvironmentName" ∈ K →
  Forall (writes_under L) (fetch w).1.1.
Proof.
  intros HL HK Hs He. unfold fetch.
  apply every_fetch_loop; [|done].
  intros a tenant_id sub Ha. apply every_fetch_subscription; try done.
  intros labels v Hd _ l v' [= <- <-].
  by rewrite Hd, (working_copy_names L K a _ HL HK Hs He Ha).
Qed.

(** When no target has an [EnvironmentName] key (and no group is labelled
    so), the label names that [__init__] computes do not hold it, and the
    working copy of a subscription that a target declares does, under the
    value ["DefaultEnv"]. *)
Lemma default_environment_names L azure_account subscription_id :
  exporter_labels = inr L →
  Forall (λ t : gmap string string, "EnvironmentName" ∉ dom t) targets →
  (enabled group_by = true → "EnvironmentName" ∉ group_label_names) →
  Exists (λ t : gmap string string,
            default "" (t !! "Subscription") = subscription_id) targets →
  let current :=
    match_environment_name targets subscription_id
      (<["Subscription" := subscription_id]> azure_account) in
  ("EnvironmentName" ∉ L) ∧ current !! "EnvironmentName" = Some "DefaultEnv" ∧
  "EnvironmentName" ∈ point_names current.
Proof. data_only.
  intros HL Hno Hgroups Hex current.
  assert ("EnvironmentName" ∉ L) as HnotL.
  { unfold exporter_labels in HL.
    destruct targets as [|first others]; [done|]. injection HL as <-.
    apply Forall_cons in Hno as [Hfirst _].
    destruct (enabled group_by).
    - rewrite foldl_label_names. specialize (Hgroups eq_refl).
      unfold group_label_names in Hgroups. set_solver.
    - set_solver. }
  split; [done|].
  assert (current !! "EnvironmentName" = Some "DefaultEnv") as Hcur.
  { unfold current. clear HL HnotL.
    induction targets as [|t ts IH]; [by apply Exists_nil in Hex|].
    apply Forall_cons in Hno as [Ht Hts]. simpl.
    destruct (decide (default "" (t !! "Subscription") = subscription_id)) as [Hd|Hd].
    - rewrite bool_decide_eq_true_2 by done. apply not_elem_of_dom in Ht.
      rewrite Ht. apply lookup_insert_eq.
    - rewrite bool_decide_eq_false_2 by done. apply IH; [done|].
      by apply Exists_cons in Hex as [?|?]. }
  split; [done|]. unfold point_names.
  assert ("EnvironmentName" ∈ dom current) by (apply elem_of_dom; by eexists).
  set_solver.
Qed.

(** *** Credential resolution in a cycle *)

(** C6.  [init_azure_client] looks up the first record of the tenant whose
    [SubscriptionId] is the subscription's and builds the client from it.
    It raises [KeyError] when the tenant is absent from the secrets,
    [ValueError] ("... not found") when no record of the tenant matches, and
    otherwise only what the constructor raises on the record found.  The
    fetch cycle calls it outside the [try]: its exception ends the
    subscription, the tenant's pass and the cycle.  Inside a cycle the
    subscription is drawn from the tenant's own records, so there the lookup
    finds a record and only the constructor can fail; a tenant absent from
    the secrets ends the cycle with the [KeyError] of the pass's own lookup;
    and every request of a cycle is made for a record of the secrets, with
    the client of that record: a subscription that only a target names is
    not queried, and no error is raised for it. *)
Theorem credential_resolution tenant_id subscription_id w :
  (∀ pre credentials post,
     secrets !! tenant_id = Some (pre ++ credentials :: post) →
     Forall (λ c, SubscriptionId c ≠ subscription_id) pre →
     SubscriptionId credentials = subscription_id →
     init_azure_client tenant_id subscription_id w =
     match credential_error tenant_id (client_id credentials)
             (client_secret credentials) with
     | None =>
         ([], Return (mk_client tenant_id (client_id credentials)
                        (client_secret credentials)), w)
     | Some e => ([], Raise e, w)
     end)
  ∧ (secrets !! tenant_id = None →
     init_azure_client tenant_id subscription_id w = ([], Raise (KeyError tenant_id), w))
  ∧ (∀ subs, secrets !! tenant_id = Some subs →
       Forall (λ c, SubscriptionId c ≠ subscription_id) subs →
       init_azure_client tenant_id subscription_id w =
       ([], Raise (ValueError ("Credentials for subscription " +:+ subscription_id
                                +:+ " not found")), w))
  ∧ ((∃ e, init_azure_client tenant_id subscription_id w = ([], Raise e, w)) ↔
     (secrets !! tenant_id = None ∨
      (∃ subs, secrets !! tenant_id = Some subs ∧
               Forall (λ c, SubscriptionId c ≠ subscription_id) subs) ∨
      (∃ subs credentials e,
         secrets !! tenant_id = Some subs ∧
         List.find (λ c, bool_decide (SubscriptionId c = subscription_id)) subs
           = Some credentials ∧
         credential_error tenant_id (client_id credentials)
           (client_secret credentials) = Some e)))
  ∧ (∀ azure_account sub subs' e,
       SubscriptionId sub = subscription_id →
       init_azure_client tenant_id subscription_id w = ([], Raise e, w) →
       for_each (fetch_subscription azure_account tenant_id) (sub :: subs') w =
       ([PrintProcessing subscription_id], Raise e, w))
  ∧ (∀ subs sub e,
       secrets !! tenant_id = Some subs → sub ∈ subs →
       SubscriptionId sub = subscription_id →
       init_azure_client tenant_id subscription_id w = ([], Raise e, w) →
       ∃ credentials,
         credentials ∈ subs ∧ SubscriptionId credentials = subscription_id ∧
         credential_error tenant_id (client_id credentials)
           (client_secret credentials) = Some e)
  ∧ (∀ azure_account ts processed_tenants,
       azure_account !! "TenantId" = Some tenant_id →
       tenant_id ∉ processed_tenants →
       secrets !! tenant_id = None →
       fetch_loop (azure_account :: ts) processed_tenants w =
       ([PrintQuerying tenant_id], Raise (KeyError tenant_id), w))
  ∧ Forall (λ ev, ∀ c scope q, ev = QueryUsage c scope q →
              ∃ tenant subs credentials,
                secrets !! tenant = Some subs ∧ credentials ∈ subs ∧
                scope = "/subscriptions/" +:+ SubscriptionId credentials ∧
                c = mk_client tenant (client_id credentials)
                      (client_secret credentials))
           (fetch w).1.1.
Proof.
  assert (∀ subs, Forall (λ c, SubscriptionId c ≠ subscription_id) subs ↔
            List.find (λ sub, bool_decide (SubscriptionId sub = subscription_id)) subs
              = None) as Hfind.
  { intros subs. rewrite find_none_Forall. apply Forall_proper; [|done].
    intros c. by rewrite bool_decide_eq_false. }
  split; [|split; [|split; [|split; [|split; [|split; [|split]]]]]].
  - intros pre c post Hs Hpre Hc.
    apply (init_azure_client_found _ _ _ _ _ Hs).
    apply find_first_match; [|by apply bool_decide_eq_true_2].
    eapply Forall_impl; [exact Hpre|]. intros c' Hc'. by apply bool_decide_eq_false_2.
  - intros Hs. unfold init_azure_client. by rewrite Hs.
  - intros subs Hs Hall. unfold init_azure_client. apply Hfind in Hall.
    by rewrite Hs, Hall.
  - unfold init_azure_client. destruct (secrets !! tenant_id) as [subs|] eqn:Hs.
    + destruct (List.find _ subs) as [c|] eqn:Hf.
      * destruct (credential_error _ _ _) as [e0|] eqn:Hc.
        -- split; [|by eexists]. intros _. right. right. by exists subs, c, e0.
        -- split; [by intros [e [=]]|].
           intros [[=]|[(subs' & [= <-] & Hall)|(subs' & c' & e & [= <-] & Hf' & Hc')]].
           ++ apply Hfind in Hall. congruence.
           ++ congruence.
      * split; [|by eexists]. intros _. right. left. exists subs. split; [done|].
        by apply Hfind.
    + split; [by left|by eexists].
  - intros azure_account sub subs' e <- Hinit.
    rewrite for_each_cons.
    by rewrite (fetch_subscription_no_client _ _ _ _ _ Hinit).
  - intros subs sub e Hs Hin <- Hinit.
    destruct (init_azure_client_in_pass tenant_id subs sub w Hs Hin)
      as (c & Hcin & Hcsub & _ & Hrun).
    rewrite Hinit in Hrun. exists c. split; [done|]. split; [done|].
    destruct (credential_error _ _ _); [|done]. by injection Hrun as ->.
  - intros azure_account ts processed Ht Hnew Hs. simpl.
    rewrite Ht, bind_ret_run, bool_decide_eq_false_2 by done.
    rewrite bind_run. unfold tenant_pass. rewrite bind_emit_run, Hs.
    reflexivity.
  - unfold fetch. apply every_fetch_loop; [|done].
    intros a tenant sub _. apply every_fetch_subscription; try done.
    intros subs c q Hs Hin Hsub c' scope q' [= <- <- <-].
    exists tenant, subs, c. by rewrite Hsub.
Qed.

(** *** The polling loop *)

Lemma fetch_passes w :
  (fetch w).1.2 = Return tt →
  tenant_passes (fetch w).1.1 = omap (λ a, a !! "TenantId") (first_accounts targets).
Proof.
  unfold fetch, first_accounts.
  rewrite (fetch_loop_first_of_tenant [] targets ∅ w); [|constructor|].
  - apply for_each_pass_passes.
  - intros t. split; [by intros ?%elem_of_empty|by intros ?%Exists_nil].
Qed.

(** The set of processed tenants does not outlive a cycle: in [n] turns of
    the polling loop that all complete, every turn makes the pass of every
    tenant again, in the same order. *)
Theorem every_cycle_visits_every_tenant sleep n w :
  (run_metrics_loop sleep n w).1.2 = Return tt →
  tenant_passes (run_metrics_loop sleep n w).1.1 =
  concat (replicate n (omap (λ a, a !! "TenantId") (first_accounts targets))).
Proof.
  revert w. induction n as [|n IH]; intros w; [done|].
  simpl run_metrics_loop. rewrite bind_run.
  pose proof (fetch_passes w) as Hf.
  destruct (fetch w) as [[t1 [[]|e]] w1]; [|done]. simpl in Hf.
  rewrite bind_run. unfold time_sleep.
  destruct (sleep w1) as [[e|[]] w2]; [done|].
  specialize (IH w2). destruct (run_metrics_loop sleep n w2) as [[t3 r3] w3].
  simpl in *. intros Hr. unfold tenant_passes in *.
  by rewrite omap_app, Hf, IH.
Qed.

(** Nothing in the polling loop catches an exception: when a cycle is cut
    short after [k] completed turns, the loop ends with that exception, and
    the trace is the one of the completed turns followed by the one of the
    cycle that failed. *)
Theorem failed_cycle_ends_the_loop sleep k n w t w1 t_fail e w' :
  run_metrics_loop sleep k w = (t, Return tt, w1) →
  fetch w1 = (t_fail, Raise e, w') →
  run_metrics_loop sleep (k + S n) w = (t ++ t_fail, Raise e, w').
Proof.
  revert w t. induction k as [|k IH]; intros w t.
  - intros [= <- <-] Hfail. simpl. by rewrite (bind_raise _ _ _ _ _ _ Hfail).
  - simpl run_metrics_loop. rewrite !bind_run.
    destruct (fetch w) as [[t1 [[]|e1]] wa]; [|done].
    rewrite !bind_run. unfold time_sleep.
    destruct (sleep wa) as [[e2|[]] wb]; [done|].
    destruct (run_metrics_loop sleep k wb) as [[t3 r3] wc] eqn:Hk.
    intros [= <- -> <-] Hfail.
    rewrite (IH wb t3 Hk Hfail). simpl. by rewrite !app_assoc.
Qed.

(** With grouping enabled and merge-minor disabled the threshold is never
    looked at: every row that has its group columns is handed to the gauge
    once, on its own, under its own group values, however small its cost;
    the point is written when the gauge takes the label names, and the
    gauge's exception ends the row otherwise. *)
Theorem merge_disabled_ignores_threshold azure_account result r0 cost w :
  enabled group_by = true →
  merge_enabled (merge_minor_cost group_by) = false →
  result !! 0 = Some r0 → py_float r0 = inr cost →
  length (groups group_by) + 2 ≤ length result →
  ∃ labels,
    dom labels = point_names azure_account ∧
    (gauge_error (point_names azure_account) = None →
     expose_metrics azure_account result w =
       ([GaugeSet labels cost; PrintExposing labels cost], Return tt, w)) ∧
    (∀ e, gauge_error (point_names azure_account) = Some e →
     expose_metrics azure_account result w = ([], Raise e, w)) ∧
    (∀ i g, groups group_by !! i = Some g →
       (∀ j g', i < j → groups group_by !! j = Some g' →
                label_name g' ≠ label_name g) →
       labels !! label_name g = result !! (i + 2)) ∧
    (∀ k, (∀ g, g ∈ groups group_by → label_name g ≠ k) →
       labels !! k = account_labels azure_account !! k).
Proof.
  intros Hen Hm H0 Hc Hlen.
  destruct (read_group_values_run (groups group_by) 0 result ∅ w)
    as (gkv & Hrun & Hout & Hin); [simpl; lia|].
  assert (merge_enabled (merge_minor_cost group_by)
            && float_lt cost (threshold (merge_minor_cost group_by)) = false)
    as Hind by (by rewrite Hm).
  pose proof (expose_metrics_individual azure_account _ _ _ _ w Hen Hind H0 Hc Hrun)
    as Hexp. cbv zeta in Hexp.
  rewrite (individual_point_names _ _ _ _ Hen Hrun) in Hexp.
  exists (dict_update (account_labels azure_account) gkv).
  split; [by apply (individual_point_names _ result _ w)|].
  split; [|split; [|split]].
  - intros Hg. by rewrite Hexp, Hg.
  - intros e Hg. by rewrite Hexp, Hg.
  - intros i g Hi Hlater. unfold dict_update.
    pose proof (Hin i g Hi Hlater) as Hg. simpl in Hg.
    destruct (lookup_lt_is_Some_2 result (i + 2)) as [v Hv].
    { apply lookup_lt_Some in Hi. lia. }
    rewrite Hv in *. by apply lookup_union_Some_l.
  - intros k Hk. unfold dict_update. apply lookup_union_r.
    by rewrite (Hout k Hk).
Qed.

End Exporter.


(** ** The gauge of [prometheus_client] *)

Section Gauges.

Context {World : Type}.
Variable today : World → datetime * World.
Variable usage :
  CostManagementClient → string → QueryDefinition → World →
  (exn + QueryResult) * World.
Variable str_to_float : string → option float.
Variable group_by : group_by_config.
Variable targets : list (gmap string string).
Variable secrets : gmap string (list credential).
Variable credential_error : string → string → string → option exn.

(** Two gauges that answer alike on the label names of an account's points
    are not told apart by a row of that account. *)
Lemma expose_metrics_gauge (g g' : gset string → option exn) azure_account result
    (w : World) :
  g (point_names group_by azure_account) = g' (point_names group_by azure_account) →
  expose_metrics str_to_float group_by g azure_account result w =
  expose_metrics str_to_float group_by g' azure_account result w.
Proof.
  intros Hg. unfold point_names in Hg.
  destruct (expose_metrics_no_cost str_to_float group_by g azure_account result w)
    as (Hnone & Hconv & Hcol).
  destruct (expose_metrics_no_cost str_to_float group_by g' azure_account result w)
    as (Hnone' & Hconv' & Hcol').
  destruct (result !! 0) as [r0|] eqn:H0; [|by rewrite Hnone, Hnone'].
  destruct (py_float str_to_float r0) as [e|cost] eqn:Hc.
  { by rewrite (Hconv r0 e), (Hconv' r0 e). }
  destruct (enabled group_by) eqn:Hen; rewrite ?Hen in Hg.
  - destruct (read_group_values_pure (groups group_by) 0 result ∅ w) as [[gkv|e] Hrun].
    + destruct (merge_enabled (merge_minor_cost group_by)
                  && float_lt cost (threshold (merge_minor_cost group_by))) eqn:Hm.
      * rewrite !(expose_metrics_merged _ _ _ _ _ r0 cost gkv w Hen Hm H0 Hc Hrun).
        cbv zeta.
        assert (dom (dict_update (account_labels azure_account)
                       (tag_group_values group_by))
                = {["ChargeType"]} ∪ dom azure_account ∪ group_label_names group_by)
          as ->.
        { unfold dict_update.
          rewrite dom_union_L, tag_group_values_dom, account_labels_dom. set_solver. }
        by rewrite Hg.
      * rewrite !(expose_metrics_individual _ _ _ _ _ r0 cost gkv w Hen Hm H0 Hc Hrun).
        cbv zeta.
        assert (dom (dict_update (account_labels azure_account) gkv)
                = {["ChargeType"]} ∪ dom azure_account ∪ group_label_names group_by)
          as ->.
        { unfold dict_update.
          rewrite dom_union_L, account_labels_dom,
            (read_group_values_dom _ _ _ _ _ _ _ _ Hrun).
          unfold group_label_names. set_solver. }
        by rewrite Hg.
    + by rewrite (Hcol r0 cost e), (Hcol' r0 cost e).
  - rewrite !(expose_metrics_ungrouped _ _ _ _ _ r0 cost w Hen H0 Hc). cbv zeta.
    assert (dom (account_labels azure_account)
            = {["ChargeType"]} ∪ dom azure_account ∪ ∅) as ->.
    { rewrite account_labels_dom. set_solver. }
    by rewrite Hg.
Qed.

Lemma process_row_gauge (g g' : gset string → option exn) start_date azure_account
    result (w : World) :
  g (point_names group_by azure_account) = g' (point_names group_by azure_account) →
  process_row str_to_float group_by g start_date azure_account result w =
  process_row str_to_float group_by g' start_date azure_account result w.
Proof.
  intros Hg. unfold process_row. apply bind_ext; [done|]. intros d w'.
  destruct (negb _); [done|]. by apply expose_metrics_gauge.
Qed.

Lemma query_and_expose_gauge (g g' : gset string → option exn) azure_client
    subscription_id current (w : World) :
  g (point_names group_by current) = g' (point_names group_by current) →
  query_and_expose today usage str_to_float group_by g azure_client subscription_id
    current w =
  query_and_expose today usage str_to_float group_by g' azure_client subscription_id
    current w.
Proof.
  intros Hg. unfold query_and_expose.
  apply bind_ext; [done|]. intros end_date w1.
  apply bind_ext; [done|]. intros start_date w2.
  apply bind_ext; [done|]. intros cost_response w3.
  apply bind_ext; [done|]. intros cost_rows w4.
  apply for_each_ext. intros result w5 _. by apply process_row_gauge.
Qed.

Lemma fetch_subscription_gauge (g g' : gset string → option exn) azure_account
    tenant_id sub (w : World) :
  (let current :=
     match_environment_name targets (SubscriptionId sub)
       (<["Subscription" := SubscriptionId sub]> azure_account) in
   g (point_names group_by current) = g' (point_names group_by current)) →
  fetch_subscription today usage str_to_float group_by targets secrets
    credential_error g azure_account tenant_id sub w =
  fetch_subscription today usage str_to_float group_by targets secrets
    credential_error g' azure_account tenant_id sub w.
Proof.
  intros Hg. unfold fetch_subscription.
  apply bind_ext; [done|]. intros _ w1.
  apply bind_ext; [done|]. intros azure_client w2.
  apply try_except_ext. by apply query_and_expose_gauge.
Qed.

(** Two gauges that answer alike on the label names of every working copy
    of a cycle are not told apart by the cycle. *)
Lemma fetch_loop_gauge (g g' : gset string → option exn) ts processed_tenants
    (w : World) :
  (∀ azure_account subscription_id, azure_account ∈ ts →
     let current :=
       match_environment_name targets subscription_id
         (<["Subscription" := subscription_id]> azure_account) in
     g (point_names group_by current) = g' (point_names group_by current)) →
  fetch_loop today usage str_to_float group_by targets secrets credential_error g
    ts processed_tenants w =
  fetch_loop today usage str_to_float group_by targets secrets credential_error g'
    ts processed_tenants w.
Proof.
  revert processed_tenants w.
  induction ts as [|a ts IH]; intros processed w Hg; [done|]. simpl.
  apply bind_ext; [done|]. intros tenant_id w1.
  assert (∀ p w', fetch_loop today usage str_to_float group_by targets secrets
                    credential_error g ts p w' =
                  fetch_loop today usage str_to_float group_by targets secrets
                    credential_error g' ts p w') as Hrest.
  { intros p w'. apply IH. intros b s Hb. apply Hg. by right. }
  destruct (bool_decide _); [apply Hrest|].
  apply bind_ext; [|intros _ w2; apply Hrest].
  unfold tenant_pass. apply bind_ext; [done|]. intros _ w2.
  apply bind_ext; [done|]. intros subs w3.
  apply for_each_ext. intros sub w4 _. apply fetch_subscription_gauge.
  apply Hg. left.
Qed.

Lemma gauge_sets_nil (t : list event) :
  Forall (λ ev, ∀ labels v, ev ≠ GaugeSet labels v) t → gauge_sets t = [].
Proof.
  induction 1 as [|ev t Hev _ IH]; [done|]. unfold gauge_sets in *.
  rewrite omap_cons_None; [done|]. destruct ev; try done. by destruct (Hev labels v).
Qed.

(** When every target has the same keys, [Subscription] and
    [EnvironmentName] among them, the gauge that [__init__] creates takes
    every point of a cycle: the cycle runs as it would against a gauge that
    refuses nothing, and every point it writes carries exactly the label
    names the gauge was created with. *)
Theorem written_points_follow_the_gauge_schema L K (w : World) :
  exporter_labels group_by targets = inr L →
  Forall (λ t : gmap string string, dom t = K) targets →
  "Subscription" ∈ K → "EnvironmentName" ∈ K →
  fetch today usage str_to_float group_by targets secrets credential_error
    (prometheus_gauge L) w
  = fetch today usage str_to_float group_by targets secrets credential_error
      (λ _, None) w
  ∧ Forall (writes_under L)
      (fetch today usage str_to_float group_by targets secrets credential_error
         (prometheus_gauge L) w).1.1.
Proof.
  intros HL HK Hs He. split.
  - unfold fetch. apply fetch_loop_gauge. intros a sid Ha current.
    unfold current. rewrite (working_copy_names _ _ L K a sid HL HK Hs He Ha).
    unfold prometheus_gauge. by rewrite bool_decide_eq_true_2.
  - by apply (fetch_writes_under _ _ _ _ _ _ _ _ L K).
Qed.

(** When no target has an [EnvironmentName] key (and no group is labelled
    so), the gauge that [__init__] creates has no such label name, while the
    working copy of a subscription that a target declares has it, set to
    ["DefaultEnv"].  The gauge then refuses every point of that
    subscription: none is written, and a row that reaches the gauge raises
    [ValueError] instead (a row of positive cost always does; with grouping
    disabled, every row whose cost converts). *)
Theorem default_environment_is_refused L azure_account tenant_id sub :
  exporter_labels group_by targets = inr L →
  Forall (λ t : gmap string string, "EnvironmentName" ∉ dom t) targets →
  (enabled group_by = true → "EnvironmentName" ∉ group_label_names group_by) →
  Exists (λ t : gmap string string,
            default "" (t !! "Subscription") = SubscriptionId sub) targets →
  let current :=
    match_environment_name targets (SubscriptionId sub)
      (<["Subscription" := SubscriptionId sub]> azure_account) in
  ("EnvironmentName" ∉ L)
  ∧ current !! "EnvironmentName" = Some "DefaultEnv"
  ∧ (∀ w : World,
       gauge_sets
         (fetch_subscription today usage str_to_float group_by targets secrets
            credential_error (prometheus_gauge L) azure_account tenant_id sub w).1.1
       = [])
  ∧ (∀ result r0 cost (w : World),
       result !! 0 = Some r0 → py_float str_to_float r0 = inr cost →
       (enabled group_by = true →
        length (groups group_by) + 2 ≤ length result ∧ (0 <? cost)%float = true) →
       expose_metrics str_to_float group_by (prometheus_gauge L) current result w
       = ([], Raise (ValueError "Incorrect label names"), w)).
Proof.
  intros HL Hno Hgroups Hex current.
  destruct (default_environment_names _ _ L azure_account _ HL Hno Hgroups Hex)
    as (HnotL & Hcur & Hin). fold current in Hcur, Hin.
  assert (∀ names : gset string,
            "EnvironmentName" ∈ names →
            prometheus_gauge L names = Some (ValueError "Incorrect label names"))
    as Hrefuse.
  { intros names Hnames. unfold prometheus_gauge.
    rewrite bool_decide_eq_false_2; [done|]. intros ->. done. }
  split; [done|]. split; [done|]. split.
  - intros w. apply gauge_sets_nil.
    apply every_fetch_subscription; try done.
    intros labels v _ Hg. fold current in Hg. by rewrite Hrefuse in Hg.
  - intros result r0 cost w H0 Hc Hrow.
    assert ("EnvironmentName" ∈ dom (account_labels current)) as Hacc.
    { rewrite account_labels_dom. apply elem_of_union_r, elem_of_dom. by eexists. }
    destruct (enabled group_by) eqn:Hen.
    + destruct (Hrow eq_refl) as [Hlen Hpos].
      destruct (read_group_values_run (World := World) (groups group_by) 0 result ∅ w)
        as (gkv & Hrun & _); [simpl; lia|].
      destruct (merge_enabled (merge_minor_cost group_by)
                  && float_lt cost (threshold (merge_minor_cost group_by))) eqn:Hm.
      * rewrite (expose_metrics_merged _ _ _ _ _ r0 cost gkv w Hen Hm H0 Hc Hrun).
        cbv zeta. rewrite (zero_add_pos _ Hpos), Hpos, Hrefuse; [done|].
        unfold dict_update. rewrite dom_union_L. by apply elem_of_union_r.
      * rewrite (expose_metrics_individual _ _ _ _ _ r0 cost gkv w Hen Hm H0 Hc Hrun).
        cbv zeta. rewrite Hrefuse; [done|].
        unfold dict_update. rewrite dom_union_L. by apply elem_of_union_r.
    + rewrite (expose_metrics_ungrouped _ _ _ _ _ r0 cost w Hen H0 Hc). cbv zeta.
      by rewrite Hrefuse.
Qed.

End Gauges.

(** ** Properties of the start-up *)

(** *** Key-value arguments *)

Lemma split_on_length sep s : length (split_on sep s) = S (string_count sep s).
Proof.
  induction s as [|c s IH]; simpl; [done|].
  destruct (decide (c = sep)); simpl; [by rewrite IH|].
  destruct (split_on sep s) as [|h t]; simpl in *; lia.
Qed.

Lemma split_on_pair sep k v :
  string_count sep k = 0 →
  split_on sep (k +:+ String sep v) = k :: split_on sep v.
Proof.
  induction k as [|c k IH]; simpl.
  - intros _. by rewrite decide_True.
  - destruct (decide (c = sep)); [done|]. simpl. intros Hk. by rewrite IH.
Qed.

Lemma split_on_whole sep s : string_count sep s = 0 → split_on sep s = [s].
Proof.
  induction s as [|c s IH]; simpl; [done|].
  destruct (decide (c = sep)); [done|]. simpl. intros Hs. by rewrite IH.
Qed.

Lemma split_on_two s :
  string_count equals_sign s = 1 ↔ ∃ key value, split_on equals_sign s = [key; value].
Proof.
  pose proof (split_on_length equals_sign s) as Hlen. split.
  - intros Hc. rewrite Hc in Hlen.
    destruct (split_on equals_sign s) as [|key [|value [|]]]; try done. by eexists _, _.
  - intros (key & value & Hs). rewrite Hs in Hlen. simpl in Hlen. lia.
Qed.

Lemma key_value_loop_pairs kvs d :
  Forall (λ kv : string * string,
            string_count equals_sign kv.1 = 0 ∧ string_count equals_sign kv.2 = 0) kvs →
  key_value_loop (kvpair_of <$> kvs) d = (list_to_map (reverse kvs) ∪ d, false).
Proof.
  intros Hall. revert d. induction Hall as [|[k v] kvs [Hk Hv] _ IH]; intros d.
  - simpl. by rewrite (left_id_L ∅ (∪)).
  - simpl in *. unfold kvpair_of at 1. simpl.
    rewrite (split_on_pair _ _ _ Hk), (split_on_whole _ _ Hv), IH.
    rewrite reverse_cons, list_to_map_app. simpl.
    by rewrite insert_empty, <- (assoc_L (∪)), <- insert_union_singleton_l.
Qed.

(** [key_value_arg] on well-formed arguments: when no key and no value holds
    an "=", the pairs come back as written, and of two pairs with the same
    key the later one is kept. *)
Theorem key_value_arg_stores_pairs kvs :
  Forall (λ kv : string * string,
            string_count equals_sign kv.1 = 0 ∧ string_count equals_sign kv.2 = 0) kvs →
  key_value_arg (kvpair_of <$> kvs) = (list_to_map (reverse kvs), false).
Proof.
  intros Hall. unfold key_value_arg. rewrite (key_value_loop_pairs _ _ Hall).
  by rewrite (right_id_L ∅ (∪)).
Qed.

Lemma key_value_loop_app pre rest d :
  Forall (λ s, string_count equals_sign s = 1) pre →
  key_value_loop (pre ++ rest) d = key_value_loop rest (key_value_loop pre d).1
  ∧ (key_value_loop pre d).2 = false.
Proof.
  intros Hall. revert d. induction Hall as [|s pre Hs _ IH]; intros d; [done|].
  apply split_on_two in Hs as (key & value & Hs). simpl. rewrite Hs. apply IH.
Qed.

(** The [assert] of [key_value_arg]: the call ends normally exactly when
    every argument holds one "=" and no more; otherwise it stops at the first
    argument that does not, with the pairs before it stored and the ones
    after it never read. *)
Theorem key_value_arg_asserts values :
  ((key_value_arg values).2 = false ↔
   Forall (λ s, string_count equals_sign s = 1) values)
  ∧ (∀ pre bad post,
       values = pre ++ bad :: post →
       Forall (λ s, string_count equals_sign s = 1) pre →
       string_count equals_sign bad ≠ 1 →
       key_value_arg values = ((key_value_arg pre).1, true)).
Proof.
  assert (∀ pre bad post d,
            Forall (λ s, string_count equals_sign s = 1) pre →
            string_count equals_sign bad ≠ 1 →
            key_value_loop (pre ++ bad :: post) d = ((key_value_loop pre d).1, true))
    as Hstop.
  { intros pre bad post d Hpre Hbad.
    rewrite (proj1 (key_value_loop_app pre (bad :: post) d Hpre)). simpl.
    destruct (split_on equals_sign bad) as [|key [|value [|]]] eqn:Hs; try done.
    destruct Hbad. apply split_on_two. by eexists _, _. }
  split; [|intros pre bad post -> Hpre Hbad; by apply Hstop].
  unfold key_value_arg. split.
  - generalize (∅ : gmap string string).
    induction values as [|s values IH]; intros d; [constructor|]. simpl.
    destruct (split_on equals_sign s) as [|key [|value [|]]] eqn:Hs; try done.
    intros Hr. constructor; [|by eapply IH].
    apply split_on_two. by eexists _, _.
  - intros Hall.
    pose proof (key_value_loop_app values [] ∅ Hall) as [_ H]. exact H.
Qed.

(** *** The generated secrets *)

Lemma subscriptions_of_cons tenant_id (t : gmap string string) ts :
  subscriptions_of tenant_id (t :: ts) =
  match (if decide (t !! "TenantId" = Some tenant_id)
         then t !! "Subscription" else None) with
  | Some s => s :: subscriptions_of tenant_id ts
  | None => subscriptions_of tenant_id ts
  end.
Proof. reflexivity. Qed.

Lemma needed_secrets_loop_spec ts needed :
  Forall (λ t : gmap string string,
            is_Some (t !! "TenantId") ∧ is_Some (t !! "Subscription")) ts →
  ∃ written,
    needed_secrets_loop ts needed = inr written ∧
    ∀ tenant_id,
      written !! tenant_id =
      match needed !! tenant_id, subscriptions_of tenant_id ts with
      | None, [] => None
      | o, l => Some (default [] o ++ (placeholder_credential <$> l))
      end.
Proof.
  intros Hall. revert needed.
  induction Hall as [|t ts [[tid Ht] [s Hs]] _ IH]; intros needed.
  - exists needed. split; [done|]. intros T. simpl.
    destruct (needed !! T); simpl; [by rewrite app_nil_r|done].
  - set (needed' := match needed !! tid with
                    | None => <[tid := []]> needed
                    | Some _ => needed
                    end).
    assert (default [] (needed' !! tid) = default [] (needed !! tid)) as Hd.
    { unfold needed'. destruct (needed !! tid) eqn:Hn; [by rewrite Hn|].
      by rewrite lookup_insert_eq. }
    assert (∀ T, T ≠ tid → needed' !! T = needed !! T) as Hother.
    { intros T HT. unfold needed'. destruct (needed !! tid); [done|].
      by rewrite lookup_insert_ne. }
    destruct (IH (<[tid := default [] (needed' !! tid) ++
                            [mk_credential s "PUT_CLIENT_ID_HERE"
                               "PUT_CLIENT_SECRET_HERE"]]> needed'))
      as (written & Hrun & Hspec).
    exists written. split.
    { cbn [needed_secrets_loop]. rewrite Ht, Hs. exact Hrun. }
    intros T. rewrite Hspec, subscriptions_of_cons, Ht.
    destruct (decide (T = tid)) as [->|HT].
    + rewrite lookup_insert_eq, Hd, decide_True, Hs by done.
      change (placeholder_credential <$> s :: subscriptions_of tid ts)
        with (placeholder_credential s
                :: (placeholder_credential <$> subscriptions_of tid ts)).
      unfold default. cbn [from_option id]. rewrite <- app_assoc.
      by destruct (needed !! tid).
    + rewrite lookup_insert_ne, Hother by done.
      by rewrite decide_False by congruence.
Qed.

Lemma find_exists {A} (f : A → bool) l x :
  x ∈ l → f x = true → ∃ y, List.find f l = Some y ∧ y ∈ l ∧ f y = true.
Proof.
  induction l as [|z l IH]; intros Hin Hx; [by apply elem_of_nil in Hin|].
  simpl. destruct (f z) eqn:Hz.
  - exists z. split; [done|]. split; [left|done].
  - apply elem_of_cons in Hin as [->|Hin]; [congruence|].
    destruct (IH Hin Hx) as (y & Hf & Hy & Hfy). exists y. split; [done|].
    split; [by right|done].
Qed.

Lemma subscriptions_of_elem tenant_id ts t s :
  t ∈ ts → t !! "TenantId" = Some tenant_id → t !! "Subscription" = Some s →
  s ∈ subscriptions_of tenant_id ts.
Proof.
  intros Hin Ht Hs. unfold subscriptions_of. apply list_elem_of_omap.
  exists t. split; [done|]. by rewrite decide_True.
Qed.

Lemma Exists_first {A} (P : A → Prop) `{∀ x, Decision (P x)} l :
  Exists P l → ∃ pre x post, l = pre ++ x :: post ∧ Forall (λ y, ¬ P y) pre ∧ P x.
Proof.
  induction l as [|z l IH]; intros Hex; [by apply Exists_nil in Hex|].
  destruct (decide (P z)) as [Hz|Hz].
  - exists [], z, l. by repeat split.
  - apply Exists_cons in Hex as [?|Hex]; [done|].
    destruct (IH Hex) as (pre & x & post & -> & Hpre & Hx).
    exists (z :: pre), x, post. split; [done|]. split; [by constructor|done].
Qed.

Section Startup.

Context {World : Type}.

(** The template written for a missing secrets file holds, under every
    tenant, one placeholder record per target of that tenant in the order of
    the targets, and nothing else; with it the lookup of every target's
    subscription finds a placeholder record, so that [init_azure_client]
    ends as the constructor does on the placeholders: with the placeholder
    client, or with the constructor's exception. *)
Theorem generated_secrets_cover_the_targets ts :
  Forall (λ t : gmap string string,
            is_Some (t !! "TenantId") ∧ is_Some (t !! "Subscription")) ts →
  ∃ written,
    generate_secret_yaml ts = inr written ∧
    (∀ tenant_id,
       written !! tenant_id =
       match subscriptions_of tenant_id ts with
       | [] => None
       | l => Some (placeholder_credential <$> l)
       end) ∧
    (∀ credential_error t tenant_id subscription (w : World),
       t ∈ ts → t !! "TenantId" = Some tenant_id →
       t !! "Subscription" = Some subscription →
       init_azure_client written credential_error tenant_id subscription w =
       match credential_error tenant_id "PUT_CLIENT_ID_HERE"
               "PUT_CLIENT_SECRET_HERE" with
       | None =>
           ([], Return (mk_client tenant_id "PUT_CLIENT_ID_HERE"
                          "PUT_CLIENT_SECRET_HERE"), w)
       | Some e => ([], Raise e, w)
       end).
Proof.
  intros Hall.
  destruct (needed_secrets_loop_spec ts ∅ Hall) as (written & Hrun & Hspec).
  assert (∀ tenant_id,
            written !! tenant_id =
            match subscriptions_of tenant_id ts with
            | [] => None
            | l => Some (placeholder_credential <$> l)
            end) as Hspec'.
  { intros T. rewrite Hspec, lookup_empty. by destruct (subscriptions_of T ts). }
  exists written. split; [exact Hrun|]. split; [exact Hspec'|].
  intros credential_error t T S w Hin Ht Hs.
  pose proof (subscriptions_of_elem _ _ _ _ Hin Ht Hs) as HS.
  specialize (Hspec' T).
  destruct (subscriptions_of T ts) as [|s0 l] eqn:Hsubs; [by apply elem_of_nil in HS|].
  destruct (find_exists
              (λ sub, bool_decide (SubscriptionId sub = S))
              (placeholder_credential <$> s0 :: l) (placeholder_credential S))
    as (c & Hfind & Hc & _).
  { by apply list_elem_of_fmap_2. }
  { by apply bool_decide_eq_true_2. }
  rewrite (init_azure_client_found written credential_error T S _ c w Hspec' Hfind).
  apply list_elem_of_fmap in Hc as (s' & -> & _). done.
Qed.

End Startup.

(** With the generated template as the secrets, every subscription a cycle
    visits is declared by a target, so its [EnvironmentName] is the one of the
    first target that declares it ("DefaultEnv" if that target has no such
    key) and is never inherited from the account the pass started from. *)
Theorem generated_secrets_are_declared ts written tenant_id subs sub :
  generate_secret_yaml ts = inr written →
  written !! tenant_id = Some subs → sub ∈ subs →
  ∃ pre t post,
    ts = pre ++ t :: post ∧
    Forall (λ t' : gmap string string,
              default "" (t' !! "Subscription") ≠ SubscriptionId sub) pre ∧
    default "" (t !! "Subscription") = SubscriptionId sub ∧
    ∀ azure_account,
      match_environment_name ts (SubscriptionId sub) azure_account !! "EnvironmentName"
      = Some (default "DefaultEnv" (t !! "EnvironmentName")).
Proof.
  intros Hgen Hw Hin.
  assert (Forall (λ t : gmap string string,
                    is_Some (t !! "TenantId") ∧ is_Some (t !! "Subscription")) ts)
    as Hall.
  { unfold generate_secret_yaml in Hgen. clear -Hgen.
    revert Hgen. generalize (∅ : gmap string (list credential)).
    induction ts as [|t ts IH]; intros needed; [constructor|]. simpl.
    destruct (t !! "TenantId") as [tid|] eqn:Ht; [|done].
    destruct (t !! "Subscription") as [s|] eqn:Hs; [|done].
    intros Hrun. constructor; [by rewrite Ht, Hs|]. by eapply IH. }
  destruct (needed_secrets_loop_spec ts ∅ Hall) as (written' & Hrun & Hspec).
  unfold generate_secret_yaml in Hgen. rewrite Hrun in Hgen. injection Hgen as ->.
  rewrite Hspec, lookup_empty in Hw.
  assert (SubscriptionId sub ∈ subscriptions_of tenant_id ts) as HS.
  { destruct (subscriptions_of tenant_id ts) as [|s0 l]; [done|].
    injection Hw as <-.
    apply (list_elem_of_fmap placeholder_credential (s0 :: l)) in Hin
      as (s' & -> & Hs').
    done. }
  apply list_elem_of_omap in HS as (t0 & Ht0 & Hsel).
  destruct (decide (t0 !! "TenantId" = Some tenant_id)); [|done].
  destruct (Exists_first
              (λ t' : gmap string string,
                 default "" (t' !! "Subscription") = SubscriptionId sub) ts)
    as (pre & t & post & Hts & Hpre & Ht).
  { apply Exists_exists. exists t0. split; [done|]. by rewrite Hsel. }
  exists pre, t, post. split; [done|]. split; [done|]. split; [done|].
  intros azure_account.
  rewrite (match_environment_name_first _ _ _ _ _ _ Hts Hpre Ht).
  apply lookup_insert_eq.
Qed.

(** *** The checks of [get_configs] *)

Lemma incomplete_credentials_false sub :
  incomplete_credentials sub = false ↔
  "SubscriptionId" ∈ dom sub ∧ "client_id" ∈ dom sub ∧ "client_secret" ∈ dom sub.
Proof.
  unfold incomplete_credentials.
  rewrite !orb_false_iff, !bool_decide_eq_false.
  split.
  - intros [[H1 H2] H3]. by repeat split; apply dec_stable.
  - intros (H1 & H2 & H3). by repeat split; intros ?.
Qed.

Lemma existsb_false_Forall {A} (f : A → bool) l :
  existsb f l = false ↔ Forall (λ x, f x = false) l.
Proof.
  induction l as [|x l IH]; simpl; [by split; [constructor|]|].
  rewrite orb_false_iff, IH. split; [intros [??]; by constructor|].
  by intros [??]%Forall_cons.
Qed.

Lemma validate_secret_passes ts secret :
  validate_secret ts secret = None ↔
  Forall (λ t : gmap string string,
            ∃ tenant_id subs,
              t !! "TenantId" = Some tenant_id ∧
              secret !! tenant_id = Some (SecretList subs) ∧
              Forall (λ sub : gmap string string,
                        "SubscriptionId" ∈ dom sub ∧ "client_id" ∈ dom sub ∧
                        "client_secret" ∈ dom sub) subs) ts.
Proof.
  induction ts as [|t ts IH]; simpl; [by split; [constructor|]|].
  rewrite Forall_cons, <- IH. clear IH.
  destruct (t !! "TenantId") as [tid|].
  - destruct (secret !! tid) as [[subs|]|] eqn:Hs.
    + destruct (existsb incomplete_credentials subs) eqn:Hex.
      * split; [done|]. intros [(tid' & subs' & [= <-] & Hs' & Hall) _].
        rewrite Hs in Hs'. injection Hs' as <-.
        assert (existsb incomplete_credentials subs = false); [|congruence].
        apply existsb_false_Forall. eapply Forall_impl; [exact Hall|].
        intros sub Hsub. by apply incomplete_credentials_false.
      * split; [|by intros [_ ?]]. intros Hrest. split; [|done].
        exists tid, subs. split; [done|]. split; [done|].
        apply existsb_false_Forall in Hex. eapply Forall_impl; [exact Hex|].
        intros sub Hsub. by apply incomplete_credentials_false.
    + split; [done|]. intros [(tid' & subs' & [= <-] & Hs' & _) _]. congruence.
    + split; [done|]. intros [(tid' & subs' & [= <-] & Hs' & _) _]. congruence.
  - split; [done|]. by intros [(tid' & subs' & [=] & _) _].
Qed.

Lemma get_configs_Configs files config secret ts secret' :
  get_configs files config secret = Configs ts secret' ↔
  config = inr ts ∧ secret = inr secret' ∧ valid_startup files ts secret'.
Proof.
  unfold get_configs, valid_startup.
  destruct (config_exists files), (config_isfile files); simpl;
    try (split; [done|by intros (_ & _ & ? & ? & _)]).
  destruct config as [e|ts0]; [by split; [|intros [? _]]|].
  destruct ts0 as [|first others].
  { split; [done|]. by intros ([= <-] & _ & _ & _ & _ & _ & (f & o & ? & _) & _). }
  remember (generate_secret_yaml (first :: others)) as g eqn:Hg.
  remember (validate_secret (first :: others)) as validate eqn:Hvalidate.
  destruct (decide ("TenantId" ∈ dom first)) as [Ht|Ht].
  2: { rewrite (bool_decide_eq_true_2 _ Ht). simpl. split; [done|].
       intros ([= <-] & _ & _ & _ & _ & _ & (f & o & [= <- <-] & ? & _) & _). done. }
  rewrite (bool_decide_eq_false_2 ("TenantId" ∉ dom first)) by (by intros ?).
  destruct (decide ("Subscription" ∈ dom first)) as [Hs|Hs].
  2: { rewrite (bool_decide_eq_true_2 _ Hs). simpl. split; [done|].
       intros ([= <-] & _ & _ & _ & _ & _ & (f & o & [= <- <-] & _ & ? & _) & _).
       done. }
  rewrite (bool_decide_eq_false_2 ("Subscription" ∉ dom first)) by (by intros ?).
  simpl.
  destruct (existsb (λ t, bool_decide (dom first ≠ dom t)) others) eqn:Hkeys.
  { split; [done|].
    intros ([= <-] & _ & _ & _ & _ & _ & (f & o & [= <- <-] & _ & _ & Hall) & _).
    apply Forall_cons in Hall as [_ Hall].
    assert (existsb (λ t, bool_decide (dom first ≠ dom t)) others = false);
      [|congruence].
    apply existsb_false_Forall. eapply Forall_impl; [exact Hall|].
    intros t Hd. by apply bool_decide_eq_false_2; intros ?. }
  apply existsb_false_Forall in Hkeys.
  assert (Forall (λ t : gmap string string, dom t = dom first) (first :: others))
    as Hsame.
  { constructor; [done|]. eapply Forall_impl; [exact Hkeys|].
    intros t Hd. apply bool_decide_eq_false in Hd. symmetry. by apply dec_stable. }
  destruct (secret_exists files).
  2: { simpl. split; [|by intros (_ & _ & _ & _ & ? & _)]. by destruct g. }
  destruct (secret_isfile files).
  2: { simpl. split; [done|]. by intros (_ & _ & _ & _ & _ & ? & _). }
  simpl.
  destruct secret as [e|secret0]; [by split; [|intros (_ & ? & _)]|].
  subst validate.
  destruct (validate_secret (first :: others) secret0) as [stop|] eqn:Hv.
  - split.
    + intros ->. exfalso. revert Hv. clear.
      generalize (first :: others). intros ts0. induction ts0 as [|t ts0 IH]; [done|].
      simpl. destruct (t !! "TenantId"); [|done].
      destruct (secret0 !! s) as [[subs|]|]; try done.
      by destruct (existsb incomplete_credentials subs).
    + intros ([= <-] & [= <-] & _ & _ & _ & _ & _ & Hall).
      apply validate_secret_passes in Hall. congruence.
  - apply validate_secret_passes in Hv. split.
    + intros [= <- <-]. repeat split; try done. by exists first, others.
    + by intros ([= <-] & [= <-] & _).
Qed.

(** [get_configs] returns (rather than exits or raises) exactly when both
    paths exist and are files, both files load, there is a target, the first
    target has the keys [TenantId] and [Subscription], every target has the
    first one's keys, and the secrets hold, for every target's tenant, a list
    of records that each have the keys [SubscriptionId], [client_id] and
    [client_secret]; it then returns the targets and the secrets as
    loaded.  A load that raises ends [get_configs] with its exception, if
    the checks before it pass. *)
Theorem get_configs_returns files config secret ts secret' :
  (get_configs files config secret = Configs ts secret' ↔
   config = inr ts ∧ secret = inr secret' ∧ valid_startup files ts secret')
  ∧ (∀ e, config = inl e → config_exists files = true →
       config_isfile files = true →
       get_configs files config secret = Raised e)
  ∧ (∀ e first others,
       config = inr (first :: others) → secret = inl e →
       config_exists files = true → config_isfile files = true →
       "TenantId" ∈ dom first → "Subscription" ∈ dom first →
       Forall (λ t : gmap string string, dom t = dom first) others →
       secret_exists files = true → secret_isfile files = true →
       get_configs files config secret = Raised e).
Proof.
  split; [apply get_configs_Configs|]. split.
  - intros e -> He Hf. unfold get_configs. by rewrite He, Hf.
  - intros e first others -> -> He Hf Ht Hs Hall Hse Hsf.
    unfold get_configs. rewrite He, Hf, Hse, Hsf. simpl.
    rewrite (bool_decide_eq_false_2 ("TenantId" ∉ dom first)) by (by intros ?).
    rewrite (bool_decide_eq_false_2 ("Subscription" ∉ dom first)) by (by intros ?).
    simpl.
    assert (existsb (λ t, bool_decide (dom first ≠ dom t)) others = false) as ->;
      [|done].
    apply existsb_false_Forall. eapply Forall_impl; [exact Hall|].
    intros t Hd. by apply bool_decide_eq_false_2; intros ?.
Qed.

(** When the config loads and passes its checks and the secrets path does
    not exist, [get_configs] exits after writing the template, never with an
    exception (the secrets are not loaded), and the template holds a record
    for the subscription of every target under that target's tenant. *)
Theorem missing_secrets_file_gets_a_template files first others secret :
  config_exists files = true → config_isfile files = true →
  "TenantId" ∈ dom first → "Subscription" ∈ dom first →
  Forall (λ t : gmap string string, dom t = dom first) others →
  secret_exists files = false →
  ∃ written,
    get_configs files (inr (first :: others)) secret = ExitSecretGenerated written ∧
    generate_secret_yaml (first :: others) = inr written ∧
    ∀ t, t ∈ first :: others →
      ∃ tenant_id subscription subs,
        t !! "TenantId" = Some tenant_id ∧ t !! "Subscription" = Some subscription ∧
        written !! tenant_id = Some subs ∧
        subscription ∈ SubscriptionId <$> subs.
Proof.
  intros He Hf Ht Hs Hkeys Hno.
  assert (Forall (λ t : gmap string string,
                    is_Some (t !! "TenantId") ∧ is_Some (t !! "Subscription"))
                 (first :: others)) as Hall.
  { constructor; [by split; apply elem_of_dom|].
    eapply Forall_impl; [exact Hkeys|]. intros t Hd.
    split; apply elem_of_dom; by rewrite Hd. }
  destruct (needed_secrets_loop_spec (first :: others) ∅ Hall) as (written & Hrun & Hspec).
  exists written. split; [|split; [exact Hrun|]].
  - unfold get_configs. rewrite He, Hf, Hno. simpl.
    rewrite (bool_decide_eq_false_2 ("TenantId" ∉ dom first)) by (by intros ?).
    rewrite (bool_decide_eq_false_2 ("Subscription" ∉ dom first)) by (by intros ?).
    simpl.
    assert (existsb (λ t, bool_decide (dom first ≠ dom t)) others = false) as ->.
    { apply existsb_false_Forall. eapply Forall_impl; [exact Hkeys|].
      intros t Hd. by apply bool_decide_eq_false_2; intros ?. }
    unfold generate_secret_yaml. by rewrite Hrun.
  - intros t Hin.
    destruct (proj1 (Forall_forall _ _) Hall t Hin) as [[T HT] [S HS]].
    pose proof (subscriptions_of_elem _ _ _ _ Hin HT HS) as Hsub.
    specialize (Hspec T). rewrite lookup_empty in Hspec.
    destruct (subscriptions_of T (first :: others)) as [|s0 l] eqn:Hl;
      [by apply elem_of_nil in Hsub|].
    exists T, S, (placeholder_credential <$> s0 :: l).
    split; [done|]. split; [done|]. split; [done|].
    rewrite <- list_fmap_compose.
    replace (SubscriptionId ∘ placeholder_credential) with (@id string) by done.
    by rewrite list_fmap_id.
Qed.

Lemma existsb_incomplete_alter f (subs : list (gmap string string)) :
  existsb incomplete_credentials (alter f "SubscriptionId" <$> subs)
  = existsb incomplete_credentials subs.
Proof.
  induction subs as [|sub subs IH]; [done|].
  rewrite fmap_cons. cbn [existsb]. rewrite IH. f_equal.
  unfold incomplete_credentials. by rewrite dom_alter_L.
Qed.

Lemma validate_secret_rename f ts secret :
  validate_secret ts (rename_subscriptions f <$> secret) = validate_secret ts secret.
Proof.
  induction ts as [|t ts IH]; simpl; [done|].
  destruct (t !! "TenantId") as [tid|]; [|done].
  rewrite lookup_fmap. destruct (secret !! tid) as [[subs|]|]; simpl; [|done|done].
  by rewrite existsb_incomplete_alter, IH.
Qed.

(** The checks of [get_configs] never read a [SubscriptionId]: whatever the
    subscriptions of the secrets' records are renamed to, [get_configs] ends
    the same way.  In particular it returns for secrets in which no record
    bears the subscription of any target. *)
Theorem get_configs_ignores_subscription_ids f files config secret :
  get_configs files config (rename_loaded f secret) =
  match get_configs files config secret with
  | Configs ts' secret' => Configs ts' (rename_subscriptions f <$> secret')
  | stop => stop
  end.
Proof.
  unfold get_configs.
  destruct (negb (config_exists files) || negb (config_isfile files)); [done|].
  destruct config as [e|[|first others]]; [done|done|]. cbv zeta.
  destruct (bool_decide _ || bool_decide _); [done|].
  destruct (existsb _ others); [done|].
  destruct (negb (secret_exists files)).
  { by destruct (generate_secret_yaml (first :: others)). }
  destruct (negb (secret_isfile files)); [done|].
  destruct secret as [e|secret]; [done|]. cbn [rename_loaded].
  rewrite validate_secret_rename.
  destruct (validate_secret (first :: others) secret) as [stop|] eqn:Hv; [|done].
  assert (∀ ts' s', stop ≠ Configs ts' s') as Hstop.
  { revert Hv. clear. generalize (first :: others). intros ts.
    induction ts as [|t ts IH]; [done|]. simpl.
    destruct (t !! "TenantId"); [|by intros [= <-]].
    destruct (secret !! s) as [[subs|]|]; try by intros [= <-].
    destruct (existsb incomplete_credentials subs); [by intros [= <-]|done]. }
  destruct stop; try done. by destruct (Hstop ts secret0).
Qed.

(** *** From the start-up to the fetch cycle *)

Section StartupAndExporter.

Context {World : Type}.
Variable today : World → datetime * World.
Variable usage :
  CostManagementClient → string → QueryDefinition → World →
  (exn + QueryResult) * World.
Variable str_to_float : string → option float.
Variable group_by : group_by_config.
Variable credential_error : string → string → string → option exn.
Variable gauge_error : gset string → option exn.

(** What the checks of [get_configs] buy the exporter: with the targets and
    the secrets it returns, [__init__] finds a first target, and in a fetch
    cycle neither the lookup of [TenantId], nor the lookup of the tenant in
    the secrets, nor the lookup of a subscription's record can raise.  They
    do not check the values of the records: a cycle is still cut short when
    the constructor of a client refuses a record, which happens outside the
    [try]; the only other way is a non-HTTP exception raised inside a
    subscription's [try]. *)
Theorem validated_startup_guards_the_lookups files config secret ts secret' :
  get_configs files config secret = Configs ts secret' →
  (∃ L, exporter_labels group_by ts = inr L) ∧
  (∀ w t e w',
     fetch today usage str_to_float group_by ts (loaded_credentials secret')
       credential_error gauge_error w = (t, Raise e, w') →
     (∃ tenant_id subs credentials t_before,
        loaded_credentials secret' !! tenant_id = Some subs ∧ credentials ∈ subs ∧
        credential_error tenant_id (client_id credentials) (client_secret credentials)
          = Some e ∧
        t = t_before ++ [PrintProcessing (SubscriptionId credentials)])
     ∨
     (∃ azure_client subscription_id current w0 t_before t0,
        query_and_expose today usage str_to_float group_by gauge_error
          azure_client subscription_id current w0 = (t0, Raise e, w') ∧
        t = t_before ++ t0 ∧ (∀ reason, e ≠ HttpResponseError reason))).
Proof.
  intros Hcfg. apply get_configs_Configs in Hcfg
    as (_ & _ & _ & _ & _ & _ & (first & others & Hts & _) & Hall).
  split.
  - rewrite Hts. unfold exporter_labels. by eexists.
  - intros w t e w' Hrun.
    apply (fetch_abort_cases today usage str_to_float group_by ts
             (loaded_credentials secret') credential_error gauge_error w t e w');
      [|exact Hrun].
    eapply Forall_impl; [exact Hall|].
    intros a (tid & subs & Ha & Hs & _). exists tid. split; [done|].
    unfold loaded_credentials. rewrite lookup_omap, Hs. by eexists.
Qed.

End StartupAndExporter.

(** ** The properties on the example inputs *)

(** C1, on one subscription with threshold 5 and two rows of the start date
    with costs 2 and 3: the rows are written as two points of the tagged label
    set, valued 2 and 3; no point carries their sum 5. *)
Lemma minor_costs_are_written_per_row_witness :
  gauge_sets
    (for_each
       (expose_metrics (World := unit) ex_str_to_float ex_grouped ex_gauge_grouped
          ex_account)
       ex_minor_rows tt).1.1
  = [({["ChargeType" := PyStr "ActualCost"; "TenantId" := PyStr "T1";
        "Subscription" := PyStr "S1"; "EnvironmentName" := PyStr "prod";
        "Team" := PyStr "other"]}, 2%float);
     ({["ChargeType" := PyStr "ActualCost"; "TenantId" := PyStr "T1";
        "Subscription" := PyStr "S1"; "EnvironmentName" := PyStr "prod";
        "Team" := PyStr "other"]}, 3%float)]
  ∧ (2 + 3)%float = 5%float.
Proof.
  split; [|reflexivity].
  assert (Forall (minor_row ex_str_to_float ex_grouped) ex_minor_rows) as Hrows.
  { repeat constructor.
    - exists (PyFloat 2), 2%float. repeat split; reflexivity.
    - exists (PyFloat 3), 3%float. repeat split; reflexivity. }
  rewrite (proj2 (proj1 (minor_costs_are_written_per_row ex_str_to_float ex_grouped
                           ex_gauge_grouped ex_account ex_minor_rows tt
                           eq_refl eq_refl Hrows)
                    ltac:(vm_compute; reflexivity))).
  vm_compute. reflexivity.
Defined.

(** The same rows through a whole cycle. *)
Lemma minor_costs_in_a_cycle :
  gauge_sets
    (fetch ex_today (ex_usage ex_minor_rows) ex_str_to_float ex_grouped
       [ex_account] ex_secrets_S1 ex_checking ex_gauge_grouped tt).1.1
  = [({["ChargeType" := PyStr "ActualCost"; "TenantId" := PyStr "T1";
        "Subscription" := PyStr "S1"; "EnvironmentName" := PyStr "prod";
        "Team" := PyStr "other"]}, 2%float);
     ({["ChargeType" := PyStr "ActualCost"; "TenantId" := PyStr "T1";
        "Subscription" := PyStr "S1"; "EnvironmentName" := PyStr "prod";
        "Team" := PyStr "other"]}, 3%float)].
Proof. vm_compute. reflexivity. Qed.

(** C2, counterexample.  The query's window ends on 2024-01-02; of the rows
    dated 20240101 and 20240102, the one dated 20240101 is mapped and the one
    dated with the end date is dropped. *)
Lemma row_of_the_end_date_is_dropped :
  ex_dated_rows = [[PyFloat 12.5; PyInt 20240101]; [PyFloat 7; PyInt 20240102]]
  ∧ queried_periods
      (fetch ex_today (ex_usage ex_dated_rows) ex_str_to_float ex_ungrouped
         [ex_account] ex_secrets_S1 ex_checking ex_gauge tt).1.1
    = [mk_period (mk_datetime 2024 1 1 0 0 0 0 (Some utc))
                 (mk_datetime 2024 1 2 0 0 0 0 (Some utc))]
  ∧ gauge_sets
      (fetch ex_today (ex_usage ex_dated_rows) ex_str_to_float ex_ungrouped
         [ex_account] ex_secrets_S1 ex_checking ex_gauge tt).1.1
    = [({["ChargeType" := PyStr "ActualCost"; "TenantId" := PyStr "T1";
          "Subscription" := PyStr "S1"; "EnvironmentName" := PyStr "prod"]},
        12.5%float)].
Proof. repeat split; vm_compute; reflexivity. Qed.

(** C4, counterexample.  The tenant's credential set lists S1 and S2, the
    only target declares S1 with environment "prod": the points of S2, which
    no target declares, carry "prod" and not the sentinel. *)
Lemma undeclared_subscription_inherits_environment :
  Forall (λ t : gmap string string, t !! "Subscription" ≠ Some "S2") [ex_account]
  ∧ gauge_sets
      (fetch ex_today (ex_usage [[PyFloat 12.5; PyInt 20240101]]) ex_str_to_float
         ex_ungrouped [ex_account] ex_secrets ex_checking ex_gauge tt).1.1
    = [({["ChargeType" := PyStr "ActualCost"; "TenantId" := PyStr "T1";
          "Subscription" := PyStr "S1"; "EnvironmentName" := PyStr "prod"]},
        12.5%float);
       ({["ChargeType" := PyStr "ActualCost"; "TenantId" := PyStr "T1";
          "Subscription" := PyStr "S2"; "EnvironmentName" := PyStr "prod"]},
        12.5%float)].
Proof.
  split; [|vm_compute; reflexivity].
  repeat constructor. by vm_compute.
Qed.


(** C8, counterexample.  A target that has a key named [ChargeType]: the
    point of its row carries the target's value, not ["ActualCost"].  And a
    target without [EnvironmentName]: the gauge that [__init__] creates
    refuses the labels of its row, no point is written and the cycle ends on
    the gauge's [ValueError]. *)
Lemma account_entries_override_the_charge_type :
  gauge_sets
    (fetch ex_today (ex_usage [[PyFloat 12.5; PyInt 20240101]]) ex_str_to_float
       ex_ungrouped [ex_charged_account] ex_secrets_S1 ex_checking
       (prometheus_gauge ({["ChargeType"]} ∪ dom ex_charged_account)) tt).1.1
  = [({["ChargeType" := PyStr "Forecast"; "TenantId" := PyStr "T1";
        "Subscription" := PyStr "S1"; "EnvironmentName" := PyStr "prod"]},
      12.5%float)]
  ∧ exporter_labels ex_ungrouped [ex_charged_account]
    = inr ({["ChargeType"]} ∪ dom ex_charged_account)
  ∧ exporter_labels ex_ungrouped [ex_bare_account]
    = inr ({["ChargeType"]} ∪ dom ex_bare_account)
  ∧ fetch ex_today (ex_usage [[PyFloat 12.5; PyInt 20240101]]) ex_str_to_float
      ex_ungrouped [ex_bare_account] ex_secrets_S1 ex_checking ex_gauge_bare tt
    = ([PrintQuerying "T1"; PrintProcessing "S1";
        QueryUsage (mk_client "T1" "id1" "secret1") "/subscriptions/S1"
          (cost_query ex_ungrouped (mk_datetime 2024 1 1 10 30 0 0 None)
             (mk_datetime 2024 1 2 10 30 0 0 None))],
       Raise (ValueError "Incorrect label names"), tt).
Proof. repeat split; vm_compute; reflexivity. Qed.

(** C8 (as amended) on the row [12.5, 20240101] of the start date
    2024-01-01, and on the same row with the int 12 for a cost. *)
Lemma ungrouped_row_writes_one_point_witness :
  process_row (World := unit) ex_str_to_float ex_ungrouped ex_gauge
    (mk_datetime 2024 1 1 10 30 0 0 None) ex_account
    [PyFloat 12.5; PyInt 20240101] tt
  = ([GaugeSet ((PyStr <$> ex_account) ∪ {["ChargeType" := PyStr "ActualCost"]}) 12.5;
      PrintExposing ((PyStr <$> ex_account) ∪ {["ChargeType" := PyStr "ActualCost"]}) 12.5],
     Return tt, tt)
  ∧ gauge_sets
      (process_row (World := unit) ex_str_to_float ex_ungrouped ex_gauge
         (mk_datetime 2024 1 1 10 30 0 0 None) ex_account
         [PyInt 12; PyInt 20240101] tt).1.1
    = [((PyStr <$> ex_account) ∪ {["ChargeType" := PyStr "ActualCost"]}, 12%float)].
Proof.
  split.
  - apply (ungrouped_row_writes_one_point ex_str_to_float ex_ungrouped ex_gauge
             (mk_datetime 2024 1 1 10 30 0 0 None) ex_account
             [PyFloat 12.5; PyInt 20240101] (PyInt 20240101) (PyFloat 12.5) tt);
      reflexivity.
  - rewrite (proj1 (proj2 (ungrouped_row_writes_one_point ex_str_to_float
                             ex_ungrouped ex_gauge
                             (mk_datetime 2024 1 1 10 30 0 0 None) ex_account
                             [PyInt 12; PyInt 20240101] (PyInt 20240101) (PyInt 12) tt
                             eq_refl eq_refl eq_refl eq_refl))).
    vm_compute. reflexivity.
Defined.

(** C2 (as amended) on the rows dated 20240101 and 20240102. *)
Lemma only_start_date_rows_are_mapped_witness :
  query_and_expose ex_today (ex_usage ex_dated_rows) ex_str_to_float ex_ungrouped
    ex_gauge (mk_client "T1" "id1" "secret1") "S1" ex_account tt
  = let '(t, r, w3) :=
      for_each (expose_metrics ex_str_to_float ex_ungrouped ex_gauge ex_account)
        (List.filter (date_qualifies (mk_datetime 2024 1 1 10 30 0 0 None))
           ex_dated_rows) tt in
    (QueryUsage (mk_client "T1" "id1" "secret1") ("/subscriptions/" +:+ "S1")
       (cost_query ex_ungrouped (mk_datetime 2024 1 1 10 30 0 0 None)
          (mk_datetime 2024 1 2 10 30 0 0 None)) :: t, r, w3).
Proof.
  apply (only_start_date_rows_are_mapped ex_today (ex_usage ex_dated_rows)
           ex_str_to_float ex_ungrouped ex_gauge (mk_client "T1" "id1" "secret1") "S1"
           ex_account tt (mk_datetime 2024 1 2 10 30 0 0 None) tt
           (mk_datetime 2024 1 1 10 30 0 0 None) ex_dated_rows tt);
    [reflexivity|reflexivity|reflexivity|].
  repeat constructor; eexists; reflexivity.
Defined.

(** C4 (as amended): S3 is declared by the second target, whose environment
    is "dev"; S2 is declared by none and keeps "prod". *)
Lemma environment_name_resolution_witness :
  match_environment_name [ex_account; ex_account_S3] "S3"
    (<["Subscription" := "S3"]> ex_account) !! "EnvironmentName" = Some "dev"
  ∧ match_environment_name [ex_account; ex_account_S3] "S2"
      (<["Subscription" := "S2"]> ex_account) !! "EnvironmentName"
    = ex_account !! "EnvironmentName".
Proof.
  split.
  - apply (proj1 (environment_name_resolution [ex_account; ex_account_S3]
                    ex_account "S3") [ex_account] ex_account_S3 [] eq_refl).
    + repeat constructor. by vm_compute.
    + reflexivity.
  - apply (proj2 (environment_name_resolution [ex_account; ex_account_S3]
                    ex_account "S2")).
    repeat constructor; by vm_compute.
Defined.

(** C5 with three subscriptions, the API failing on S2 only: S2 is logged,
    and S1 before it and S3 after it are queried. *)
Lemma http_error_skips_only_that_subscription_witness :
  fetch_subscription ex_today
    (ex_usage_failing "/subscriptions/S2" [[PyFloat 12.5; PyInt 20240101]])
    ex_str_to_float ex_ungrouped [ex_account] ex_secrets_three ex_checking ex_gauge
    ex_account "T1" (mk_credential "S2" "id2" "secret2") tt
  = ([PrintProcessing "S2";
      QueryUsage (mk_client "T1" "id2" "secret2") "/subscriptions/S2"
        (cost_query ex_ungrouped (mk_datetime 2024 1 1 10 30 0 0 None)
           (mk_datetime 2024 1 2 10 30 0 0 None));
      LogError "S2" "Forbidden"], Return tt, tt)
  ∧ fetched_scopes
      (fetch_loop ex_today
         (ex_usage_failing "/subscriptions/S2" [[PyFloat 12.5; PyInt 20240101]])
         ex_str_to_float ex_ungrouped [ex_account] ex_secrets_three ex_checking
         ex_gauge [ex_account] ∅ tt).1.1
    = ["/subscriptions/S1"; "/subscriptions/S2"; "/subscriptions/S3"].
Proof.
  destruct (proj1 (http_error_skips_only_that_subscription ex_today
              (ex_usage_failing "/subscriptions/S2" [[PyFloat 12.5; PyInt 20240101]])
              ex_str_to_float ex_ungrouped [ex_account] ex_secrets_three
              ex_checking ex_gauge
              ex_account [] ∅ "T1"
              [mk_credential "S1" "id1" "secret1"]
              (mk_credential "S2" "id2" "secret2")
              [mk_credential "S3" "id3" "secret3"]
              (mk_credential "S2" "id2" "secret2")
              tt
              (for_each
                 (fetch_subscription ex_today
                    (ex_usage_failing "/subscriptions/S2"
                       [[PyFloat 12.5; PyInt 20240101]])
                    ex_str_to_float ex_ungrouped [ex_account] ex_secrets_three
                    ex_checking ex_gauge ex_account "T1")
                 [mk_credential "S1" "id1" "secret1"] tt).1.1
              tt (mk_datetime 2024 1 2 10 30 0 0 None) tt
              (mk_datetime 2024 1 1 10 30 0 0 None) "Forbidden" tt
              eq_refl ltac:(set_solver) eq_refl eq_refl
              ltac:(vm_compute; reflexivity) eq_refl eq_refl eq_refl)
            eq_refl)
    as [Hsub Hloop].
  split; [exact Hsub|]. rewrite Hloop. vm_compute. reflexivity.
Defined.

(** C6, counterexample.  Two targets, S1 and S3, and secrets that hold a
    record for S1 only: the cycle ends normally, S3 is never queried and no
    error is raised for it.  And a record for S1 with an empty client id,
    against constructors that refuse one: a record matches, yet the
    resolution raises, and the cycle ends there. *)
Lemma missing_record_is_not_an_error :
  fetch ex_today (ex_usage [[PyFloat 12.5; PyInt 20240101]]) ex_str_to_float
    ex_ungrouped [ex_account; ex_account_S3] ex_secrets_S1 ex_checking ex_gauge tt
  = ([PrintQuerying "T1"; PrintProcessing "S1";
      QueryUsage (mk_client "T1" "id1" "secret1") "/subscriptions/S1"
        (cost_query ex_ungrouped (mk_datetime 2024 1 1 10 30 0 0 None)
           (mk_datetime 2024 1 2 10 30 0 0 None));
      GaugeSet {["ChargeType" := PyStr "ActualCost"; "TenantId" := PyStr "T1";
                 "Subscription" := PyStr "S1"; "EnvironmentName" := PyStr "prod"]}
        12.5;
      PrintExposing
        {["ChargeType" := PyStr "ActualCost"; "TenantId" := PyStr "T1";
          "Subscription" := PyStr "S1"; "EnvironmentName" := PyStr "prod"]} 12.5],
     Return tt, tt)
  ∧ ex_account_S3 !! "Subscription" = Some "S3"
  ∧ init_azure_client ex_secrets_blank ex_checking "T1" "S1" tt
    = ([], Raise (ValueError
                    "client_id should be the id of a Microsoft Entra application"),
       tt)
  ∧ fetch ex_today (ex_usage [[PyFloat 12.5; PyInt 20240101]]) ex_str_to_float
      ex_ungrouped [ex_account] ex_secrets_blank ex_checking ex_gauge tt
    = ([PrintQuerying "T1"; PrintProcessing "S1"],
       Raise (ValueError
                "client_id should be the id of a Microsoft Entra application"),
       tt).
Proof. repeat split; vm_compute; reflexivity. Qed.

(** C6 (as amended) on the example secrets: S2 resolves to its own record; a
    tenant that is not in the secrets raises, also in a cycle; the refusal
    of a record by the constructor ends the pass of its tenant. *)
Lemma credential_resolution_witness :
  init_azure_client ex_secrets ex_checking "T1" "S2" tt
    = ([], Return (mk_client "T1" "id2" "secret2"), tt)
  ∧ init_azure_client ex_secrets ex_checking "T9" "S2" tt
    = ([], Raise (KeyError "T9"), tt)
  ∧ fetch_loop ex_today (ex_usage []) ex_str_to_float ex_ungrouped [ex_account]
      (∅ : gmap string (list credential)) ex_checking ex_gauge [ex_account] ∅ tt
    = ([PrintQuerying "T1"], Raise (KeyError "T1"), tt)
  ∧ for_each
      (fetch_subscription ex_today (ex_usage []) ex_str_to_float ex_ungrouped
         [ex_account] ex_secrets_blank ex_checking ex_gauge ex_account "T1")
      [mk_credential "S1" EmptyString "secret1"] tt
    = ([PrintProcessing "S1"],
       Raise (ValueError
                "client_id should be the id of a Microsoft Entra application"),
       tt).
Proof.
  split; [|split; [|split]].
  - apply (proj1 (credential_resolution ex_today (ex_usage []) ex_str_to_float
                    ex_ungrouped [ex_account] ex_secrets ex_checking ex_gauge
                    "T1" "S2" tt)
             [mk_credential "S1" "id1" "secret1"]
             (mk_credential "S2" "id2" "secret2") []); [reflexivity| |reflexivity].
    repeat constructor. by vm_compute.
  - apply (proj1 (proj2 (credential_resolution ex_today (ex_usage []) ex_str_to_float
                           ex_ungrouped [ex_account] ex_secrets ex_checking ex_gauge
                           "T9" "S2" tt))).
    reflexivity.
  - apply (proj1 (proj2 (proj2 (proj2 (proj2 (proj2 (proj2
             (credential_resolution ex_today (ex_usage []) ex_str_to_float
                ex_ungrouped [ex_account] ∅ ex_checking ex_gauge "T1" "S1" tt)))))))).
    + reflexivity.
    + set_solver.
    + reflexivity.
  - apply (proj1 (proj2 (proj2 (proj2 (proj2
             (credential_resolution ex_today (ex_usage []) ex_str_to_float
                ex_ungrouped [ex_account] ex_secrets_blank ex_checking ex_gauge
                "T1" "S1" tt)))))).
    + reflexivity.
    + vm_compute. reflexivity.
Defined.

(** C7 with two targets of the same tenant: one pass, both subscriptions of
    the credential set queried. *)
Lemma one_pass_per_tenant_witness :
  tenant_passes
    (fetch ex_today (ex_usage [[PyFloat 12.5; PyInt 20240101]]) ex_str_to_float
       ex_ungrouped [ex_account; ex_account_S3] ex_secrets ex_checking ex_gauge
       tt).1.1
  = ["T1"]
  ∧ first_accounts [ex_account; ex_account_S3] = [ex_account].
Proof.
  split; [|vm_compute; reflexivity].
  rewrite (proj1 (proj2 (proj2 (proj2 (proj2 (proj2
             (one_pass_per_tenant ex_today
                (ex_usage [[PyFloat 12.5; PyInt 20240101]]) ex_str_to_float
                ex_ungrouped [ex_account; ex_account_S3] ex_secrets ex_checking
                ex_gauge tt))))))).
  - vm_compute. reflexivity.
  - vm_compute. reflexivity.
Defined.

(** C9 on the clock of the examples: the window is 2024-01-01 to 2024-01-02,
    both at midnight UTC. *)
Lemma cost_query_shape_witness :
  time_period
    (cost_query ex_grouped (mk_datetime 2024 1 1 10 30 0 0 None)
       (mk_datetime 2024 1 2 10 30 0 0 None))
  = mk_period (mk_datetime 2024 1 1 0 0 0 0 (Some utc))
              (mk_datetime 2024 1 2 0 0 0 0 (Some utc))
  ∧ grouping
      (dataset (cost_query ex_grouped (mk_datetime 2024 1 1 10 30 0 0 None)
                  (mk_datetime 2024 1 2 10 30 0 0 None)))
    = [mk_grouping "Dimension" "ServiceName"]
  ∧ toordinal (mk_datetime 2024 1 2 0 0 0 0 (Some utc))
    = (toordinal (mk_datetime 2024 1 1 0 0 0 0 (Some utc)) + 1)%Z.
Proof.
  destruct (cost_query_shape ex_today (ex_usage []) ex_str_to_float ex_grouped
              ex_gauge_grouped
              (mk_client "T1" "id1" "secret1") "S1" ex_account tt
              (mk_datetime 2024 1 2 10 30 0 0 None) tt
              (mk_datetime 2024 1 1 10 30 0 0 None))
    as (_ & _ & _ & _ & _ & Hgroups & _ & _ & Hto & Hfrom & _ & Hord);
    [reflexivity|vm_compute; repeat split; discriminate|reflexivity|].
  split; [reflexivity|]. split; [exact Hgroups|exact Hord].
Defined.

(** C10 with grouping enabled and an answer whose first row has two
    elements only: the [IndexError] ends the cycle at S1, and S2 is never
    visited. *)
Lemma other_exceptions_abort_cycle_witness :
  fetch_loop ex_today (ex_usage [[PyFloat 2; PyInt 20240101]]) ex_str_to_float
    ex_grouped [ex_account] ex_secrets ex_checking ex_gauge_grouped [ex_account] ∅ tt
  = (PrintQuerying "T1" :: [] ++ PrintProcessing "S1" ::
       QueryUsage (mk_client "T1" "id1" "secret1") ("/subscriptions/" +:+ "S1")
         (cost_query ex_grouped (mk_datetime 2024 1 1 10 30 0 0 None)
            (mk_datetime 2024 1 2 10 30 0 0 None)) :: [],
     Raise IndexError, tt).
Proof.
  apply (proj1 (proj2 (proj1 (other_exceptions_abort_cycle ex_today
                  (ex_usage [[PyFloat 2; PyInt 20240101]]) ex_str_to_float
                  ex_grouped [ex_account] ex_secrets ex_checking ex_gauge_grouped
                  ex_account [] ∅ "T1" []
                  (mk_credential "S1" "id1" "secret1")
                  [mk_credential "S2" "id2" "secret2"]
                  (mk_credential "S1" "id1" "secret1") tt [] tt
                  eq_refl ltac:(set_solver) eq_refl eq_refl eq_refl) eq_refl)
                (mk_datetime 2024 1 2 10 30 0 0 None) tt
                (mk_datetime 2024 1 1 10 30 0 0 None)
                [] [PyFloat 2; PyInt 20240101] [] tt [] tt (PyFloat 2)
                eq_refl eq_refl eq_refl eq_refl eq_refl eq_refl)
          2%float); [reflexivity|reflexivity|simpl; lia].
Defined.

(** ** The further properties on the example inputs *)

(** The working copy of S3 under the first target keeps the first target's
    owner; only the subscription and the environment are its own. *)
Lemma working_copy_keeps_other_labels_witness :
  let current :=
    match_environment_name [ex_owned_account; ex_owned_account_S3] "S3"
      (<["Subscription" := "S3"]> ex_owned_account) in
  current !! "Subscription" = Some "S3"
  ∧ current !! "Owner" = Some "alice"
  ∧ current !! "EnvironmentName" = Some "dev".
Proof.
  destruct (working_copy_keeps_other_labels
              [ex_owned_account; ex_owned_account_S3] ex_owned_account "S3")
    as [Hsub Hother].
  split; [exact Hsub|]. split; [|vm_compute; reflexivity].
  rewrite (proj1 (Hother "Owner" ltac:(discriminate) ltac:(discriminate))).
  reflexivity.
Defined.

(** An answer whose only row is of 2023-12-31: the request is made, nothing
    is written. *)
Lemma no_qualifying_row_writes_nothing_witness :
  query_and_expose ex_today (ex_usage [[PyFloat 12.5; PyInt 20231231]])
    ex_str_to_float ex_ungrouped ex_gauge (mk_client "T1" "id1" "secret1") "S1"
    ex_account tt
  = ([QueryUsage (mk_client "T1" "id1" "secret1") ("/subscriptions/" +:+ "S1")
        (cost_query ex_ungrouped (mk_datetime 2024 1 1 10 30 0 0 None)
           (mk_datetime 2024 1 2 10 30 0 0 None))],
     Return tt, tt).
Proof.
  apply (no_qualifying_row_writes_nothing ex_today
           (ex_usage [[PyFloat 12.5; PyInt 20231231]]) ex_str_to_float
           ex_ungrouped ex_gauge (mk_client "T1" "id1" "secret1") "S1" ex_account tt
           (mk_datetime 2024 1 2 10 30 0 0 None) tt
           (mk_datetime 2024 1 1 10 30 0 0 None)
           [[PyFloat 12.5; PyInt 20231231]] tt);
    [reflexivity|reflexivity|reflexivity|].
  repeat constructor. by eexists.
Defined.

(** A refund of 1.5 under the threshold of 5: no point, no line. *)
Lemma nonpositive_minor_row_writes_nothing_witness :
  expose_metrics ex_str_to_float ex_grouped ex_gauge_grouped ex_account
    [PyFloat (-1.5); PyInt 20240101; PyStr "A"] tt
  = ([], Return tt, tt).
Proof.
  apply (nonpositive_minor_row_writes_nothing ex_str_to_float ex_grouped
           ex_gauge_grouped ex_account [PyFloat (-1.5); PyInt 20240101; PyStr "A"]
           (PyFloat (-1.5)) (-1.5)%float tt);
    [reflexivity|reflexivity|reflexivity|reflexivity|vm_compute; reflexivity
    |vm_compute; reflexivity|simpl; lia].
Defined.

(** A cycle over a record whose client id is empty, against constructors
    that refuse one: it is cut short, by the constructor or inside a
    [try]. *)
Lemma fetch_abort_origin_witness :
  (∃ tenant_id subs credentials t_before,
     ex_secrets_blank !! tenant_id = Some subs ∧ credentials ∈ subs ∧
     ex_checking tenant_id (client_id credentials) (client_secret credentials)
     = Some (ValueError
               "client_id should be the id of a Microsoft Entra application") ∧
     [PrintQuerying "T1"; PrintProcessing "S1"]
     = t_before ++ [PrintProcessing (SubscriptionId credentials)])
  ∨ (∃ azure_client subscription_id current w0 t_before t0,
       query_and_expose ex_today (ex_usage [[PyFloat 2; PyInt 20240101]])
         ex_str_to_float ex_grouped ex_gauge_grouped azure_client subscription_id
         current w0
       = (t0, Raise (ValueError
                       "client_id should be the id of a Microsoft Entra application"),
          tt)
       ∧ [PrintQuerying "T1"; PrintProcessing "S1"] = t_before ++ t0
       ∧ ∀ reason,
           ValueError "client_id should be the id of a Microsoft Entra application"
           ≠ HttpResponseError reason).
Proof.
  apply (fetch_abort_origin ex_today
           (ex_usage [[PyFloat 2; PyInt 20240101]]) ex_str_to_float ex_grouped
           [ex_account] ex_secrets_blank ex_checking ex_gauge_grouped tt).
  - repeat constructor. exists "T1". split; [reflexivity|by eexists].
  - vm_compute. reflexivity.
Defined.

(** The gauge of the example takes the points of a cycle over the two minor
    rows: the cycle runs as against a gauge that refuses nothing, and its
    points carry the keys of the target, the charge type and the group
    label. *)
Lemma written_points_follow_the_gauge_schema_witness :
  exporter_labels ex_grouped [ex_account]
  = inr ({["Team"]} ∪ ({["ChargeType"]} ∪ dom ex_account))
  ∧ fetch ex_today (ex_usage ex_minor_rows) ex_str_to_float ex_grouped
      [ex_account] ex_secrets ex_checking ex_gauge_grouped tt
    = fetch ex_today (ex_usage ex_minor_rows) ex_str_to_float ex_grouped
        [ex_account] ex_secrets ex_checking (λ _, None) tt
  ∧ Forall (writes_under ({["Team"]} ∪ ({["ChargeType"]} ∪ dom ex_account)))
      (fetch ex_today (ex_usage ex_minor_rows) ex_str_to_float ex_grouped
         [ex_account] ex_secrets ex_checking ex_gauge_grouped tt).1.1.
Proof.
  split; [reflexivity|].
  apply (written_points_follow_the_gauge_schema ex_today (ex_usage ex_minor_rows)
           ex_str_to_float ex_grouped [ex_account] ex_secrets ex_checking
           ({["Team"]} ∪ ({["ChargeType"]} ∪ dom ex_account)) (dom ex_account) tt).
  - reflexivity.
  - repeat constructor.
  - apply elem_of_dom. by eexists.
  - apply elem_of_dom. by eexists.
Defined.

(** A target without [EnvironmentName] whose subscription is its own: the
    gauge has no such label, the working copy has it, no point is written
    for the subscription and its row raises the gauge's [ValueError]. *)
Lemma default_environment_is_refused_witness :
  ("EnvironmentName" ∉ ({["ChargeType"]} ∪ dom ex_bare_account : gset string))
  ∧ match_environment_name [ex_bare_account] "S1"
      (<["Subscription" := "S1"]> ex_bare_account) !! "EnvironmentName"
    = Some "DefaultEnv"
  ∧ gauge_sets
      (fetch_subscription ex_today (ex_usage [[PyFloat 12.5; PyInt 20240101]])
         ex_str_to_float ex_ungrouped [ex_bare_account] ex_secrets_S1 ex_checking
         ex_gauge_bare ex_bare_account "T1" (mk_credential "S1" "id1" "secret1")
         tt).1.1
    = []
  ∧ expose_metrics ex_str_to_float ex_ungrouped ex_gauge_bare
      (match_environment_name [ex_bare_account] "S1"
         (<["Subscription" := "S1"]> ex_bare_account))
      [PyFloat 12.5; PyInt 20240101] tt
    = ([], Raise (ValueError "Incorrect label names"), tt).
Proof.
  destruct (default_environment_is_refused ex_today
              (ex_usage [[PyFloat 12.5; PyInt 20240101]]) ex_str_to_float
              ex_ungrouped [ex_bare_account] ex_secrets_S1 ex_checking
              ({["ChargeType"]} ∪ dom ex_bare_account) ex_bare_account "T1"
              (mk_credential "S1" "id1" "secret1")) as (HL & Hcur & Hnone & Hrow).
  - reflexivity.
  - repeat constructor. apply not_elem_of_dom. reflexivity.
  - discriminate.
  - left. reflexivity.
  - split; [exact HL|]. split; [exact Hcur|]. split; [apply Hnone|].
    apply (Hrow _ (PyFloat 12.5) 12.5%float); [reflexivity|reflexivity|discriminate].
Defined.

(** Two completed cycles over two targets of tenant T1: two passes. *)
Lemma every_cycle_visits_every_tenant_witness :
  tenant_passes
    (run_metrics_loop ex_today (ex_usage [[PyFloat 12.5; PyInt 20240101]])
       ex_str_to_float ex_ungrouped [ex_account; ex_account_S3] ex_secrets
       ex_checking ex_gauge ex_sleep 2 tt).1.1
  = ["T1"; "T1"].
Proof.
  rewrite (every_cycle_visits_every_tenant ex_today
             (ex_usage [[PyFloat 12.5; PyInt 20240101]]) ex_str_to_float
             ex_ungrouped [ex_account; ex_account_S3] ex_secrets ex_checking
             ex_gauge ex_sleep 2 tt).
  - vm_compute. reflexivity.
  - vm_compute. reflexivity.
Defined.

(** The API answers in the first cycle and is down after the pause: the
    second cycle raises, and however many cycles were to follow, the loop
    ends there with that exception. *)
Lemma failed_cycle_ends_the_loop_witness :
  run_metrics_loop ex_today_switch ex_usage_switch ex_str_to_float ex_ungrouped
    [ex_account] ex_secrets_S1 ex_checking ex_gauge ex_sleep_switch 5 false
  = ((run_metrics_loop ex_today_switch ex_usage_switch ex_str_to_float
        ex_ungrouped [ex_account] ex_secrets_S1 ex_checking ex_gauge
        ex_sleep_switch 1 false).1.1
     ++ [PrintQuerying "T1"; PrintProcessing "S1";
         QueryUsage (mk_client "T1" "id1" "secret1") "/subscriptions/S1"
           (cost_query ex_ungrouped (mk_datetime 2024 1 1 10 30 0 0 None)
              (mk_datetime 2024 1 2 10 30 0 0 None))],
     Raise (OtherError "ServiceRequestError"), true)
  ∧ gauge_sets
      (run_metrics_loop ex_today_switch ex_usage_switch ex_str_to_float
         ex_ungrouped [ex_account] ex_secrets_S1 ex_checking ex_gauge
         ex_sleep_switch 1 false).1.1
    = [({["ChargeType" := PyStr "ActualCost"; "TenantId" := PyStr "T1";
          "Subscription" := PyStr "S1"; "EnvironmentName" := PyStr "prod"]},
        12.5%float)].
Proof.
  split; [|vm_compute; reflexivity].
  apply (failed_cycle_ends_the_loop ex_today_switch ex_usage_switch
           ex_str_to_float ex_ungrouped [ex_account] ex_secrets_S1 ex_checking
           ex_gauge ex_sleep_switch 1 3 false _ true _ _ true).
  - vm_compute. reflexivity.
  - vm_compute. reflexivity.
Defined.

(** Merging switched off: a cost of 2 under the threshold of 5 is written
    under its own group value. *)
Lemma merge_disabled_ignores_threshold_witness :
  ∃ labels,
    expose_metrics ex_str_to_float ex_grouped_unmerged ex_gauge_grouped ex_account
      [PyFloat 2; PyInt 20240101; PyStr "A"] tt
    = ([GaugeSet labels 2; PrintExposing labels 2], Return tt, tt)
    ∧ labels !! "Team" = Some (PyStr "A")
    ∧ labels !! "TenantId" = Some (PyStr "T1").
Proof.
  destruct (merge_disabled_ignores_threshold ex_str_to_float ex_grouped_unmerged
              ex_gauge_grouped ex_account [PyFloat 2; PyInt 20240101; PyStr "A"]
              (PyFloat 2) 2%float tt)
    as (labels & _ & Hrun & _ & Hgroup & Hother);
    [reflexivity|reflexivity|reflexivity|reflexivity|simpl; lia|].
  exists labels. split; [apply Hrun; vm_compute; reflexivity|]. split.
  - apply (Hgroup 0 (mk_group "Dimension" "ServiceName" "Team")); [reflexivity|].
    intros [|j] g' Hlt Hg'; [lia|discriminate].
  - rewrite (Hother "TenantId"); [reflexivity|].
    intros g Hg. apply list_elem_of_singleton in Hg. subst g. discriminate.
Defined.

(** Three pairs, one key given twice: the later value stays. *)
Lemma key_value_arg_stores_pairs_witness :
  key_value_arg ["env=prod"; "team=a"; "env=dev"]
  = ({["env" := "dev"; "team" := "a"]}, false).
Proof.
  change ["env=prod"; "team=a"; "env=dev"]
    with (kvpair_of <$> [("env", "prod"); ("team", "a"); ("env", "dev")]).
  rewrite (key_value_arg_stores_pairs
             [("env", "prod"); ("team", "a"); ("env", "dev")]).
  - vm_compute. reflexivity.
  - repeat constructor.
Defined.

(** An argument without the sign after a good one: the assertion fails with
    the first pair stored and the third never read. *)
Lemma key_value_arg_asserts_witness :
  key_value_arg ["a=b"; "c"; "d=e"] = ({["a" := "b"]}, true).
Proof.
  rewrite (proj2 (key_value_arg_asserts ["a=b"; "c"; "d=e"]) ["a=b"] "c" ["d=e"]).
  - vm_compute. reflexivity.
  - reflexivity.
  - repeat constructor.
  - vm_compute. discriminate.
Defined.

(** The template for two targets of T1 resolves the credentials of S3 to
    the placeholders, which constructors that only refuse empty values and
    ill-formed tenant ids take. *)
Lemma generated_secrets_cover_the_targets_witness :
  ∃ written,
    generate_secret_yaml [ex_account; ex_account_S3] = inr written
    ∧ init_azure_client written ex_checking "T1" "S3" tt
      = ([], Return (mk_client "T1" "PUT_CLIENT_ID_HERE" "PUT_CLIENT_SECRET_HERE"),
         tt).
Proof.
  destruct (generated_secrets_cover_the_targets (World := unit)
              [ex_account; ex_account_S3]) as (written & Hgen & _ & Hinit).
  - repeat constructor; by eexists.
  - exists written. split; [exact Hgen|].
    rewrite (Hinit ex_checking ex_account_S3 "T1" "S3" tt);
      [reflexivity|set_solver|reflexivity|reflexivity].
Defined.

(** The record of S3 in that template comes from the target of S3, whose
    environment the working copy of S3 takes. *)
Lemma generated_secrets_are_declared_witness :
  ∃ pre t post,
    [ex_account; ex_account_S3] = pre ++ t :: post
    ∧ Forall (λ t', default "" (t' !! "Subscription") ≠ "S3") pre
    ∧ default "" (t !! "Subscription") = "S3"
    ∧ ∀ azure_account,
        match_environment_name [ex_account; ex_account_S3] "S3" azure_account
          !! "EnvironmentName"
        = Some (default "DefaultEnv" (t !! "EnvironmentName")).
Proof.
  apply (generated_secrets_are_declared [ex_account; ex_account_S3]
           {["T1" := [placeholder_credential "S1"; placeholder_credential "S3"]]}
           "T1" [placeholder_credential "S1"; placeholder_credential "S3"]
           (placeholder_credential "S3")).
  - vm_compute. reflexivity.
  - reflexivity.
  - set_solver.
Defined.

(** The example files, target and secrets are a valid start-up; a config
    that does not load ends the start-up with the exception of the load. *)
Lemma get_configs_returns_witness :
  valid_startup ex_files [ex_account] ex_loaded_secret
  ∧ get_configs ex_files
      (inl (ValueError "Strict mode enabled, variable $TENANT is not defined!"))
      (inr ex_loaded_secret)
    = Raised (ValueError "Strict mode enabled, variable $TENANT is not defined!").
Proof.
  split.
  - apply (proj1 (get_configs_returns ex_files (inr [ex_account])
                    (inr ex_loaded_secret) [ex_account] ex_loaded_secret)).
    vm_compute. reflexivity.
  - apply (proj1 (proj2 (get_configs_returns ex_files
                           (inl (ValueError
                                   "Strict mode enabled, variable $TENANT is not defined!"))
                           (inr ex_loaded_secret) [ex_account] ex_loaded_secret)));
      reflexivity.
Defined.

(** No secrets file: start-up ends with the template of both targets. *)
Lemma missing_secrets_file_gets_a_template_witness :
  ∃ written,
    get_configs ex_files_without_secret (inr [ex_account; ex_account_S3]) (inr ∅)
    = ExitSecretGenerated written
    ∧ generate_secret_yaml [ex_account; ex_account_S3] = inr written
    ∧ ∃ subs, written !! "T1" = Some subs ∧ "S3" ∈ SubscriptionId <$> subs.
Proof.
  destruct (missing_secrets_file_gets_a_template ex_files_without_secret
              ex_account [ex_account_S3] (inr ∅))
    as (written & Hrun & Hgen & Hcover).
  - reflexivity.
  - reflexivity.
  - apply elem_of_dom. by eexists.
  - apply elem_of_dom. by eexists.
  - repeat constructor.
  - reflexivity.
  - exists written. split; [exact Hrun|]. split; [exact Hgen|].
    destruct (Hcover ex_account_S3 ltac:(set_solver))
      as (tenant_id & subscription & subs & Ht & Hs & Hw & Hin).
    injection Ht as <-. injection Hs as <-. by exists subs.
Defined.

(** Start-up over the example files with a record whose client id is empty:
    the checks pass and the gauge's labels are defined, and the cycle that
    follows is cut short, by the constructor or inside a [try]. *)
Lemma validated_startup_guards_the_lookups_witness :
  (∃ L, exporter_labels ex_ungrouped [ex_account] = inr L)
  ∧ ((∃ tenant_id subs credentials t_before,
        loaded_credentials ex_loaded_secret_blank !! tenant_id = Some subs ∧
        credentials ∈ subs ∧
        ex_checking tenant_id (client_id credentials) (client_secret credentials)
        = Some (ValueError
                  "client_id should be the id of a Microsoft Entra application") ∧
        [PrintQuerying "T1"; PrintProcessing "S1"]
        = t_before ++ [PrintProcessing (SubscriptionId credentials)])
     ∨ (∃ azure_client subscription_id current w0 t_before t0,
          query_and_expose ex_today (ex_usage []) ex_str_to_float ex_ungrouped
            ex_gauge azure_client subscription_id current w0
          = (t0, Raise (ValueError
                          "client_id should be the id of a Microsoft Entra application"),
             tt)
          ∧ [PrintQuerying "T1"; PrintProcessing "S1"] = t_before ++ t0
          ∧ ∀ reason,
              ValueError
                "client_id should be the id of a Microsoft Entra application"
              ≠ HttpResponseError reason)).
Proof.
  destruct (validated_startup_guards_the_lookups ex_today (ex_usage [])
              ex_str_to_float ex_ungrouped ex_checking ex_gauge ex_files
              (inr [ex_account]) (inr ex_loaded_secret_blank)
              [ex_account] ex_loaded_secret_blank) as [HL Hrun].
  - vm_compute. reflexivity.
  - split; [exact HL|]. apply (Hrun tt). vm_compute. reflexivity.
Defined.
